(** * ngs::atrac9: the ATRAC9 voice module of the NGS audio engine

    A shallow embedding of [vita3k/ngs/src/modules/atrac9.cpp]:
    [get_buffer_parameter], [Module::on_state_change],
    [Module::decode_more_data] and [Module::process].

    Integers of the C++ code are kept in [Z]; where the source declares a
    fixed-width unsigned local the wrap-around is written out with [u32],
    [u16] and [u8]. *)

From Stdlib Require Import ZArith List Lia Bool.
Import ListNotations.
Local Open Scope Z_scope.

(** ** Fixed-width arithmetic *)

Definition u8 (z : Z) : Z := z mod 2 ^ 8.
Definition u16 (z : Z) : Z := z mod 2 ^ 16.
Definition u32 (z : Z) : Z := z mod 2 ^ 32.

(** [static_cast<std::int32_t>] of a 32-bit pattern. *)
Definition i32 (z : Z) : Z := (z + 2 ^ 31) mod 2 ^ 32 - 2 ^ 31.

Definition is_u32 (z : Z) : Prop := 0 <= z < 2 ^ 32.

(** Bits [lo .. lo+len-1] of a word, read as a number. *)
Definition bit_field (lo len w : Z) : Z := (w / 2 ^ lo) mod 2 ^ len.

(** Ceiling of a quotient of naturals, as the prose of the format
    description uses it. *)
Definition ceil_div (n d : Z) : Z :=
  if n mod d =? 0 then n / d else n / d + 1.

(** ** get_buffer_parameter

    [SkipBufferInfo] is declared in the header of the module; each field
    below holds the value of the 32-bit unsigned expression the function
    assigns to it. *)

Record SkipBufferInfo := mkSkipBufferInfo {
  num_bytes : Z;
  is_super_packet : Z;
  start_byte_offset : Z;
  start_skip : Z;
  end_skip : Z
}.

Definition sample_rate_index (info : Z) : Z :=
  u8 (Z.shiftr (Z.land info (Z.shiftl 15 12)) 12).

Definition block_rate_index (info : Z) : Z :=
  u8 (Z.shiftr (Z.land info (Z.shiftl 7 9)) 9).

Definition frame_bytes (info : Z) : Z :=
  u16 (u32 (Z.lor (Z.shiftl (Z.shiftr (Z.land info 16711680) 16) 3)
                  (Z.shiftr (Z.land info (u32 (Z.shiftl 7 29))) 29) + 1)).

Definition superframe_index (info : Z) : Z :=
  u8 (Z.shiftr (Z.land info (Z.shiftl 3 27)) 27).

Definition frame_per_superframe (info : Z) : Z :=
  u32 (Z.shiftl 1 (superframe_index info)).

Definition bytes_per_superframe (info : Z) : Z :=
  u32 (frame_bytes info * frame_per_superframe info).

Definition sample_rate_index_to_frame_sample_power : list Z :=
  [6; 6; 7; 7; 7; 8; 8; 8; 6; 6; 7; 7; 7; 8; 8; 8].

Definition samples_per_frame (info : Z) : Z :=
  u32 (Z.shiftl 1 (nth (Z.to_nat (sample_rate_index info))
                       sample_rate_index_to_frame_sample_power 0)).

Definition samples_per_superframe (info : Z) : Z :=
  u32 (samples_per_frame info * frame_per_superframe info).

Definition start_superframe (start_sample info : Z) : Z :=
  start_sample / samples_per_superframe info.

Definition num_superframe (start_sample num_samples info : Z) : Z :=
  u32 (u32 (start_sample + num_samples + samples_per_superframe info - 1)
         / samples_per_superframe info
       - start_superframe start_sample info).

Definition get_buffer_parameter (start_sample num_samples info : Z)
  : SkipBufferInfo :=
  let sps := samples_per_superframe info in
  let bps := bytes_per_superframe info in
  let ss := start_superframe start_sample info in
  let ns := num_superframe start_sample num_samples info in
  {| num_bytes := u32 (ns * bps);
     is_super_packet := if frame_per_superframe info =? 1 then 0 else 1;
     start_byte_offset := u32 (ss * bps);
     start_skip := u32 (start_sample - ss * sps);
     end_skip := u32 (u32 ((ss + ns) * sps) - u32 (start_sample + num_samples)) |}.

(** ** Outcome of a step

    [Undefined] marks an execution on which the C++ has no defined
    behaviour (an index outside [buffer_params], a copy or an erase outside
    a vector, a division by zero); [OutOfFuel] marks a [while] loop cut off
    by the fuel of the model. *)

Inductive result (A : Type) : Type :=
| Ok (a : A)
| Undefined
| OutOfFuel.

Arguments Ok {A} a.
Arguments Undefined {A}.
Arguments OutOfFuel {A}.

Definition bind {A B : Type} (c : result A) (k : A -> result B) : result B :=
  match c with
  | Ok a => k a
  | Undefined => Undefined
  | OutOfFuel => OutOfFuel
  end.

Notation "x <- c ;; k" := (bind c (fun x => k))
  (at level 61, c at next level, right associativity).
Notation "' pat <- c ;; k" := (bind c (fun pat => k))
  (at level 61, pat pattern, c at next level, right associativity).

(** ** Parameters, playback state and callbacks

    [BufferParameters], [Parameters] and [State] are declared in
    [ngs/modules/atrac9.h]; the fields below are the ones the module reads
    and writes.  The playback rate fields of [Parameters] only feed a
    warning and are left out.  [buffer] is the guest address of the data.
    The four public counters of [State] are [std::int32_t]: the decode
    step adds a [uint32_t] to each of them, an addition that is carried out
    in 32-bit unsigned arithmetic and stored back as a signed value, hence
    modulo [2 ^ 32] ([i32]).  The two internal cursors
    [decoded_samples_pending] and [decoded_passed] are stored reduced to
    32 bits, the unsigned values the cast in [process] takes them for.  The
    byte position and the loop counter are kept as integers without a
    width: a run that would take one of them out of the range of
    [std::int32_t] is outside the model. *)

Record BufferParameters := mkBufferParameters {
  buffer : Z;
  bytes_count : Z;
  loop_count : Z;
  next_buffer_index : Z;
  samples_discard_start_off : Z;
  samples_discard_end_off : Z
}.

Record Parameters := mkParameters {
  buffer_params : list BufferParameters;
  config_data : Z
}.

Record State := mkState {
  current_byte_position_in_buffer : Z;
  current_loop_count : Z;
  current_buffer : Z;
  samples_generated_since_key_on : Z;
  bytes_consumed_since_key_on : Z;
  samples_generated_total : Z;
  total_bytes_consumed : Z;
  decoded_samples_pending : Z;
  decoded_passed : Z
}.

Definition State_zero : State := mkState 0 0 0 0 0 0 0 0 0.

Inductive CallbackReason :=
| SCE_NGS_AT9_END_OF_DATA
| SCE_NGS_AT9_SWAPPED_BUFFER
| SCE_NGS_AT9_LOOPED_BUFFER
| SCE_NGS_AT9_DECODE_ERROR.

(** One call of [data.invoke_callback(kern, mem, thread_id, reason, arg1, arg2)]. *)
Record Callback := mkCallback {
  reason : CallbackReason;
  arg1 : Z;
  arg2 : Z
}.

Inductive DecoderQuery :=
| AT9_SUPERFRAME_SIZE
| AT9_SAMPLE_PER_FRAME
| AT9_SAMPLE_PER_SUPERFRAME
| AT9_FRAMES_IN_SUPERFRAME
| CHANNELS
| SAMPLE_RATE.

(** The state of the owning voice, as far as [on_state_change] looks at it. *)
Inductive VoiceState :=
| VOICE_STATE_AVAILABLE
| VOICE_STATE_OTHER.

(** ** on_state_change *)

Definition on_state_change (voice_state : VoiceState) (is_keyed_off : bool)
    (state : State) : State :=
  match voice_state with
  | VOICE_STATE_AVAILABLE =>
      mkState 0 0 0
        (samples_generated_since_key_on state)
        (bytes_consumed_since_key_on state)
        (samples_generated_total state)
        (total_bytes_consumed state)
        (decoded_samples_pending state)
        (decoded_passed state)
  | VOICE_STATE_OTHER =>
      if is_keyed_off then
        mkState (current_byte_position_in_buffer state)
          (current_loop_count state)
          (current_buffer state)
          0 0
          (samples_generated_total state)
          (total_bytes_consumed state)
          (decoded_samples_pending state)
          (decoded_passed state)
      else state
  end.

(** ** Buffer chain *)

(** [params->buffer_params[i]]: the array has four entries. *)
Definition lookup_buffer (params : Parameters) (i : Z) : result BufferParameters :=
  if (0 <=? i) && (i <? 4) then
    match nth_error (buffer_params params) (Z.to_nat i) with
    | Some b => Ok b
    | None => Undefined
    end
  else Undefined.

(** The [for (int k = 0; k < 4 && current_buffer != -1 && ... == 0; k++)]
    loop; [k] counts the iterations that are left. *)
Fixpoint skip_empty (k : nat) (params : Parameters) (current : Z) : result Z :=
  match k with
  | O => Ok current
  | S k' =>
      if current =? -1 then Ok current
      else
        b <- lookup_buffer params current ;;
        if bytes_count b =? 0
        then skip_empty k' params (next_buffer_index b)
        else Ok current
  end.

(** ** Discard trimming of one superframe

    Lines 163-181 of the decode step: returns [decoded_start_offset] and
    [decoded_size]. *)
Definition discard_trim (samples_per_superframe superframe_size : Z)
    (bufparam : BufferParameters) (position frame_bytes_gotten : Z) : Z * Z :=
  let decoded_size := samples_per_superframe in
  let decoded_start_offset := 0 in
  let sample_index :=
    u32 (u32 position / superframe_size * samples_per_superframe) in
  let '(decoded_start_offset, decoded_size) :=
    if u32 (samples_discard_start_off bufparam) >? sample_index then
      let skipped_samples :=
        Z.min samples_per_superframe
              (u32 (samples_discard_start_off bufparam - sample_index)) in
      (u32 (decoded_start_offset + skipped_samples),
       u32 (decoded_size - skipped_samples))
    else (decoded_start_offset, decoded_size) in
  let samples_left_after :=
    u32 ((frame_bytes_gotten / superframe_size - 1) * samples_per_superframe) in
  let decoded_size :=
    if u32 (samples_discard_end_off bufparam) >? samples_left_after then
      let skipped_samples :=
        Z.min samples_per_superframe
              (u32 (samples_discard_end_off bufparam - samples_left_after)) in
      u32 (decoded_size - samples_discard_end_off bufparam)
    else decoded_size in
  (decoded_start_offset, decoded_size).

(** ** The decoder capability

    [Atrac9DecoderState] lives outside this module.  A decoder object is a
    configuration word together with a mutable bitstream context; the
    answers of [get] are fixed by the configuration word.  [receive] stands
    for [decoder->receive] followed by [swr_convert]: it yields the decoded
    frame as interleaved stereo float sample-frames, [decoder_size.samples]
    of them. *)

Class DecoderState (frame context : Type) := {
  create : Z -> context;
  get : Z -> DecoderQuery -> Z;
  get_es_size : context -> Z;
  send : context -> Z -> bool * context;
  receive : context -> list frame * context;
  clear_context : context -> context
}.

(** A sample-frame of zero bytes. *)
Class Silence (frame : Type) := silence : frame.

Section Voice.
Context {frame context : Type} {codec : DecoderState frame context}
  {zero : Silence frame}.

(** [ModuleData] as far as the module touches it: the playback state, the
    backlog [extra_storage] counted in sample-frames of
    [2 * sizeof(float)] bytes, the callbacks invoked so far (oldest
    first) and [parent->products[0].data] as an offset into the backlog. *)
Record ModuleData := mkModuleData {
  state : State;
  extra_storage : list frame;
  invoked : list Callback;
  product : Z
}.

(** The fields of [Module]: the decoder, when one was built, and the
    configuration word it was built from. *)
Record Module := mkModule {
  decoder : option (Z * context);
  last_config : Z
}.

Definition size (storage : list frame) : Z := Z.of_nat (length storage).

(** [std::vector::resize]: new elements are zero. *)
Definition resize (n : Z) (storage : list frame) : list frame :=
  firstn (Z.to_nat n) storage
  ++ repeat silence (Z.to_nat n - length storage).

(** Overwrite [length src] cells of [dst] from cell [pos] on. *)
Definition write_at (pos : Z) (src dst : list frame) : list frame :=
  firstn (Z.to_nat pos) dst ++ src
  ++ skipn (Z.to_nat pos + length src) dst.

(** The [erase] at the head of [decode_more_data]. *)
Definition compact (data : ModuleData) : result ModuleData :=
  match extra_storage data with
  | [] => Ok data
  | _ :: _ =>
      let st := state data in
      if decoded_passed st <=? size (extra_storage data) then
        Ok (mkModuleData
              (mkState (current_byte_position_in_buffer st)
                 (current_loop_count st) (current_buffer st)
                 (samples_generated_since_key_on st)
                 (bytes_consumed_since_key_on st)
                 (samples_generated_total st) (total_bytes_consumed st)
                 (decoded_samples_pending st) 0)
              (skipn (Z.to_nat (decoded_passed st)) (extra_storage data))
              (invoked data) (product data))
      else Undefined
  end.

(** Lines 95-120: the loop counter, the move along the chain and the
    callbacks of one exhausted buffer. *)
Definition advance_buffer (params : Parameters) (bufparam : BufferParameters)
    (st : State) : result (State * list Callback) :=
  let with_loop (buf count : Z) :=
    mkState (current_byte_position_in_buffer st) count buf
      (samples_generated_since_key_on st) (bytes_consumed_since_key_on st)
      (samples_generated_total st) (total_bytes_consumed st)
      (decoded_samples_pending st) (decoded_passed st) in
  let count := current_loop_count st + 1 in
  if negb (loop_count bufparam =? -1) && (count >? loop_count bufparam) then
    let next := next_buffer_index bufparam in
    if next =? -1 then
      Ok (with_loop next 0, [mkCallback SCE_NGS_AT9_END_OF_DATA 0 0])
    else
      b <- lookup_buffer params next ;;
      Ok (with_loop next 0, [mkCallback SCE_NGS_AT9_SWAPPED_BUFFER 0 (buffer b)])
  else
    Ok (with_loop (current_buffer st) count,
        [mkCallback SCE_NGS_AT9_SWAPPED_BUFFER count (buffer bufparam);
         mkCallback SCE_NGS_AT9_LOOPED_BUFFER count (buffer bufparam)]).

(** Lines 128-144: is there something to decode after the move? *)
Definition find_data (params : Parameters) (current : Z) : result bool :=
  if current =? -1 then Ok false
  else
    b <- lookup_buffer params current ;;
    if bytes_count b =? 0 then
      current' <- skip_empty 4 params current ;;
      if current' =? -1 then Ok false
      else
        b' <- lookup_buffer params current' ;;
        Ok (negb (bytes_count b' =? 0))
    else Ok true.

(** What the frame loop of lines 190-233 leaves behind: the error flag,
    the loop variable [frame], the decoder context, the byte position and
    the scratch vector [decoded_superframe_samples]. *)
Record FrameLoop := mkFrameLoop {
  got_decode_error : bool;
  frames_done : Z;
  loop_context : context;
  loop_position : Z;
  scratch : list frame
}.

(** [remaining] iterations of the frame loop; [input] is
    [bufparam.buffer] and [write_pos] is [decoded_superframe_pos] in
    sample-frames. *)
Fixpoint decode_frames (remaining : nat) (ctx : context) (input position : Z)
    (frame_no write_pos : Z) (samples : list frame) : result FrameLoop :=
  match remaining with
  | O => Ok (mkFrameLoop false frame_no ctx position samples)
  | S remaining' =>
      let '(sent, ctx1) := send ctx (input + position) in
      if sent then
        let '(pcm, ctx2) := receive ctx1 in
        if write_pos + size pcm <=? size samples then
          decode_frames remaining' ctx2 input (position + get_es_size ctx2)
            (frame_no + 1) (write_pos + size pcm)
            (write_at write_pos pcm samples)
        else Undefined
      else Ok (mkFrameLoop true frame_no ctx1 position samples)
  end.

(** Lines 148-256: one superframe through the decoder. *)
Definition decode_superframe (params : Parameters) (config : Z)
    (ctx : context) (bufparam : BufferParameters) (data : ModuleData)
  : result (bool * ModuleData * context) :=
  let st := state data in
  let superframe_size := u32 (get config AT9_SUPERFRAME_SIZE) in
  let frame_bytes_gotten :=
    u32 (bytes_count bufparam - current_byte_position_in_buffer st) in
  if frame_bytes_gotten <? superframe_size then Ok (false, data, ctx)
  else if superframe_size =? 0 then Undefined
  else
    let curr_pos := decoded_samples_pending st in
    let samples_per_superframe := u32 (get config AT9_SAMPLE_PER_SUPERFRAME) in
    let '(decoded_start_offset, decoded_size) :=
      discard_trim samples_per_superframe superframe_size bufparam
        (current_byte_position_in_buffer st) frame_bytes_gotten in
    let storage := resize (curr_pos + decoded_size) (extra_storage data) in
    loop <- decode_frames
              (Z.to_nat (u32 (get config AT9_FRAMES_IN_SUPERFRAME))) ctx
              (buffer bufparam) (current_byte_position_in_buffer st) 0 0
              (repeat silence (Z.to_nat samples_per_superframe)) ;;
    if decoded_start_offset + decoded_size <=? samples_per_superframe then
      let storage :=
        write_at curr_pos
          (firstn (Z.to_nat decoded_size)
             (skipn (Z.to_nat decoded_start_offset) (scratch loop)))
          storage in
      let '(events, ctx') :=
        if got_decode_error loop then
          ([mkCallback SCE_NGS_AT9_DECODE_ERROR (loop_position loop)
              (buffer bufparam)],
           clear_context (loop_context loop))
        else ([], loop_context loop) in
      Ok (true,
          mkModuleData
            (mkState (loop_position loop) (current_loop_count st)
               (current_buffer st)
               (i32 (samples_generated_since_key_on st + decoded_size))
               (i32 (bytes_consumed_since_key_on st + superframe_size))
               (i32 (samples_generated_total st + decoded_size))
               (i32 (total_bytes_consumed st + superframe_size))
               (u32 (decoded_samples_pending st + decoded_size))
               (decoded_passed st))
            storage (invoked data ++ events) (product data),
          ctx')
    else Undefined.

(** [Module::decode_more_data]; the result is its return value together
    with the module data and the decoder context it leaves. *)
Definition decode_more_data (params : Parameters) (config : Z)
    (ctx : context) (data : ModuleData)
  : result (bool * ModuleData * context) :=
  bufparam <- lookup_buffer params (current_buffer (state data)) ;;
  data <- compact data ;;
  let st := state data in
  if current_byte_position_in_buffer st >=? bytes_count bufparam then
    '(st', events) <- advance_buffer params bufparam st ;;
    let st'' :=
      mkState 0 (current_loop_count st') (current_buffer st')
        (samples_generated_since_key_on st') (bytes_consumed_since_key_on st')
        (samples_generated_total st') (total_bytes_consumed st')
        (decoded_samples_pending st') (decoded_passed st') in
    more <- find_data params (current_buffer st') ;;
    Ok (more,
        mkModuleData st'' (extra_storage data) (invoked data ++ events)
          (product data),
        ctx)
  else decode_superframe params config ctx bufparam data.

(** Modelled from the spec: [ModuleData::fill_to_fit_granularity] is
    defined with the voice scheduler, outside this module; it pads the
    backlog with silence up to exactly [granularity] sample-frames. *)
Definition fill_to_fit_granularity (granularity : Z) (storage : list frame)
  : list frame :=
  storage ++ repeat silence (Z.to_nat (granularity - size storage)).

(** The exit of [process] when [decode_more_data] returned [false]. *)
Definition give_padded (granularity : Z) (data : ModuleData) : ModuleData :=
  let st := state data in
  mkModuleData
    (mkState (current_byte_position_in_buffer st) (current_loop_count st)
       (current_buffer st) 0 0
       (samples_generated_total st) (total_bytes_consumed st)
       (decoded_samples_pending st) (decoded_passed st))
    (fill_to_fit_granularity granularity (extra_storage data))
    (invoked data) 0.

(** Lines 288-296: hand out [granularity] sample-frames of the backlog. *)
Definition give_slice (granularity : Z) (data : ModuleData) : ModuleData :=
  let st := state data in
  let samples_to_be_passed := u32 granularity in
  mkModuleData
    (mkState (current_byte_position_in_buffer st) (current_loop_count st)
       (current_buffer st)
       (samples_generated_since_key_on st) (bytes_consumed_since_key_on st)
       (samples_generated_total st) (total_bytes_consumed st)
       (if decoded_samples_pending st <? samples_to_be_passed then 0
        else u32 (decoded_samples_pending st - samples_to_be_passed))
       (u32 (decoded_passed st + samples_to_be_passed)))
    (extra_storage data) (invoked data) (decoded_passed st).

(** The [while] loop of [process] and what follows it. *)
Fixpoint process_loop (fuel : nat) (granularity : Z) (params : Parameters)
    (config : Z) (ctx : context) (data : ModuleData)
  : result (bool * ModuleData * context) :=
  if i32 (decoded_samples_pending (state data)) <? granularity then
    match fuel with
    | O => OutOfFuel
    | S fuel' =>
        '(more, data', ctx') <- decode_more_data params config ctx data ;;
        if more
        then process_loop fuel' granularity params config ctx' data'
        else Ok (true, give_padded granularity data', ctx')
    end
  else Ok (false, give_slice granularity data, ctx).

(** [Module::process]. *)
Definition process (fuel : nat) (granularity : Z) (params : Parameters)
    (self : Module) (data : ModuleData)
  : result (bool * ModuleData * Module) :=
  if current_buffer (state data) =? -1 then Ok (true, data, self)
  else
    b <- lookup_buffer params (current_buffer (state data)) ;;
    if buffer b =? 0 then Ok (true, data, self)
    else
      let '(config, ctx) :=
        match decoder self with
        | Some (config, ctx) =>
            if negb (config_data params =? last_config self)
            then (config_data params, create (config_data params))
            else (config, ctx)
        | None => (config_data params, create (config_data params))
        end in
      '(finished, data', ctx') <-
        process_loop fuel granularity params config ctx data ;;
      Ok (finished, data',
          mkModule (Some (config, ctx'))
            (match decoder self with
             | Some _ =>
                 if negb (config_data params =? last_config self)
                 then config_data params else last_config self
             | None => config_data params
             end)).

(** The region a consumer reads through [products[0].data]. *)
Definition published (granularity : Z) (data : ModuleData) : list frame :=
  firstn (Z.to_nat granularity)
    (skipn (Z.to_nat (product data)) (extra_storage data)).

(** A voice lives through ticks and state changes. *)
Inductive VoiceEvent :=
| Tick (fuel : nat) (params : Parameters)
| StateChange (voice_state : VoiceState) (is_keyed_off : bool).

Fixpoint run (granularity : Z) (events : list VoiceEvent) (self : Module)
    (data : ModuleData) : result (ModuleData * Module) :=
  match events with
  | [] => Ok (data, self)
  | Tick fuel params :: rest =>
      '(_, data', self') <- process fuel granularity params self data ;;
      run granularity rest self' data'
  | StateChange voice_state is_keyed_off :: rest =>
      run granularity rest self
        (mkModuleData (on_state_change voice_state is_keyed_off (state data))
           (extra_storage data) (invoked data) (product data))
  end.

Definition ModuleData_zero : ModuleData := mkModuleData State_zero [] [] 0.
Definition Module_zero : Module := mkModule None 0.

(** [hops params j from to]: [j] moves along [next_buffer_index], each
    one leaving a non-terminal buffer of zero bytes. *)
Inductive hops (params : Parameters) : nat -> Z -> Z -> Prop :=
| hops_stay current : hops params 0 current current
| hops_move j current b final :
    current <> -1 ->
    lookup_buffer params current = Ok b ->
    bytes_count b = 0 ->
    hops params j (next_buffer_index b) final ->
    hops params (S j) current final.

(** A buffer index that is not terminal and names a buffer with data. *)
Definition has_data (params : Parameters) (current : Z) : Prop :=
  current <> -1 /\
  exists b, lookup_buffer params current = Ok b /\ bytes_count b <> 0.

(** The bookkeeping of the backlog: it holds the consumed and the pending
    sample-frames and nothing else, or, after a tick that ran out of
    data, the pending ones padded with silence to [granularity]. *)
Definition backlog_ok (granularity : Z) (data : ModuleData) : Prop :=
  let st := state data in
  0 <= decoded_samples_pending st /\
  0 <= decoded_passed st /\
  decoded_samples_pending st + decoded_passed st < 2 ^ 31 /\
  (size (extra_storage data)
     = decoded_samples_pending st + decoded_passed st
   \/ (decoded_passed st = 0 /\
       decoded_samples_pending st < granularity /\
       size (extra_storage data) = granularity /\
       skipn (Z.to_nat (decoded_samples_pending st)) (extra_storage data)
         = repeat silence (Z.to_nat (granularity - decoded_samples_pending st)))).

End Voice.

(** ** A scripted decoder for the examples

    A superframe of 8 bytes holds two frames of 4 bytes, each of 2
    samples.  The configuration word is the number of the submission that
    fails (none when it is negative); the context pairs it with the count
    of submissions so far, and a decoded sample-frame carries the number of
    the submission it came from. *)

Definition scripted_get (config : Z) (query : DecoderQuery) : Z :=
  match query with
  | AT9_SUPERFRAME_SIZE => 8
  | AT9_SAMPLE_PER_FRAME => 2
  | AT9_SAMPLE_PER_SUPERFRAME => 4
  | AT9_FRAMES_IN_SUPERFRAME => 2
  | CHANNELS => 2
  | SAMPLE_RATE => 48000
  end.

Definition scripted_silence : Silence Z := 0.

Definition scripted_decoder : DecoderState Z (Z * Z) :=
  {| create := fun config => (config, 0);
     get := scripted_get;
     get_es_size := fun _ => 4;
     send := fun ctx _ => (negb (snd ctx =? fst ctx), (fst ctx, snd ctx + 1));
     receive := fun ctx => ([snd ctx; snd ctx], ctx);
     clear_context := fun ctx => ctx |}.

Definition scripted_decode_more_data :=
  @decode_more_data Z (Z * Z) scripted_decoder scripted_silence.
Definition scripted_process :=
  @process Z (Z * Z) scripted_decoder scripted_silence.
Definition scripted_run :=
  @run Z (Z * Z) scripted_decoder scripted_silence.
Definition idle_data : @ModuleData Z := ModuleData_zero.
Definition idle_module : @Module (Z * Z) := Module_zero.

(** The idle voice with the byte position moved to [position]. *)
Definition data_at (position : Z) : @ModuleData Z :=
  mkModuleData (mkState position 0 0 0 0 0 0 0 0) [] [] 0.

(** One buffer of two superframes at guest address 4096, end of chain. *)
Definition one_buffer (config : Z) : Parameters :=
  mkParameters [mkBufferParameters 4096 16 0 (-1) 0 0] config.

(** A buffer of one superframe played with [loop_count = 2], followed by a
    second buffer that ends the chain. *)
Definition looping_chain : Parameters :=
  mkParameters
    [mkBufferParameters 4096 8 2 1 0 0; mkBufferParameters 8192 8 0 (-1) 0 0]
    (-1).

(** One buffer of two superframes that asks for five samples, more than
    a superframe, to be discarded at its end. *)
Definition long_end_discard : Parameters :=
  mkParameters [mkBufferParameters 4096 16 0 (-1) 0 5] (-1).

(** An empty buffer that loops for ever in front of a buffer with data. *)
Definition spinning_chain : Parameters :=
  mkParameters
    [mkBufferParameters 4096 0 (-1) 1 0 0; mkBufferParameters 8192 8 0 (-1) 0 0]
    (-1).

(** One buffer of five bytes, less than a superframe of the scripted
    decoder. *)
Definition short_chain : Parameters :=
  mkParameters [mkBufferParameters 4096 5 0 (-1) 0 0] (-1).

(** One buffer of twenty bytes: two superframes of the scripted decoder
    and a rest of four bytes. *)
Definition ragged_buffer : Parameters :=
  mkParameters [mkBufferParameters 4096 20 0 (-1) 0 0] (-1).

(** An empty buffer that ends the chain. *)
Definition empty_chain : Parameters :=
  mkParameters [mkBufferParameters 4096 0 0 (-1) 0 0] (-1).

(** Three empty buffers in a ring behind a played one. *)
Definition empty_ring : Parameters :=
  mkParameters
    [mkBufferParameters 4096 8 0 1 0 0; mkBufferParameters 8192 0 0 2 0 0;
     mkBufferParameters 12288 0 0 3 0 0; mkBufferParameters 16384 0 0 1 0 0]
    (-1).

(** A decoder whose failures are tied to the data, with the layout of the
    scripted one: the configuration word is the guest address of a corrupt
    frame, and every submission of that frame fails.  The context pairs the
    word with the address of the last frame submitted; a decoded
    sample-frame carries the address of the frame it came from. *)
Definition corrupt_frame_decoder : DecoderState Z (Z * Z) :=
  {| create := fun config => (config, 0);
     get := scripted_get;
     get_es_size := fun _ => 4;
     send := fun ctx input => (negb (input =? fst ctx), (fst ctx, input));
     receive := fun ctx => ([snd ctx; snd ctx], ctx);
     clear_context := fun ctx => ctx |}.

Definition corrupt_frame_process :=
  @process Z (Z * Z) corrupt_frame_decoder scripted_silence.

(** ** Notions used by the further properties *)

(** The sample-frames of the backlog that are decoded and not yet handed
    out: [decoded_samples_pending] frames from the cursor [decoded_passed]
    on. *)
Definition pending_frames {frame : Type} (data : @ModuleData frame)
  : list frame :=
  firstn (Z.to_nat (decoded_samples_pending (state data)))
    (skipn (Z.to_nat (decoded_passed (state data))) (extra_storage data)).


(** The samples kept from [n] consecutive superframes of a buffer, the
    first of them superframe number [k], each trimmed at its own byte
    position [k * superframe_size]. *)
Fixpoint kept_samples (n : nat) (k sps superframe_size : Z)
    (bufparam : BufferParameters) : Z :=
  match n with
  | O => 0
  | S n' =>
      snd (discard_trim sps superframe_size bufparam (k * superframe_size)
             (u32 (bytes_count bufparam - k * superframe_size)))
      + kept_samples n' (k + 1) sps superframe_size bufparam
  end.

(** The sample-frames the decoder delivers for up to [n] frames read from
    [input + position] on, up to the first submission that fails. *)
Fixpoint delivered {frame context : Type} {codec : DecoderState frame context}
    (n : nat) (ctx : context) (input position : Z) : list frame :=
  match n with
  | O => []
  | S n' =>
      let '(sent, ctx1) := send ctx (input + position) in
      if sent then
        let '(pcm, ctx2) := receive ctx1 in
        pcm ++ delivered n' ctx2 input (position + get_es_size ctx2)
      else []
  end.

(** ** Bit-field lemmas *)

Lemma mask_shift (x k n : Z) :
  0 <= k -> 0 <= n ->
  Z.shiftr (Z.land x (Z.shiftl (Z.ones n) k)) k = bit_field k n x.
Proof.
  intros Hk Hn. unfold bit_field.
  rewrite Z.shiftr_land, Z.shiftr_shiftl_l by lia.
  rewrite Z.sub_diag, Z.shiftl_0_r, Z.land_ones by lia.
  now rewrite Z.shiftr_div_pow2 by lia.
Qed.

Lemma bit_field_range (lo len w : Z) :
  0 <= len -> 0 <= bit_field lo len w < 2 ^ len.
Proof.
  intros. unfold bit_field. apply Z.mod_pos_bound. apply Z.pow_pos_nonneg; lia.
Qed.

Lemma sample_rate_index_bits info :
  sample_rate_index info = bit_field 12 4 info.
Proof.
  unfold sample_rate_index, u8.
  change 15 with (Z.ones 4). rewrite mask_shift by lia.
  pose proof (bit_field_range 12 4 info). apply Z.mod_small. lia.
Qed.

Lemma block_rate_index_bits info :
  block_rate_index info = bit_field 9 3 info.
Proof.
  unfold block_rate_index, u8.
  change 7 with (Z.ones 3). rewrite mask_shift by lia.
  pose proof (bit_field_range 9 3 info). apply Z.mod_small. lia.
Qed.

Lemma superframe_index_bits info :
  superframe_index info = bit_field 27 2 info.
Proof.
  unfold superframe_index, u8.
  change 3 with (Z.ones 2). rewrite mask_shift by lia.
  pose proof (bit_field_range 27 2 info). apply Z.mod_small. lia.
Qed.

Lemma lor_shiftl_small (a b k : Z) :
  0 <= k -> 0 <= b < 2 ^ k -> Z.lor (Z.shiftl a k) b = a * 2 ^ k + b.
Proof.
  intros Hk Hb.
  assert (Hd : Z.land (Z.shiftl a k) b = 0).
  { apply Z.bits_inj'. intros n Hn.
    rewrite Z.land_spec, Z.bits_0.
    destruct (Z.ltb_spec n k).
    - rewrite Z.shiftl_spec_low by lia. reflexivity.
    - replace b with (b mod 2 ^ k) by (apply Z.mod_small; lia).
      rewrite Z.mod_pow2_bits_high by lia. apply andb_false_r. }
  rewrite <- Z.lxor_lor by exact Hd.
  rewrite <- Z.add_nocarry_lxor by exact Hd.
  now rewrite Z.shiftl_mul_pow2 by lia.
Qed.

Lemma frame_bytes_bits info :
  frame_bytes info = bit_field 16 8 info * 8 + bit_field 29 3 info + 1.
Proof.
  unfold frame_bytes.
  change 16711680 with (Z.shiftl (Z.ones 8) 16).
  change (u32 (Z.shiftl 7 29)) with (Z.shiftl (Z.ones 3) 29).
  rewrite !mask_shift by lia.
  pose proof (bit_field_range 16 8 info).
  pose proof (bit_field_range 29 3 info).
  rewrite lor_shiftl_small by lia.
  unfold u16, u32. change (2 ^ 3) with 8.
  rewrite (Z.mod_small _ (2 ^ 32)) by lia.
  apply Z.mod_small. lia.
Qed.

(** ** Ranges of the layout constants *)

Lemma superframe_index_range info : 0 <= superframe_index info < 4.
Proof.
  rewrite superframe_index_bits. apply (bit_field_range 27 2 info). lia.
Qed.

Lemma frame_per_superframe_pow info :
  frame_per_superframe info = 2 ^ superframe_index info.
Proof.
  unfold frame_per_superframe, u32.
  pose proof (superframe_index_range info) as Hr.
  rewrite Z.shiftl_1_l. apply Z.mod_small.
  assert (Hc : superframe_index info = 0 \/ superframe_index info = 1 \/
               superframe_index info = 2 \/ superframe_index info = 3) by lia.
  destruct Hc as [-> | [-> | [-> | ->]]]; cbn; lia.
Qed.

Lemma frame_per_superframe_range info : 1 <= frame_per_superframe info <= 8.
Proof.
  rewrite frame_per_superframe_pow.
  pose proof (superframe_index_range info) as Hr.
  assert (Hc : superframe_index info = 0 \/ superframe_index info = 1 \/
               superframe_index info = 2 \/ superframe_index info = 3) by lia.
  destruct Hc as [-> | [-> | [-> | ->]]]; cbn; lia.
Qed.

Lemma samples_per_frame_pow info :
  samples_per_frame info =
    2 ^ nth (Z.to_nat (sample_rate_index info))
            sample_rate_index_to_frame_sample_power 0
  /\ 64 <= samples_per_frame info <= 256.
Proof.
  unfold samples_per_frame.
  pose proof (bit_field_range 12 4 info) as Hr.
  rewrite sample_rate_index_bits.
  set (i := bit_field 12 4 info) in *.
  assert (Hn : (Z.to_nat i < 16)%nat) by lia.
  clearbody i.
  destruct (Z.to_nat i) as [|n]; [vm_compute; intuition congruence|].
  do 15 (destruct n as [|n]; [vm_compute; intuition congruence|]).
  lia.
Qed.

Lemma samples_per_superframe_eq info :
  samples_per_superframe info = samples_per_frame info * frame_per_superframe info
  /\ 64 <= samples_per_superframe info <= 2048.
Proof.
  unfold samples_per_superframe, u32.
  pose proof (samples_per_frame_pow info) as [_ Hf].
  pose proof (frame_per_superframe_range info) as Hs.
  rewrite Z.mod_small by nia. nia.
Qed.

Lemma frame_bytes_range info : 1 <= frame_bytes info <= 2048.
Proof.
  rewrite frame_bytes_bits.
  pose proof (bit_field_range 16 8 info).
  pose proof (bit_field_range 29 3 info). lia.
Qed.

Lemma bytes_per_superframe_eq info :
  bytes_per_superframe info = frame_bytes info * frame_per_superframe info.
Proof.
  unfold bytes_per_superframe, u32.
  pose proof (frame_bytes_range info).
  pose proof (frame_per_superframe_range info).
  apply Z.mod_small. nia.
Qed.

Lemma ceil_div_add (n d : Z) :
  0 <= n -> 0 < d -> (n + d - 1) / d = ceil_div n d.
Proof.
  intros Hn Hd. unfold ceil_div.
  pose proof (Z.div_mod n d ltac:(lia)) as Hq.
  pose proof (Z.mod_pos_bound n d Hd) as Hr.
  destruct (Z.eqb_spec (n mod d) 0) as [E | E].
  - symmetry. apply (Z.div_unique _ _ _ (d - 1)); lia.
  - symmetry. apply (Z.div_unique _ _ _ (n mod d - 1)); lia.
Qed.

Lemma ceil_div_bounds (n d : Z) :
  0 <= n -> 0 < d -> n <= ceil_div n d * d < n + d.
Proof.
  intros Hn Hd. unfold ceil_div.
  pose proof (Z.div_mod n d ltac:(lia)) as Hq.
  pose proof (Z.mod_pos_bound n d Hd) as Hr.
  destruct (Z.eqb_spec (n mod d) 0); nia.
Qed.

Lemma num_superframe_no_wrap start_sample num_samples info :
  is_u32 start_sample -> is_u32 num_samples ->
  start_sample + num_samples + samples_per_superframe info - 1 < 2 ^ 32 ->
  num_superframe start_sample num_samples info =
    ceil_div (start_sample + num_samples) (samples_per_superframe info)
    - start_superframe start_sample info
  /\ 0 <= num_superframe start_sample num_samples info.
Proof.
  unfold is_u32. intros Hs Hn Hw.
  pose proof (samples_per_superframe_eq info) as [_ Hsps].
  unfold num_superframe, start_superframe, u32.
  set (sps := samples_per_superframe info) in *.
  rewrite (Z.mod_small (start_sample + num_samples + sps - 1)) by lia.
  rewrite ceil_div_add by lia.
  pose proof (ceil_div_bounds (start_sample + num_samples) sps ltac:(lia) ltac:(lia)) as Hc.
  pose proof (Z.div_mod start_sample sps ltac:(lia)) as Hq.
  pose proof (Z.mod_pos_bound start_sample sps ltac:(lia)) as Hr.
  assert (start_sample / sps <= ceil_div (start_sample + num_samples) sps) by nia.
  assert (ceil_div (start_sample + num_samples) sps < 2 ^ 32) by nia.
  assert (0 <= start_sample / sps) by (apply Z.div_pos; lia).
  rewrite Z.mod_small by lia. lia.
Qed.

(** ** get_buffer_parameter: the skip information *)

Lemma skip_fields_no_wrap start_sample num_samples info :
  is_u32 start_sample -> is_u32 num_samples ->
  start_sample + num_samples + samples_per_superframe info - 1 < 2 ^ 32 ->
  let p := get_buffer_parameter start_sample num_samples info in
  let sps := samples_per_superframe info in
  start_skip p = start_sample mod sps /\
  end_skip p = ceil_div (start_sample + num_samples) sps * sps
               - (start_sample + num_samples).
Proof.
  intros Hs Hn Hw.
  destruct (num_superframe_no_wrap _ _ _ Hs Hn Hw) as [Hns Hns0].
  pose proof (samples_per_superframe_eq info) as [_ Hsps].
  unfold is_u32 in *. cbn zeta. unfold get_buffer_parameter. cbn [start_skip end_skip].
  rewrite Hns. unfold start_superframe, u32.
  set (sps := samples_per_superframe info) in *.
  pose proof (ceil_div_bounds (start_sample + num_samples) sps ltac:(lia) ltac:(lia)) as Hc.
  pose proof (Z.div_mod start_sample sps ltac:(lia)) as Hq.
  pose proof (Z.mod_pos_bound start_sample sps ltac:(lia)) as Hr.
  split.
  - rewrite Z.mod_small by nia. nia.
  - replace (start_sample / sps
             + (ceil_div (start_sample + num_samples) sps - start_sample / sps))
      with (ceil_div (start_sample + num_samples) sps) by lia.
    rewrite (Z.mod_small (ceil_div _ _ * sps)) by lia.
    rewrite (Z.mod_small (start_sample + num_samples)) by lia.
    apply Z.mod_small. lia.
Qed.

(** C6 (as amended): the packed format word is decoded field by field as
    the format description says, [samplesPerFrame] is two to the power of
    the table entry, [isSuperPacket] is set exactly when a superframe has
    more than one frame, and, as long as
    [start_sample + num_samples + samples_per_superframe - 1] fits in 32
    bits, the number of superframes is the ceiling formula; the two byte
    fields are the products reduced modulo [2^32]. *)
Theorem get_buffer_parameter_layout (start_sample num_samples info : Z) :
  is_u32 start_sample -> is_u32 num_samples ->
  start_sample + num_samples + samples_per_superframe info - 1 < 2 ^ 32 ->
  let p := get_buffer_parameter start_sample num_samples info in
  let ns := num_superframe start_sample num_samples info in
  let ss := start_superframe start_sample info in
  sample_rate_index info = bit_field 12 4 info /\
  block_rate_index info = bit_field 9 3 info /\
  frame_bytes info = bit_field 16 8 info * 8 + bit_field 29 3 info + 1 /\
  superframe_index info = bit_field 27 2 info /\
  frame_per_superframe info = 2 ^ superframe_index info /\
  bytes_per_superframe info = frame_bytes info * frame_per_superframe info /\
  sample_rate_index_to_frame_sample_power
    = [6; 6; 7; 7; 7; 8; 8; 8; 6; 6; 7; 7; 7; 8; 8; 8] /\
  samples_per_frame info
    = 2 ^ nth (Z.to_nat (sample_rate_index info))
              sample_rate_index_to_frame_sample_power 0 /\
  samples_per_superframe info
    = samples_per_frame info * frame_per_superframe info /\
  0 < samples_per_superframe info /\
  ss = start_sample / samples_per_superframe info /\
  ns = ceil_div (start_sample + num_samples) (samples_per_superframe info) - ss /\
  num_bytes p = (ns * bytes_per_superframe info) mod 2 ^ 32 /\
  start_byte_offset p = (ss * bytes_per_superframe info) mod 2 ^ 32 /\
  (is_super_packet p = 1 <-> 1 < frame_per_superframe info) /\
  (is_super_packet p = 0 <-> frame_per_superframe info = 1).
Proof.
  intros Hs Hn Hw p ns ss.
  destruct (num_superframe_no_wrap _ _ _ Hs Hn Hw) as [Hns _].
  pose proof (samples_per_superframe_eq info) as [Hsps Hr].
  pose proof (frame_per_superframe_range info) as Hf.
  repeat match goal with |- _ /\ _ => split end;
    try reflexivity;
    auto using sample_rate_index_bits, block_rate_index_bits, frame_bytes_bits,
      superframe_index_bits, frame_per_superframe_pow, bytes_per_superframe_eq;
    try lia.
  - apply samples_per_frame_pow.
  - subst p. cbn. destruct (Z.eqb_spec (frame_per_superframe info) 1); lia.
  - subst p. cbn. destruct (Z.eqb_spec (frame_per_superframe info) 1); lia.
Qed.

(** A window of 1000 samples from sample 100, two frames of one byte per
    superframe: nine superframes, eighteen bytes. *)
Lemma get_buffer_parameter_layout_witness :
  let p := get_buffer_parameter 100 1000 134217728 in
  num_superframe 100 1000 134217728 = 9 /\ num_bytes p = 18.
Proof.
  destruct (get_buffer_parameter_layout 100 1000 134217728)
    as (_ & _ & _ & _ & _ & _ & _ & _ & _ & _ & _ & Hns & Hnb & _).
  - unfold is_u32; lia.
  - unfold is_u32; lia.
  - vm_compute. reflexivity.
  - split.
    + rewrite Hns. vm_compute. reflexivity.
    + cbv zeta. rewrite Hnb. vm_compute. reflexivity.
Defined.

(** C6, the claim as written fails: a request for [2^32 - 1] samples from
    sample 0 needs [ceil((2^32-1)/64) = 67108864] superframes, the code
    returns [num_bytes = 0]; and a window of [2^28] samples in frames of
    2048 bytes needs [2^33] bytes, which the 32-bit product loses. *)
Lemma get_buffer_parameter_ceil_counterexample :
  num_bytes (get_buffer_parameter 0 4294967295 0)
  <> (ceil_div (0 + 4294967295) (samples_per_superframe 0)
      - start_superframe 0 0) * bytes_per_superframe 0
  /\ num_bytes (get_buffer_parameter 0 268435456 3774808064)
     <> num_superframe 0 268435456 3774808064
        * bytes_per_superframe 3774808064.
Proof. vm_compute. split; discriminate. Qed.

(** C10 (as amended): when
    [start_sample + num_samples + samples_per_superframe - 1] fits in 32
    bits, the leading skip, the requested window and the trailing skip add
    up to the superframes returned, and both skips are shorter than a
    superframe. *)
Theorem skip_accounting (start_sample num_samples info : Z) :
  is_u32 start_sample -> is_u32 num_samples ->
  start_sample + num_samples + samples_per_superframe info - 1 < 2 ^ 32 ->
  let p := get_buffer_parameter start_sample num_samples info in
  start_skip p + num_samples + end_skip p
    = num_superframe start_sample num_samples info * samples_per_superframe info
  /\ 0 <= start_skip p < samples_per_superframe info
  /\ 0 <= end_skip p < samples_per_superframe info.
Proof.
  intros Hs Hn Hw p.
  destruct (num_superframe_no_wrap _ _ _ Hs Hn Hw) as [Hns _].
  destruct (skip_fields_no_wrap _ _ _ Hs Hn Hw) as [Hss Hes].
  pose proof (samples_per_superframe_eq info) as [_ Hsps].
  unfold is_u32 in *. fold p in Hss, Hes. cbv zeta in Hss, Hes.
  rewrite Hss, Hes, Hns. unfold start_superframe.
  set (sps := samples_per_superframe info) in *.
  pose proof (ceil_div_bounds (start_sample + num_samples) sps ltac:(lia) ltac:(lia)) as Hc.
  pose proof (Z.div_mod start_sample sps ltac:(lia)) as Hq.
  pose proof (Z.mod_pos_bound start_sample sps ltac:(lia)) as Hr.
  repeat split; nia.
Qed.

Lemma skip_accounting_witness :
  let p := get_buffer_parameter 100 1000 134217728 in
  start_skip p + 1000 + end_skip p
    = num_superframe 100 1000 134217728 * samples_per_superframe 134217728.
Proof.
  apply (skip_accounting 100 1000 134217728).
  - unfold is_u32; lia.
  - unfold is_u32; lia.
  - vm_compute. reflexivity.
Defined.

(** C10, the claim as written fails: at [start_sample = 0],
    [num_samples = 2^32 - 1] and format word 0 the subtraction for
    [end_skip] wraps and the identity does not hold. *)
Lemma skip_accounting_counterexample :
  let p := get_buffer_parameter 0 4294967295 0 in
  0 < samples_per_superframe 0 /\
  start_skip p + 4294967295 + end_skip p
    <> num_superframe 0 4294967295 0 * samples_per_superframe 0.
Proof. vm_compute. split; [reflexivity | discriminate]. Qed.

(** ** on_state_change *)

(** C9 (as amended): when the voice becomes available the buffer index,
    the byte offset and the loop iteration are set to zero and every
    counter keeps its value; otherwise, when the voice is keyed off, the
    two since-key-on counters are set to zero and nothing else changes. *)
Theorem on_state_change_effect (is_keyed_off : bool) (st : State) :
  let idle := on_state_change VOICE_STATE_AVAILABLE is_keyed_off st in
  let keyed := on_state_change VOICE_STATE_OTHER true st in
  (current_buffer idle = 0 /\
   current_byte_position_in_buffer idle = 0 /\
   current_loop_count idle = 0 /\
   samples_generated_since_key_on idle = samples_generated_since_key_on st /\
   bytes_consumed_since_key_on idle = bytes_consumed_since_key_on st /\
   samples_generated_total idle = samples_generated_total st /\
   total_bytes_consumed idle = total_bytes_consumed st /\
   decoded_samples_pending idle = decoded_samples_pending st /\
   decoded_passed idle = decoded_passed st) /\
  (samples_generated_since_key_on keyed = 0 /\
   bytes_consumed_since_key_on keyed = 0 /\
   current_buffer keyed = current_buffer st /\
   current_byte_position_in_buffer keyed = current_byte_position_in_buffer st /\
   current_loop_count keyed = current_loop_count st /\
   samples_generated_total keyed = samples_generated_total st /\
   total_bytes_consumed keyed = total_bytes_consumed st /\
   decoded_samples_pending keyed = decoded_samples_pending st /\
   decoded_passed keyed = decoded_passed st) /\
  on_state_change VOICE_STATE_OTHER false st = st.
Proof. cbn. intuition reflexivity. Qed.

(** C9, the claim as written fails: a voice that becomes available with
    counters and a pending backlog count keeps them. *)
Lemma on_state_change_counterexample :
  on_state_change VOICE_STATE_AVAILABLE false (mkState 16 1 2 4 8 12 24 4 4)
  <> State_zero.
Proof. cbv. discriminate. Qed.

(** ** Discard trimming *)

(** C1: with superframes of 256 samples and 200 bytes, on the first of the
    two superframes of a buffer whose [samples_discard_end_off] is 300, the
    retained size is [256 - 300] wrapped to 32 bits: the end branch takes
    the whole discard count off instead of the 44 samples that fall into
    this superframe. *)
Theorem discard_trim_end_wraps :
  discard_trim 256 200 (mkBufferParameters 4096 400 0 (-1) 0 300) 0 400
    = (0, 4294967252)
  /\ ~ (0 <= snd (discard_trim 256 200
                    (mkBufferParameters 4096 400 0 (-1) 0 300) 0 400) <= 256).
Proof. vm_compute. split; [reflexivity | intros [_ H]; apply H; reflexivity]. Qed.

(** ** The result monad *)

Lemma bind_Ok_inv {A B : Type} (c : result A) (k : A -> result B) (b : B) :
  bind c k = Ok b -> exists a, c = Ok a /\ k a = Ok b.
Proof.
  destruct c as [a | |]; cbn; intros E; try discriminate. now exists a.
Qed.

Ltac bind_inv H :=
  let a := fresh "a" in
  let Ea := fresh "E" in
  apply bind_Ok_inv in H; destruct H as (a & Ea & H).

Section VoiceFacts.
Context {frame context : Type} {codec : DecoderState frame context}
  {zero : Silence frame}.

Local Abbreviation ModuleData := (@ModuleData frame).
Local Abbreviation Module := (@Module context).
Local Abbreviation FrameLoop := (@FrameLoop frame context).

(** *** Sizes of vectors *)

Lemma size_nonneg (l : list frame) : 0 <= size l.
Proof. unfold size. lia. Qed.

Lemma size_resize (n : Z) (l : list frame) :
  0 <= n -> size (resize n l) = n.
Proof.
  intros Hn. unfold size, resize.
  rewrite length_app, length_firstn, repeat_length. lia.
Qed.

Lemma size_write_at (pos : Z) (src dst : list frame) :
  0 <= pos -> pos + size src <= size dst ->
  size (write_at pos src dst) = size dst.
Proof.
  unfold size, write_at. intros Hp Hs.
  rewrite !length_app, length_firstn, length_skipn. lia.
Qed.

Lemma size_chunk (n off : Z) (l : list frame) :
  0 <= n -> 0 <= off -> off + n <= size l ->
  size (firstn (Z.to_nat n) (skipn (Z.to_nat off) l)) = n.
Proof.
  unfold size. intros Hn Ho Hl.
  rewrite length_firstn, length_skipn. lia.
Qed.

Lemma write_at_tail (pos : Z) (src dst : list frame) :
  0 <= pos -> size dst = pos + size src ->
  skipn (Z.to_nat pos) (write_at pos src dst) = src.
Proof.
  unfold size, write_at. intros Hp Hs.
  rewrite (skipn_all2 dst) by lia. rewrite app_nil_r, skipn_app.
  rewrite skipn_all2 by (rewrite length_firstn; lia).
  rewrite length_firstn.
  replace (Z.to_nat pos - Nat.min (Z.to_nat pos) (length dst))%nat
    with 0%nat by lia.
  reflexivity.
Qed.

Lemma size_fill (granularity : Z) (l : list frame) :
  size (fill_to_fit_granularity granularity l) = Z.max granularity (size l).
Proof.
  unfold size, fill_to_fit_granularity.
  rewrite length_app, repeat_length. unfold size. lia.
Qed.

(** *** Compaction *)

Lemma compact_inv (data data' : ModuleData) :
  compact data = Ok data' ->
  let st := state data in
  let st' := state data' in
  invoked data' = invoked data /\
  product data' = product data /\
  current_byte_position_in_buffer st' = current_byte_position_in_buffer st /\
  current_loop_count st' = current_loop_count st /\
  current_buffer st' = current_buffer st /\
  samples_generated_since_key_on st' = samples_generated_since_key_on st /\
  bytes_consumed_since_key_on st' = bytes_consumed_since_key_on st /\
  samples_generated_total st' = samples_generated_total st /\
  total_bytes_consumed st' = total_bytes_consumed st /\
  decoded_samples_pending st' = decoded_samples_pending st /\
  ((extra_storage data = [] /\ data' = data) \/
   (extra_storage data <> [] /\
    decoded_passed st <= size (extra_storage data) /\
    decoded_passed st' = 0 /\
    extra_storage data'
      = skipn (Z.to_nat (decoded_passed st)) (extra_storage data))).
Proof.
  unfold compact. destruct (extra_storage data) as [|x l] eqn:El.
  - intros [= <-]. cbn. intuition auto.
  - destruct (Z.leb_spec (decoded_passed (state data)) (size (x :: l)));
      [|discriminate].
    intros [= <-]. cbn [state invoked product extra_storage
      current_byte_position_in_buffer current_loop_count current_buffer
      samples_generated_since_key_on bytes_consumed_since_key_on
      samples_generated_total total_bytes_consumed decoded_samples_pending
      decoded_passed].
    repeat split; try reflexivity. right. repeat split; auto. discriminate.
Qed.

Lemma compact_backlog_ok (granularity : Z) (data data' : ModuleData) :
  0 < granularity ->
  backlog_ok granularity data -> compact data = Ok data' ->
  backlog_ok granularity data' /\ decoded_passed (state data') = 0.
Proof.
  intros Hg (Hp & Hq & Hb & Hs) Hc.
  apply compact_inv in Hc. cbv zeta in Hc.
  destruct Hc as (_ & _ & _ & _ & _ & _ & _ & _ & _ & Hpend & Hcase).
  unfold backlog_ok. rewrite Hpend.
  destruct Hcase as [[Hnil ->] | (Hne & Hle & Hz & Hst)].
  - assert (Hz : decoded_passed (state data) = 0).
    { destruct Hs as [Hs | (Hz & _)]; [|assumption].
      rewrite Hnil in Hs. unfold size in Hs. cbn in Hs. lia. }
    split; [|assumption]. auto.
  - rewrite Hz, Hst. split; [|reflexivity].
    split; [assumption|]. split; [lia|]. split; [lia|].
    destruct Hs as [Hs | (Hz' & Hlt & Hs & Hpad)].
    + left. unfold size in *. rewrite length_skipn. lia.
    + right. rewrite Hz'. cbn [Z.to_nat skipn]. auto.
Qed.

Lemma compact_defined (granularity : Z) (data : ModuleData) :
  backlog_ok granularity data -> exists data', compact data = Ok data'.
Proof.
  intros (Hp & Hq & Hb & Hs). unfold compact.
  destruct (extra_storage data) as [|x l] eqn:El; [eauto|].
  destruct (Z.leb_spec (decoded_passed (state data)) (size (x :: l)));
    [eauto | lia].
Qed.

(** *** The frame loop *)

Lemma decode_frames_inv (remaining : nat) :
  forall ctx input position frame_no write_pos samples loop,
  0 <= write_pos ->
  decode_frames remaining ctx input position frame_no write_pos samples
    = Ok loop ->
  size (scratch loop) = size samples /\
  frame_no <= frames_done loop <= frame_no + Z.of_nat remaining /\
  (got_decode_error loop = true ->
   frames_done loop < frame_no + Z.of_nat remaining) /\
  (got_decode_error loop = false ->
   frames_done loop = frame_no + Z.of_nat remaining) /\
  (forall es, (forall c, get_es_size c = es) ->
   loop_position loop = position + (frames_done loop - frame_no) * es).
Proof.
  induction remaining as [|n IH]; intros ctx input position frame_no write_pos
    samples loop Hw Hd; cbn [decode_frames] in Hd.
  - injection Hd as <-. cbn. repeat split; try lia; try discriminate.
  - destruct (send ctx (input + position)) as [sent ctx1].
    destruct sent.
    + destruct (receive ctx1) as [pcm ctx2].
      destruct (Z.leb_spec (write_pos + size pcm) (size samples)) as [Hfit|];
        [|discriminate].
      pose proof (size_nonneg pcm) as Hpcm.
      apply IH in Hd; [|lia].
      destruct Hd as (Hs & Hf & He & Hn & Hp).
      rewrite size_write_at in Hs by lia.
      repeat split; try lia.
      * intros Herr. specialize (He Herr). lia.
      * intros Herr. specialize (Hn Herr). lia.
      * intros es Hes. rewrite (Hp es Hes), Hes. lia.
    + injection Hd as <-. cbn. repeat split; try lia; try discriminate.
Qed.

(** *** One superframe *)

Lemma discard_trim_nonneg sps superframe_size bufparam position gotten :
  0 <= sps ->
  0 <= fst (discard_trim sps superframe_size bufparam position gotten) /\
  0 <= snd (discard_trim sps superframe_size bufparam position gotten).
Proof.
  intros Hs. unfold discard_trim, u32.
  repeat match goal with
         | |- context [if ?c then _ else _] => destruct c
         end; cbn [fst snd];
    repeat match goal with
           | |- context [?a mod 2 ^ 32] =>
               lazymatch goal with
               | _ : 0 <= a mod 2 ^ 32 < 2 ^ 32 |- _ => fail
               | _ => pose proof (Z.mod_pos_bound a (2 ^ 32) ltac:(lia))
               end
           end; lia.
Qed.

Lemma decode_superframe_inv params config ctx bufparam (data : ModuleData)
    more (data' : ModuleData) ctx' :
  decode_superframe params config ctx bufparam data = Ok (more, data', ctx') ->
  let st := state data in
  let superframe_size := u32 (get config AT9_SUPERFRAME_SIZE) in
  let gotten := u32 (bytes_count bufparam - current_byte_position_in_buffer st) in
  let sps := u32 (get config AT9_SAMPLE_PER_SUPERFRAME) in
  let trim := discard_trim sps superframe_size bufparam
                (current_byte_position_in_buffer st) gotten in
  (gotten < superframe_size /\ more = false /\ data' = data /\ ctx' = ctx)
  \/
  (superframe_size <= gotten /\ superframe_size <> 0 /\ more = true /\
   exists loop,
     decode_frames (Z.to_nat (u32 (get config AT9_FRAMES_IN_SUPERFRAME))) ctx
       (buffer bufparam) (current_byte_position_in_buffer st) 0 0
       (repeat silence (Z.to_nat sps)) = Ok loop /\
     fst trim + snd trim <= sps /\
     ctx' = (if got_decode_error loop
             then clear_context (loop_context loop) else loop_context loop) /\
     data' =
       mkModuleData
         (mkState (loop_position loop) (current_loop_count st)
            (current_buffer st)
            (i32 (samples_generated_since_key_on st + snd trim))
            (i32 (bytes_consumed_since_key_on st + superframe_size))
            (i32 (samples_generated_total st + snd trim))
            (i32 (total_bytes_consumed st + superframe_size))
            (u32 (decoded_samples_pending st + snd trim))
            (decoded_passed st))
         (write_at (decoded_samples_pending st)
            (firstn (Z.to_nat (snd trim))
               (skipn (Z.to_nat (fst trim)) (scratch loop)))
            (resize (decoded_samples_pending st + snd trim)
               (extra_storage data)))
         (invoked data ++
            (if got_decode_error loop
             then [mkCallback SCE_NGS_AT9_DECODE_ERROR (loop_position loop)
                     (buffer bufparam)]
             else []))
         (product data)).
Proof.
  intros Hd. cbv zeta. unfold decode_superframe in Hd.
  set (st := state data) in *.
  set (superframe_size := u32 (get config AT9_SUPERFRAME_SIZE)) in *.
  set (gotten := u32 (bytes_count bufparam - current_byte_position_in_buffer st)) in *.
  set (sps := u32 (get config AT9_SAMPLE_PER_SUPERFRAME)) in *.
  destruct (Z.ltb_spec gotten superframe_size) as [Hshort | Hfull].
  - left. injection Hd as <- <- <-. auto.
  - right. destruct (Z.eqb_spec superframe_size 0) as [|Hnz]; [discriminate|].
    destruct (discard_trim sps superframe_size bufparam
                (current_byte_position_in_buffer st) gotten) as [off ds].
    bind_inv Hd. rename a into loop.
    destruct (Z.leb_spec (off + ds) sps) as [Hfit|]; [|discriminate].
    split; [assumption|]. split; [assumption|].
    destruct (got_decode_error loop) eqn:Eerr; injection Hd as <- <- <-;
      (split; [reflexivity|]); exists loop; cbn [fst snd]; rewrite Eerr; auto.
Qed.

(** *** The buffer chain *)

Lemma advance_buffer_inv params bufparam st st' events :
  advance_buffer params bufparam st = Ok (st', events) ->
  current_byte_position_in_buffer st' = current_byte_position_in_buffer st /\
  samples_generated_since_key_on st' = samples_generated_since_key_on st /\
  bytes_consumed_since_key_on st' = bytes_consumed_since_key_on st /\
  samples_generated_total st' = samples_generated_total st /\
  total_bytes_consumed st' = total_bytes_consumed st /\
  decoded_samples_pending st' = decoded_samples_pending st /\
  decoded_passed st' = decoded_passed st /\
  let count := current_loop_count st + 1 in
  ((loop_count bufparam <> -1 /\ loop_count bufparam < count /\
    current_loop_count st' = 0 /\
    current_buffer st' = next_buffer_index bufparam /\
    ((next_buffer_index bufparam = -1 /\
      events = [mkCallback SCE_NGS_AT9_END_OF_DATA 0 0]) \/
     (next_buffer_index bufparam <> -1 /\
      exists b, lookup_buffer params (next_buffer_index bufparam) = Ok b /\
        events = [mkCallback SCE_NGS_AT9_SWAPPED_BUFFER 0 (buffer b)])))
   \/
   ((loop_count bufparam = -1 \/ count <= loop_count bufparam) /\
    current_loop_count st' = count /\
    current_buffer st' = current_buffer st /\
    events = [mkCallback SCE_NGS_AT9_SWAPPED_BUFFER count (buffer bufparam);
              mkCallback SCE_NGS_AT9_LOOPED_BUFFER count (buffer bufparam)])).
Proof.
  unfold advance_buffer.
  destruct (Z.eqb_spec (loop_count bufparam) (-1)) as [Hinf | Hfin];
    cbn [negb andb].
  - intros [= <- <-]. cbn. repeat split; try reflexivity.
    right. split; [left; assumption|]. auto.
  - destruct (Z.gtb_spec (current_loop_count st + 1) (loop_count bufparam))
      as [Hgt | Hle].
    + destruct (Z.eqb_spec (next_buffer_index bufparam) (-1)) as [Hend | Hnext].
      * intros [= <- <-]. cbn. repeat split; try reflexivity.
        left. split; [assumption|]. split; [lia|]. split; [reflexivity|].
        split; [reflexivity|]. left. auto.
      * intros Hb. bind_inv Hb. injection Hb as <- <-. cbn.
        repeat split; try reflexivity.
        left. split; [assumption|]. split; [lia|]. split; [reflexivity|].
        split; [reflexivity|]. right. eauto.
    + intros [= <- <-]. cbn. repeat split; try reflexivity.
      right. split; [right; lia|]. auto.
Qed.

Lemma decode_more_data_inv params config ctx (data : ModuleData) more
    (data' : ModuleData) ctx' :
  decode_more_data params config ctx data = Ok (more, data', ctx') ->
  exists bufparam datac,
    lookup_buffer params (current_buffer (state data)) = Ok bufparam /\
    compact data = Ok datac /\
    ((bytes_count bufparam <= current_byte_position_in_buffer (state datac) /\
      ctx' = ctx /\
      exists st' events,
        advance_buffer params bufparam (state datac) = Ok (st', events) /\
        find_data params (current_buffer st') = Ok more /\
        data' =
          mkModuleData
            (mkState 0 (current_loop_count st') (current_buffer st')
               (samples_generated_since_key_on st')
               (bytes_consumed_since_key_on st')
               (samples_generated_total st') (total_bytes_consumed st')
               (decoded_samples_pending st') (decoded_passed st'))
            (extra_storage datac) (invoked datac ++ events) (product datac))
     \/
     (current_byte_position_in_buffer (state datac) < bytes_count bufparam /\
      decode_superframe params config ctx bufparam datac
        = Ok (more, data', ctx'))).
Proof.
  unfold decode_more_data. intros Hd.
  bind_inv Hd. rename a into bufparam. bind_inv Hd. rename a into datac.
  exists bufparam, datac. split; [assumption|]. split; [assumption|].
  destruct (Z.geb_spec (current_byte_position_in_buffer (state datac))
              (bytes_count bufparam)) as [Hge | Hlt].
  - left. bind_inv Hd. destruct a as [st' events]. bind_inv Hd.
    injection Hd as <- <- <-. split; [lia|]. split; [reflexivity|].
    exists st', events. auto.
  - right. split; [lia | assumption].
Qed.

(** *** What a decoded superframe adds *)

Lemma u32_small (z : Z) : 0 <= z < 2 ^ 32 -> u32 z = z.
Proof. intros Hz. unfold u32. apply Z.mod_small. exact Hz. Qed.

Lemma u32_range (z : Z) : 0 <= u32 z < 2 ^ 32.
Proof. unfold u32. apply Z.mod_pos_bound. lia. Qed.

Lemma i32_small (z : Z) : 0 <= z < 2 ^ 31 -> i32 z = z.
Proof. intros Hz. unfold i32. rewrite Z.mod_small; lia. Qed.

Lemma size_repeat_silence (n : Z) :
  0 <= n -> size (repeat (silence : frame) (Z.to_nat n)) = n.
Proof. intros Hn. unfold size. rewrite repeat_length. lia. Qed.

Lemma decode_superframe_full params config ctx bufparam (data : ModuleData)
    more (data' : ModuleData) ctx' :
  decode_superframe params config ctx bufparam data = Ok (more, data', ctx') ->
  let st := state data in
  let st' := state data' in
  let superframe_size := u32 (get config AT9_SUPERFRAME_SIZE) in
  let gotten := u32 (bytes_count bufparam - current_byte_position_in_buffer st) in
  let sps := u32 (get config AT9_SAMPLE_PER_SUPERFRAME) in
  let decoded_size :=
    snd (discard_trim sps superframe_size bufparam
           (current_byte_position_in_buffer st) gotten) in
  superframe_size <= gotten ->
  0 <= decoded_samples_pending st ->
  more = true /\
  0 <= decoded_size <= sps /\
  size (extra_storage data') = decoded_samples_pending st + decoded_size /\
  (forall loop,
     decode_frames (Z.to_nat (u32 (get config AT9_FRAMES_IN_SUPERFRAME))) ctx
       (buffer bufparam) (current_byte_position_in_buffer st) 0 0
       (repeat silence (Z.to_nat sps)) = Ok loop ->
     skipn (Z.to_nat (decoded_samples_pending st)) (extra_storage data')
       = firstn (Z.to_nat decoded_size)
           (skipn (Z.to_nat
                     (fst (discard_trim sps superframe_size bufparam
                             (current_byte_position_in_buffer st) gotten)))
              (scratch loop))) /\
  decoded_samples_pending st' = u32 (decoded_samples_pending st + decoded_size) /\
  decoded_passed st' = decoded_passed st /\
  samples_generated_since_key_on st'
    = i32 (samples_generated_since_key_on st + decoded_size) /\
  samples_generated_total st'
    = i32 (samples_generated_total st + decoded_size) /\
  bytes_consumed_since_key_on st'
    = i32 (bytes_consumed_since_key_on st + superframe_size) /\
  total_bytes_consumed st'
    = i32 (total_bytes_consumed st + superframe_size) /\
  current_buffer st' = current_buffer st /\
  current_loop_count st' = current_loop_count st.
Proof.
  intros Hd. apply decode_superframe_inv in Hd. cbv zeta in Hd |- *.
  intros Hfull Hpend.
  destruct Hd as [(Hshort & _) | (_ & _ & -> & loop & Hloop & Hfit & _ & ->)];
    [lia|].
  set (sps := u32 (get config AT9_SAMPLE_PER_SUPERFRAME)) in *.
  pose proof (u32_range (get config AT9_SAMPLE_PER_SUPERFRAME)) as Hsps.
  fold sps in Hsps.
  match type of Hfit with fst ?t + _ <= _ => set (trim := t) in * end.
  destruct (discard_trim_nonneg sps (u32 (get config AT9_SUPERFRAME_SIZE))
              bufparam (current_byte_position_in_buffer (state data))
              (u32 (bytes_count bufparam
                    - current_byte_position_in_buffer (state data)))
              ltac:(lia)) as [Hoff Hds].
  fold trim in Hoff, Hds.
  pose proof Hloop as Hloop0.
  apply decode_frames_inv in Hloop; [|lia].
  destruct Hloop as (Hscratch & _).
  rewrite size_repeat_silence in Hscratch by lia.
  cbn [state extra_storage decoded_samples_pending decoded_passed
       samples_generated_since_key_on samples_generated_total
       bytes_consumed_since_key_on total_bytes_consumed current_buffer
       current_loop_count].
  split; [reflexivity|]. split; [lia|]. split; [|split].
  - rewrite size_write_at.
    + apply size_resize. lia.
    + assumption.
    + rewrite size_chunk, size_resize; lia.
  - intros loop1 Hloop1. rewrite Hloop0 in Hloop1. injection Hloop1 as <-.
    apply write_at_tail; [assumption|].
    rewrite size_chunk, size_resize; lia.
  - repeat split; reflexivity.
Qed.

(** *** One call of decode_more_data keeps the bookkeeping *)

Lemma decode_more_data_backlog_ok granularity params config ctx
    (data : ModuleData) more (data' : ModuleData) ctx' :
  0 < granularity ->
  granularity + u32 (get config AT9_SAMPLE_PER_SUPERFRAME) <= 2 ^ 31 ->
  backlog_ok granularity data ->
  decoded_samples_pending (state data) < granularity ->
  decode_more_data params config ctx data = Ok (more, data', ctx') ->
  backlog_ok granularity data' /\
  decoded_passed (state data') = 0 /\
  (more = false ->
   decoded_samples_pending (state data') = decoded_samples_pending (state data)).
Proof.
  intros Hg Hbound Hok Hlt Hd.
  apply decode_more_data_inv in Hd.
  destruct Hd as (bufparam & datac & _ & Hc & Hcase).
  destruct (compact_backlog_ok _ _ _ Hg Hok Hc) as [Hokc Hpc].
  pose proof (compact_inv _ _ Hc) as Hci. cbv zeta in Hci.
  destruct Hci as (_ & _ & _ & _ & _ & _ & _ & _ & _ & Hpend & _).
  destruct Hcase as [(_ & _ & st' & events & Hadv & _ & ->) | (_ & Hsf)].
  - apply advance_buffer_inv in Hadv.
    destruct Hadv as (_ & _ & _ & _ & _ & Hp & Hq & _).
    unfold backlog_ok in *.
    cbn [state extra_storage decoded_samples_pending decoded_passed].
    rewrite Hp, Hq. repeat split; try tauto; try lia.
  - pose proof Hsf as Hinv. apply decode_superframe_inv in Hinv.
    cbv zeta in Hinv.
    destruct Hinv as [(_ & -> & -> & _) | (Hfull & _ & _)].
    + split; [assumption|]. split; [assumption|]. intros _. assumption.
    + destruct Hokc as (Hp0 & _ & _ & _).
      pose proof (decode_superframe_full _ _ _ _ _ _ _ _ Hsf) as Hf.
      cbv zeta in Hf.
      destruct (Hf Hfull Hp0) as (-> & Hds & Hsize & _ & Hp' & Hq' & _).
      rewrite Hpend in *.
      rewrite u32_small in Hp' by lia.
      unfold backlog_ok. rewrite Hp', Hq', Hpc, Hsize.
      repeat split; try lia; try discriminate.
Qed.

(** *** The two exits of process *)

Lemma give_slice_spec granularity (data : ModuleData) :
  0 < granularity < 2 ^ 31 ->
  backlog_ok granularity data ->
  ~ i32 (decoded_samples_pending (state data)) < granularity ->
  let data' := give_slice granularity data in
  backlog_ok granularity data' /\
  size (published granularity data') = granularity /\
  granularity <= decoded_samples_pending (state data) /\
  size (extra_storage data)
    = decoded_samples_pending (state data) + decoded_passed (state data) /\
  decoded_samples_pending (state data')
    = decoded_samples_pending (state data) - granularity /\
  decoded_passed (state data') = decoded_passed (state data) + granularity /\
  product data' = decoded_passed (state data) /\
  extra_storage data' = extra_storage data.
Proof.
  intros Hg (Hp & Hq & Hb & Hs) Hexit.
  rewrite i32_small in Hexit by lia.
  destruct Hs as [Hs | (_ & Hlt & _)]; [|lia].
  unfold give_slice, published, backlog_ok. cbv zeta.
  cbn [state extra_storage product decoded_samples_pending decoded_passed].
  rewrite (u32_small granularity) by lia.
  destruct (Z.ltb_spec (decoded_samples_pending (state data)) granularity);
    [lia|].
  rewrite !u32_small by lia.
  repeat split; try lia.
  unfold size in *. rewrite length_firstn, length_skipn. lia.
Qed.

Lemma give_padded_spec granularity (data : ModuleData) :
  0 < granularity ->
  backlog_ok granularity data ->
  decoded_passed (state data) = 0 ->
  decoded_samples_pending (state data) < granularity ->
  let data' := give_padded granularity data in
  let pending := decoded_samples_pending (state data') in
  backlog_ok granularity data' /\
  size (published granularity data') = granularity /\
  product data' = 0 /\
  samples_generated_since_key_on (state data') = 0 /\
  bytes_consumed_since_key_on (state data') = 0 /\
  size (extra_storage data') = granularity /\
  pending = decoded_samples_pending (state data) /\
  skipn (Z.to_nat pending) (extra_storage data')
    = repeat silence (Z.to_nat (granularity - pending)).
Proof.
  intros Hg (Hp & Hq & Hb & Hs) Hz Hlt. cbv zeta.
  assert (Hsize : size (fill_to_fit_granularity granularity (extra_storage data))
                  = granularity).
  { rewrite size_fill. destruct Hs as [Hs | (_ & _ & Hs & _)]; lia. }
  assert (Hpad : skipn (Z.to_nat (decoded_samples_pending (state data)))
                   (fill_to_fit_granularity granularity (extra_storage data))
                 = repeat silence
                     (Z.to_nat (granularity
                                - decoded_samples_pending (state data)))).
  { unfold fill_to_fit_granularity.
    destruct Hs as [Hs | (_ & _ & Hs & Hpad)].
    - rewrite skipn_app.
      replace (Z.to_nat (decoded_samples_pending (state data)))
        with (length (extra_storage data)) by (unfold size in Hs; lia).
      rewrite skipn_all, Nat.sub_diag. cbn [skipn app].
      f_equal. unfold size in *. lia.
    - rewrite Hs, Z.sub_diag. cbn [Z.to_nat repeat].
      rewrite app_nil_r. exact Hpad. }
  unfold give_padded, published, backlog_ok. cbv zeta.
  cbn [state extra_storage product decoded_samples_pending decoded_passed
       samples_generated_since_key_on bytes_consumed_since_key_on].
  repeat split; try lia; try assumption.
  - right. auto.
  - cbn [Z.to_nat skipn]. unfold size in *. rewrite length_firstn. lia.
Qed.

(** *** The while loop of process *)

Lemma process_loop_spec (fuel : nat) :
  forall granularity params config ctx (data : ModuleData) finished
    (data' : ModuleData) ctx',
  0 < granularity < 2 ^ 31 ->
  granularity + u32 (get config AT9_SAMPLE_PER_SUPERFRAME) <= 2 ^ 31 ->
  backlog_ok granularity data ->
  process_loop fuel granularity params config ctx data
    = Ok (finished, data', ctx') ->
  backlog_ok granularity data' /\
  size (published granularity data') = granularity /\
  (finished = true ->
   exists mid : ModuleData,
     data' = give_padded granularity mid /\
     backlog_ok granularity mid /\
     decoded_passed (state mid) = 0 /\
     decoded_samples_pending (state mid) < granularity) /\
  (finished = false ->
   exists mid : ModuleData,
     data' = give_slice granularity mid /\
     backlog_ok granularity mid /\
     ~ i32 (decoded_samples_pending (state mid)) < granularity).
Proof.
  induction fuel as [|fuel IH];
    intros granularity params config ctx data finished data' ctx' Hg Hbound
      Hok Hrun; cbn [process_loop] in Hrun;
    destruct (Z.ltb_spec (i32 (decoded_samples_pending (state data)))
                granularity) as [Hmore | Hexit].
  - discriminate.
  - injection Hrun as <- <- <-.
    destruct (give_slice_spec granularity data Hg Hok ltac:(lia))
      as (Hok' & Hpub & _).
    split; [assumption|]. split; [assumption|]. split; [discriminate|].
    intros _. exists data. split; [reflexivity|]. split; [assumption|]. lia.
  - bind_inv Hrun. destruct a as [[more data1] ctx1].
    assert (Hlt : decoded_samples_pending (state data) < granularity).
    { destruct Hok as (Hp & Hq & Hb & _). rewrite i32_small in Hmore; lia. }
    destruct (decode_more_data_backlog_ok _ _ _ _ _ _ _ _
                (proj1 Hg) Hbound Hok Hlt E) as (Hok1 & Hz1 & Hsame).
    destruct more.
    + eapply IH; eauto.
    + injection Hrun as <- <- <-.
      specialize (Hsame eq_refl).
      assert (Hlt1 : decoded_samples_pending (state data1) < granularity)
        by lia.
      destruct (give_padded_spec granularity data1 (proj1 Hg) Hok1 Hz1 Hlt1)
        as (Hok' & Hpub & _).
      split; [assumption|]. split; [assumption|]. split; [|discriminate].
      intros _. exists data1. split; [reflexivity|]. split; [assumption|].
      split; [assumption | lia].
  - injection Hrun as <- <- <-.
    destruct (give_slice_spec granularity data Hg Hok ltac:(lia))
      as (Hok' & Hpub & _).
    split; [assumption|]. split; [assumption|]. split; [discriminate|].
    intros _. exists data. split; [reflexivity|]. split; [assumption|]. lia.
Qed.

Lemma process_loop_more_fuel (fuel : nat) :
  forall extra granularity params config ctx (data : ModuleData) r,
  process_loop fuel granularity params config ctx data = Ok r ->
  process_loop (fuel + extra) granularity params config ctx data = Ok r.
Proof.
  induction fuel as [|fuel IH]; intros extra granularity params config ctx
    data r Hrun.
  - cbn [process_loop] in Hrun.
    destruct extra as [|extra]; cbn [Nat.add process_loop];
      destruct (i32 (decoded_samples_pending (state data)) <? granularity);
      try assumption; discriminate.
  - cbn [Nat.add process_loop] in Hrun |- *.
    destruct (i32 (decoded_samples_pending (state data)) <? granularity);
      [|assumption].
    destruct (decode_more_data params config ctx data)
      as [[[more data1] ctx1] | |]; cbn [bind] in Hrun |- *;
      try discriminate.
    destruct more; [apply IH|]; assumption.
Qed.

(** *** process and runs of ticks *)

Lemma process_inv fuel granularity params (self : Module) (data : ModuleData)
    finished (data' : ModuleData) (self' : Module) :
  process fuel granularity params self data = Ok (finished, data', self') ->
  (finished = true /\ data' = data /\ self' = self /\
   (current_buffer (state data) = -1 \/
    exists b, lookup_buffer params (current_buffer (state data)) = Ok b /\
              buffer b = 0))
  \/
  (current_buffer (state data) <> -1 /\
   exists b config ctx ctx',
     lookup_buffer params (current_buffer (state data)) = Ok b /\
     buffer b <> 0 /\
     process_loop fuel granularity params config ctx data
       = Ok (finished, data', ctx')).
Proof.
  unfold process. intros Hp.
  destruct (Z.eqb_spec (current_buffer (state data)) (-1)) as [Hend | Hcur].
  - injection Hp as <- <- <-. left. auto.
  - bind_inv Hp. rename a into b.
    destruct (Z.eqb_spec (buffer b) 0) as [Hnull | Haddr].
    + injection Hp as <- <- <-. left. repeat split; auto. right. eauto.
    + right. split; [assumption|].
      match type of Hp with
      | (let '(config, ctx) := ?sel in _) = _ =>
          destruct sel as [config ctx]
      end.
      bind_inv Hp. destruct a as [[fin data1] ctx1].
      injection Hp as <- <- <-. exists b, config, ctx, ctx1. auto.
Qed.

Lemma process_backlog_ok fuel granularity params (self : Module)
    (data : ModuleData) finished (data' : ModuleData) (self' : Module) :
  0 < granularity < 2 ^ 31 ->
  (forall config,
     granularity + u32 (get config AT9_SAMPLE_PER_SUPERFRAME) <= 2 ^ 31) ->
  backlog_ok granularity data ->
  process fuel granularity params self data = Ok (finished, data', self') ->
  backlog_ok granularity data'.
Proof.
  intros Hg Hbound Hok Hp. apply process_inv in Hp.
  destruct Hp as [(_ & -> & _) | (_ & b & config & ctx & ctx' & _ & _ & Hl)];
    [assumption|].
  eapply process_loop_spec; eauto.
Qed.

Lemma backlog_ok_zero granularity :
  0 < granularity -> backlog_ok granularity (ModuleData_zero : ModuleData).
Proof. intros Hg. unfold backlog_ok, size. cbn. lia. Qed.

Lemma run_backlog_ok granularity events :
  forall (self : Module) (data : ModuleData) (self' : Module)
    (data' : ModuleData),
  0 < granularity < 2 ^ 31 ->
  (forall config,
     granularity + u32 (get config AT9_SAMPLE_PER_SUPERFRAME) <= 2 ^ 31) ->
  backlog_ok granularity data ->
  run granularity events self data = Ok (data', self') ->
  backlog_ok granularity data'.
Proof.
  induction events as [|[fuel params | voice_state keyed] rest IH];
    intros self data self' data' Hg Hbound Hok Hrun; cbn [run] in Hrun.
  - injection Hrun as <- <-. assumption.
  - bind_inv Hrun. destruct a as [[fin data1] self1].
    apply (IH self1 data1 self' data' Hg Hbound); [|exact Hrun].
    exact (process_backlog_ok _ _ _ _ _ _ _ _ Hg Hbound Hok E).
  - apply (IH _ _ self' data' Hg Hbound) in Hrun; [exact Hrun|].
    destruct voice_state; [|destruct keyed]; exact Hok.
Qed.


(** *** The two branches of decode_more_data *)

Lemma decode_branch_inv params config ctx (data : ModuleData) more
    (data' : ModuleData) ctx' bufparam :
  decode_more_data params config ctx data = Ok (more, data', ctx') ->
  lookup_buffer params (current_buffer (state data)) = Ok bufparam ->
  current_byte_position_in_buffer (state data) < bytes_count bufparam ->
  exists datac,
    compact data = Ok datac /\
    decode_superframe params config ctx bufparam datac
      = Ok (more, data', ctx').
Proof.
  intros Hd Hb Hpos. apply decode_more_data_inv in Hd.
  destruct Hd as (b0 & datac & Hb0 & Hc & Hcase).
  rewrite Hb in Hb0. injection Hb0 as <-.
  pose proof (compact_inv _ _ Hc) as Hci. cbv zeta in Hci.
  destruct Hci as (_ & _ & Hp & _).
  exists datac. split; [assumption|].
  destruct Hcase as [(Hge & _) | (_ & Hsf)]; [lia | assumption].
Qed.

Lemma transition_branch_inv params config ctx (data : ModuleData) more
    (data' : ModuleData) ctx' bufparam :
  decode_more_data params config ctx data = Ok (more, data', ctx') ->
  lookup_buffer params (current_buffer (state data)) = Ok bufparam ->
  bytes_count bufparam <= current_byte_position_in_buffer (state data) ->
  ctx' = ctx /\
  exists datac st' events,
    compact data = Ok datac /\
    advance_buffer params bufparam (state datac) = Ok (st', events) /\
    find_data params (current_buffer st') = Ok more /\
    data' =
      mkModuleData
        (mkState 0 (current_loop_count st') (current_buffer st')
           (samples_generated_since_key_on st')
           (bytes_consumed_since_key_on st')
           (samples_generated_total st') (total_bytes_consumed st')
           (decoded_samples_pending st') (decoded_passed st'))
        (extra_storage datac) (invoked datac ++ events) (product datac).
Proof.
  intros Hd Hb Hpos. apply decode_more_data_inv in Hd.
  destruct Hd as (b0 & datac & Hb0 & Hc & Hcase).
  rewrite Hb in Hb0. injection Hb0 as <-.
  pose proof (compact_inv _ _ Hc) as Hci. cbv zeta in Hci.
  destruct Hci as (_ & _ & Hp & _).
  destruct Hcase as [(_ & -> & st' & events & Ha & Hf & ->) | (Hlt & _)];
    [|lia].
  split; [reflexivity|]. exists datac, st', events. auto.
Qed.

(** C2 (as amended): when a submission fails inside a superframe, the
    frame loop stops before the last frame, but the step goes on as for a
    good superframe: it returns [true], the backlog holds [decoded_size]
    further sample-frames copied from the scratch vector, the pending count
    advances by [decoded_size] and the four sample and byte counters
    advance by [decoded_size] and [superframe_size], each in its 32-bit
    field. *)
Theorem failed_superframe_is_counted params config ctx (data : ModuleData)
    more (data' : ModuleData) ctx' bufparam loop :
  let st := state data in
  let st' := state data' in
  let superframe_size := u32 (get config AT9_SUPERFRAME_SIZE) in
  let gotten := u32 (bytes_count bufparam - current_byte_position_in_buffer st) in
  let sps := u32 (get config AT9_SAMPLE_PER_SUPERFRAME) in
  let frames := u32 (get config AT9_FRAMES_IN_SUPERFRAME) in
  let decoded_size :=
    snd (discard_trim sps superframe_size bufparam
           (current_byte_position_in_buffer st) gotten) in
  lookup_buffer params (current_buffer st) = Ok bufparam ->
  current_byte_position_in_buffer st < bytes_count bufparam ->
  superframe_size <= gotten ->
  0 <= decoded_samples_pending st ->
  decode_frames (Z.to_nat frames) ctx (buffer bufparam)
    (current_byte_position_in_buffer st) 0 0
    (repeat silence (Z.to_nat sps)) = Ok loop ->
  got_decode_error loop = true ->
  decode_more_data params config ctx data = Ok (more, data', ctx') ->
  more = true /\
  frames_done loop < frames /\
  size (extra_storage data') = decoded_samples_pending st + decoded_size /\
  skipn (Z.to_nat (decoded_samples_pending st)) (extra_storage data')
    = firstn (Z.to_nat decoded_size)
        (skipn (Z.to_nat
                  (fst (discard_trim sps superframe_size bufparam
                          (current_byte_position_in_buffer st) gotten)))
           (scratch loop)) /\
  decoded_samples_pending st' = u32 (decoded_samples_pending st + decoded_size) /\
  samples_generated_since_key_on st'
    = i32 (samples_generated_since_key_on st + decoded_size) /\
  samples_generated_total st'
    = i32 (samples_generated_total st + decoded_size) /\
  bytes_consumed_since_key_on st'
    = i32 (bytes_consumed_since_key_on st + superframe_size) /\
  total_bytes_consumed st'
    = i32 (total_bytes_consumed st + superframe_size).
Proof.
  cbv zeta. intros Hb Hpos Hfull Hpend Hloop Herr Hd.
  destruct (decode_branch_inv _ _ _ _ _ _ _ _ Hd Hb Hpos) as (datac & Hc & Hsf).
  pose proof (compact_inv _ _ Hc) as Hci. cbv zeta in Hci.
  destruct Hci as (_ & _ & Hp & _ & _ & Hs1 & Hs2 & Hs3 & Hs4 & Hs5 & _).
  pose proof (decode_superframe_full _ _ _ _ _ _ _ _ Hsf) as Hf.
  cbv zeta in Hf. rewrite Hp, Hs1, Hs2, Hs3, Hs4, Hs5 in Hf.
  destruct (Hf Hfull Hpend)
    as (-> & _ & Hsize & Htail & Hp' & _ & Hg1 & Hg2 & Hb1 & Hb2 & _).
  specialize (Htail loop Hloop).
  apply decode_frames_inv in Hloop; [|lia].
  destruct Hloop as (_ & _ & Hstop & _). specialize (Hstop Herr).
  pose proof (u32_range (get config AT9_FRAMES_IN_SUPERFRAME)).
  split; [reflexivity|]. split; [lia|].
  split; [exact Hsize|]. split; [exact Htail|]. split; [exact Hp'|].
  split; [exact Hg1|]. split; [exact Hg2|]. split; [exact Hb1 | exact Hb2].
Qed.

Lemma decode_frames_first_fails (remaining : nat) ctx input position frame_no
    write_pos samples (loop : FrameLoop) :
  0 <= write_pos ->
  decode_frames remaining ctx input position frame_no write_pos samples
    = Ok loop ->
  frames_done loop = frame_no ->
  loop_position loop = position.
Proof.
  destruct remaining as [|n]; cbn [decode_frames]; intros Hw Hd Hk.
  - injection Hd as <-. reflexivity.
  - destruct (send ctx (input + position)) as [sent ctx1].
    destruct sent.
    + destruct (receive ctx1) as [pcm ctx2].
      destruct (Z.leb_spec (write_pos + size pcm) (size samples)) as [Hfit|];
        [|discriminate].
      pose proof (size_nonneg pcm) as Hpcm.
      apply decode_frames_inv in Hd; [|lia].
      destruct Hd as (_ & Hrange & _). lia.
    + injection Hd as <-. reflexivity.
Qed.

(** C3 (as amended): when the submission of frame number [k] of a
    superframe fails, the [DecodeError] callback carries the byte position
    the frame loop has reached, together with the address of the current
    buffer: the start of the superframe when [k = 0], and the start plus
    [k * es] when the decoder reports [es] consumed bytes for every frame;
    the decoder context is then cleared with [clear_context]. *)
Theorem decode_error_reports_position params config ctx (data : ModuleData)
    more (data' : ModuleData) ctx' bufparam loop :
  let st := state data in
  let superframe_size := u32 (get config AT9_SUPERFRAME_SIZE) in
  let gotten := u32 (bytes_count bufparam - current_byte_position_in_buffer st) in
  let sps := u32 (get config AT9_SAMPLE_PER_SUPERFRAME) in
  let frames := u32 (get config AT9_FRAMES_IN_SUPERFRAME) in
  lookup_buffer params (current_buffer st) = Ok bufparam ->
  current_byte_position_in_buffer st < bytes_count bufparam ->
  superframe_size <= gotten ->
  decode_frames (Z.to_nat frames) ctx (buffer bufparam)
    (current_byte_position_in_buffer st) 0 0
    (repeat silence (Z.to_nat sps)) = Ok loop ->
  got_decode_error loop = true ->
  decode_more_data params config ctx data = Ok (more, data', ctx') ->
  0 <= frames_done loop < frames /\
  invoked data'
    = invoked data
      ++ [mkCallback SCE_NGS_AT9_DECODE_ERROR (loop_position loop)
            (buffer bufparam)] /\
  (frames_done loop = 0 ->
   loop_position loop = current_byte_position_in_buffer st) /\
  (forall es, (forall c, get_es_size c = es) ->
   loop_position loop
     = current_byte_position_in_buffer st + frames_done loop * es) /\
  ctx' = clear_context (loop_context loop).
Proof.
  cbv zeta. intros Hb Hpos Hfull Hloop Herr Hd.
  destruct (decode_branch_inv _ _ _ _ _ _ _ _ Hd Hb Hpos) as (datac & Hc & Hsf).
  pose proof (compact_inv _ _ Hc) as Hci. cbv zeta in Hci.
  destruct Hci as (Hinv & _ & Hp & _).
  apply decode_superframe_inv in Hsf. cbv zeta in Hsf. rewrite Hp in Hsf.
  destruct Hsf as [(Hshort & _) | (_ & _ & _ & loop' & Hloop' & _ & -> & ->)];
    [lia|].
  rewrite Hloop in Hloop'. injection Hloop' as <-.
  pose proof (decode_frames_first_fails _ _ _ _ _ _ _ _ (Z.le_refl 0) Hloop)
    as Hfirst.
  apply decode_frames_inv in Hloop; [|lia].
  destruct Hloop as (_ & Hrange & Hstop & _ & Hposn). specialize (Hstop Herr).
  pose proof (u32_range (get config AT9_FRAMES_IN_SUPERFRAME)).
  rewrite Herr, Hinv. cbn [state invoked].
  split; [lia|]. split; [reflexivity|]. split; [exact Hfirst|].
  split; [|reflexivity].
  intros es Hes. rewrite (Hposn es Hes). lia.
Qed.

(** *** Walking the chain *)

Lemma lookup_buffer_range params i b :
  lookup_buffer params i = Ok b -> 0 <= i < 4.
Proof.
  unfold lookup_buffer.
  destruct (Z.leb_spec 0 i); destruct (Z.ltb_spec i 4); cbn [andb];
    try discriminate. lia.
Qed.

Lemma skip_empty_hops params (k : nat) :
  forall current final,
  skip_empty k params current = Ok final ->
  exists j, (j <= k)%nat /\ hops params j current final /\
            ((j < k)%nat -> final = -1 \/ has_data params final).
Proof.
  induction k as [|k IH]; intros current final Hs; cbn [skip_empty] in Hs.
  - injection Hs as <-. exists 0%nat. split; [lia|].
    split; [constructor | lia].
  - destruct (Z.eqb_spec current (-1)) as [Hend | Hcur].
    + injection Hs as <-. exists 0%nat. split; [lia|].
      split; [constructor | auto].
    + bind_inv Hs. rename a into b.
      destruct (Z.eqb_spec (bytes_count b) 0) as [Hempty | Hdata].
      * destruct (IH _ _ Hs) as (j & Hj & Hh & Hstop).
        exists (S j). split; [lia|]. split.
        -- econstructor; eauto.
        -- intros Hlt. apply Hstop. lia.
      * injection Hs as <-. exists 0%nat. split; [lia|].
        split; [constructor|]. intros _. right. split; [assumption|]. eauto.
Qed.

(** C8: when a transition has landed on a buffer of zero bytes, the walk
    along [next_buffer_index] makes at most four moves, each one leaving a
    non-terminal empty buffer, and stops before the fourth only at the
    terminal index or at a buffer with data; the step returns [true]
    exactly when the buffer the walk stopped at is non-terminal and holds
    data, and [false] (no more data) otherwise. *)
Theorem empty_buffer_walk_bounded params config ctx (data : ModuleData) more
    (data' : ModuleData) ctx' bufparam landed :
  decode_more_data params config ctx data = Ok (more, data', ctx') ->
  lookup_buffer params (current_buffer (state data)) = Ok bufparam ->
  bytes_count bufparam <= current_byte_position_in_buffer (state data) ->
  lookup_buffer params (current_buffer (state data')) = Ok landed ->
  bytes_count landed = 0 ->
  exists j final,
    (j <= 4)%nat /\
    hops params j (current_buffer (state data')) final /\
    ((j < 4)%nat -> final = -1 \/ has_data params final) /\
    (more = true <-> has_data params final) /\
    (more = false <->
     final = -1 \/
     exists b, lookup_buffer params final = Ok b /\ bytes_count b = 0).
Proof.
  intros Hd Hb Hpos Hl Hempty.
  destruct (transition_branch_inv _ _ _ _ _ _ _ _ Hd Hb Hpos)
    as (_ & datac & st' & events & _ & _ & Hfind & ->).
  cbn [state current_buffer] in *.
  pose proof (lookup_buffer_range _ _ _ Hl) as Hrange.
  unfold find_data in Hfind.
  destruct (Z.eqb_spec (current_buffer st') (-1)) as [|_]; [lia|].
  rewrite Hl in Hfind. cbn [bind] in Hfind.
  rewrite Hempty in Hfind. cbn [Z.eqb] in Hfind.
  bind_inv Hfind. rename a into final.
  destruct (skip_empty_hops _ _ _ _ E) as (j & Hj & Hh & Hstop).
  exists j, final. split; [assumption|]. split; [assumption|].
  split; [assumption|].
  destruct (Z.eqb_spec final (-1)) as [Hend | Hfinal].
  - injection Hfind as <-. split; split; try discriminate; auto.
    intros [Hne _]. contradiction.
  - bind_inv Hfind. rename a into b. injection Hfind as <-.
    unfold has_data.
    destruct (Z.eqb_spec (bytes_count b) 0) as [Hz | Hnz]; cbn [negb];
      split; split; try discriminate; auto.
    + intros (_ & b0 & Hb0 & Hne). rewrite E0 in Hb0.
      injection Hb0 as <-. contradiction.
    + intros _. right. eauto.
    + intros _. split; [assumption|]. eauto.
    + intros [Hend | (b0 & Hb0 & Hz)]; [contradiction|].
      rewrite E0 in Hb0. injection Hb0 as <-. contradiction.
Qed.

(** *** Looping and swapping *)

Lemma find_data_here params current b :
  lookup_buffer params current = Ok b -> bytes_count b <> 0 ->
  find_data params current = Ok true.
Proof.
  intros Hb Hne. pose proof (lookup_buffer_range _ _ _ Hb).
  unfold find_data.
  destruct (Z.eqb_spec current (-1)); [lia|].
  rewrite Hb. cbn [bind].
  destruct (Z.eqb_spec (bytes_count b) 0); [contradiction | reflexivity].
Qed.

Lemma transition_runs params config ctx (data datac : ModuleData) bufparam
    st' events more :
  lookup_buffer params (current_buffer (state data)) = Ok bufparam ->
  compact data = Ok datac ->
  bytes_count bufparam <= current_byte_position_in_buffer (state data) ->
  advance_buffer params bufparam (state datac) = Ok (st', events) ->
  find_data params (current_buffer st') = Ok more ->
  decode_more_data params config ctx data =
    Ok (more,
        mkModuleData
          (mkState 0 (current_loop_count st') (current_buffer st')
             (samples_generated_since_key_on st')
             (bytes_consumed_since_key_on st')
             (samples_generated_total st') (total_bytes_consumed st')
             (decoded_samples_pending st') (decoded_passed st'))
          (extra_storage datac) (invoked datac ++ events) (product datac),
        ctx).
Proof.
  intros Hb Hc Hpos Ha Hf.
  pose proof (compact_inv _ _ Hc) as Hci. cbv zeta in Hci.
  destruct Hci as (_ & _ & Hp & _).
  unfold decode_more_data. rewrite Hb. cbn [bind]. rewrite Hc. cbn [bind].
  destruct (Z.geb_spec (current_byte_position_in_buffer (state datac))
              (bytes_count bufparam)); [|lia].
  rewrite Ha. cbn [bind]. rewrite Hf. reflexivity.
Qed.

(** C4: a buffer with data and [loop_count = 2] whose bytes are used up.
    While the loop iteration is 0 or 1 the step stays on the buffer, counts
    the iteration up and invokes [SWAPPED_BUFFER] and [LOOPED_BUFFER] with
    the new iteration and the buffer address; at iteration 2, the third
    time the buffer is used up, it moves to [next_buffer_index] with
    iteration 0 and invokes [END_OF_DATA] alone when that index is -1, and
    [SWAPPED_BUFFER] alone, with the address of the next buffer,
    otherwise (whether or not that buffer holds data). *)
Theorem loop_count_two_plays_three_times params config ctx
    (data datac : ModuleData) bufparam :
  let st := state data in
  let address := buffer bufparam in
  lookup_buffer params (current_buffer st) = Ok bufparam ->
  loop_count bufparam = 2 ->
  0 < bytes_count bufparam <= current_byte_position_in_buffer st ->
  compact data = Ok datac ->
  (0 <= current_loop_count st < 2 ->
   exists data' : ModuleData,
     decode_more_data params config ctx data = Ok (true, data', ctx) /\
     current_buffer (state data') = current_buffer st /\
     current_loop_count (state data') = current_loop_count st + 1 /\
     current_byte_position_in_buffer (state data') = 0 /\
     invoked data'
       = invoked data
         ++ [mkCallback SCE_NGS_AT9_SWAPPED_BUFFER
               (current_loop_count st + 1) address;
             mkCallback SCE_NGS_AT9_LOOPED_BUFFER
               (current_loop_count st + 1) address]) /\
  (current_loop_count st = 2 -> next_buffer_index bufparam = -1 ->
   exists data' : ModuleData,
     decode_more_data params config ctx data = Ok (false, data', ctx) /\
     current_buffer (state data') = -1 /\
     invoked data' = invoked data ++ [mkCallback SCE_NGS_AT9_END_OF_DATA 0 0]) /\
  (current_loop_count st = 2 ->
   forall next,
   next_buffer_index bufparam <> -1 ->
   lookup_buffer params (next_buffer_index bufparam) = Ok next ->
   bytes_count next <> 0 ->
   exists data' : ModuleData,
     decode_more_data params config ctx data = Ok (true, data', ctx) /\
     current_buffer (state data') = next_buffer_index bufparam /\
     current_loop_count (state data') = 0 /\
     current_byte_position_in_buffer (state data') = 0 /\
     invoked data'
       = invoked data ++ [mkCallback SCE_NGS_AT9_SWAPPED_BUFFER 0 (buffer next)]) /\
  (current_loop_count st = 2 ->
   forall more (data' : ModuleData) ctx',
   next_buffer_index bufparam <> -1 ->
   decode_more_data params config ctx data = Ok (more, data', ctx') ->
   exists next,
     lookup_buffer params (next_buffer_index bufparam) = Ok next /\
     current_buffer (state data') = next_buffer_index bufparam /\
     current_loop_count (state data') = 0 /\
     invoked data'
       = invoked data ++ [mkCallback SCE_NGS_AT9_SWAPPED_BUFFER 0 (buffer next)]).
Proof.
  cbv zeta. intros Hb Hloop Hpos Hc.
  pose proof (compact_inv _ _ Hc) as Hci. cbv zeta in Hci.
  destruct Hci as (Hinv & _ & _ & Hlc & Hcb & _).
  split; [|split; [|split]]; cycle 3.
  - intros Hk more data' ctx' Hnext Hd.
    destruct (transition_branch_inv _ _ _ _ _ _ _ _ Hd Hb ltac:(lia))
      as (_ & datac' & st' & events & Hc' & Ha & _ & ->).
    rewrite Hc in Hc'. injection Hc' as <-.
    apply advance_buffer_inv in Ha. cbv zeta in Ha.
    destruct Ha as (_ & _ & _ & _ & _ & _ & _ & Hcase).
    rewrite Hlc, Hk, Hloop in Hcase.
    destruct Hcase as [(_ & _ & Hz & Hnb & [[Hend _] | (_ & next & Hn & ->)])
                      | ([Hinf | Hle] & _)];
      try contradiction; try lia; try discriminate.
    exists next. cbn [state invoked current_buffer current_loop_count].
    rewrite Hinv. auto.
  - intros Hk. eexists. split.
    + eapply (transition_runs params config ctx data datac bufparam);
        try eassumption; try lia.
      * unfold advance_buffer. rewrite Hloop, Hlc. cbn [Z.eqb negb andb].
        destruct (Z.gtb_spec (current_loop_count (state data) + 1) 2);
          [lia | reflexivity].
      * cbn [current_buffer]. rewrite Hcb.
        apply (find_data_here _ _ bufparam Hb). lia.
    + cbn [state invoked current_buffer current_loop_count
           current_byte_position_in_buffer]. rewrite Hcb, Hinv. auto.
  - intros Hk Hnext. eexists. split.
    + eapply (transition_runs params config ctx data datac bufparam);
        try eassumption; try lia.
      * unfold advance_buffer. rewrite Hloop, Hlc, Hk, Hnext. reflexivity.
      * reflexivity.
    + cbn [state invoked current_buffer]. rewrite Hinv. auto.
  - intros Hk next Hnext Hn Hdata. eexists. split.
    + eapply (transition_runs params config ctx data datac bufparam);
        try eassumption; try lia.
      * unfold advance_buffer. rewrite Hloop, Hlc, Hk. cbn [Z.eqb negb andb Z.gtb Z.compare Z.add Pos.add Pos.succ Pos.compare Pos.compare_cont].
        destruct (Z.eqb_spec (next_buffer_index bufparam) (-1));
          [contradiction|].
        rewrite Hn. reflexivity.
      * cbn [current_buffer]. apply (find_data_here _ _ next Hn Hdata).
    + cbn [state invoked current_buffer current_loop_count
           current_byte_position_in_buffer]. rewrite Hinv. auto.
Qed.

(** *** The bookkeeping of the backlog *)

Lemma decode_step_adds granularity params config ctx (data : ModuleData)
    more (data' : ModuleData) ctx' bufparam :
  let st := state data in
  let st' := state data' in
  let superframe_size := u32 (get config AT9_SUPERFRAME_SIZE) in
  let gotten := u32 (bytes_count bufparam - current_byte_position_in_buffer st) in
  let sps := u32 (get config AT9_SAMPLE_PER_SUPERFRAME) in
  let decoded_size :=
    snd (discard_trim sps superframe_size bufparam
           (current_byte_position_in_buffer st) gotten) in
  0 < granularity ->
  granularity + sps <= 2 ^ 31 ->
  backlog_ok granularity data ->
  decoded_samples_pending st < granularity ->
  lookup_buffer params (current_buffer st) = Ok bufparam ->
  current_byte_position_in_buffer st < bytes_count bufparam ->
  superframe_size <= gotten ->
  decode_more_data params config ctx data = Ok (more, data', ctx') ->
  0 <= decoded_size <= sps /\
  decoded_samples_pending st' = decoded_samples_pending st + decoded_size /\
  size (extra_storage data') = decoded_samples_pending st + decoded_size /\
  decoded_passed st' = 0.
Proof.
  cbv zeta. intros Hg Hbound Hok Hlt Hb Hpos Hfull Hd.
  destruct (decode_branch_inv _ _ _ _ _ _ _ _ Hd Hb Hpos) as (datac & Hc & Hsf).
  destruct (compact_backlog_ok _ _ _ Hg Hok Hc) as [(Hp0 & _) Hz].
  pose proof (compact_inv _ _ Hc) as Hci. cbv zeta in Hci.
  destruct Hci as (_ & _ & Hp & _ & _ & _ & _ & _ & _ & Hpend & _).
  pose proof (decode_superframe_full _ _ _ _ _ _ _ _ Hsf) as Hf.
  cbv zeta in Hf. rewrite Hp, Hpend in Hf. rewrite Hpend in Hp0.
  destruct (Hf Hfull Hp0) as (_ & Hds & Hsize & _ & Hp' & Hq' & _).
  rewrite u32_small in Hp' by lia.
  repeat split; try lia; congruence.
Qed.

Lemma backlog_ok_split granularity (data : ModuleData) :
  backlog_ok granularity data ->
  exists held padding,
    extra_storage data = held ++ padding /\
    size held
      = decoded_samples_pending (state data) + decoded_passed (state data) /\
    padding = repeat silence (length padding) /\
    (padding <> [] ->
     decoded_passed (state data) = 0 /\
     size (extra_storage data) = granularity).
Proof.
  intros (Hp & Hq & Hb & [Hs | (Hz & Hlt & Hs & Hpad)]).
  - exists (extra_storage data), []. rewrite app_nil_r.
    split; [reflexivity|]. split; [assumption|]. split; [reflexivity|].
    intros Hne. contradiction.
  - exists (firstn (Z.to_nat (decoded_samples_pending (state data)))
              (extra_storage data)),
           (skipn (Z.to_nat (decoded_samples_pending (state data)))
              (extra_storage data)).
    rewrite firstn_skipn. split; [reflexivity|]. split.
    + unfold size in *. rewrite length_firstn. lia.
    + split; [|auto]. rewrite Hpad at 1. now rewrite Hpad, repeat_length.
Qed.

End VoiceFacts.

(** ** The scripted decoder at work *)

(** What the wrapped size of C1 leads to: on the first superframe of
    [long_end_discard] the retained size is [4 - 5] wrapped to 32 bits, and
    the copy out of the scratch vector would read far beyond its four
    sample-frames. *)
Example long_end_discard_is_undefined :
  snd (discard_trim 4 8 (mkBufferParameters 4096 16 0 (-1) 0 5) 0 16)
    = 4294967295 /\
  scripted_decode_more_data long_end_discard (-1) (-1, 0) idle_data = Undefined.
Proof. split; lazy; reflexivity. Qed.

Lemma scripted_bound (config : Z) :
  4 + u32 (get (DecoderState := scripted_decoder) config
             AT9_SAMPLE_PER_SUPERFRAME) <= 2 ^ 31.
Proof. vm_compute. discriminate. Qed.

(** The second submission of the first superframe fails. *)
Lemma failed_superframe_is_counted_witness :
  exists data' ctx',
    scripted_decode_more_data (one_buffer 1) 1 (1, 0) idle_data
      = Ok (true, data', ctx') /\
    size (extra_storage data') = 4 /\
    samples_generated_total (state data') = 4 /\
    total_bytes_consumed (state data') = 8.
Proof.
  eexists. eexists. split; [vm_compute; reflexivity|].
  destruct (failed_superframe_is_counted
              (codec := scripted_decoder) (zero := scripted_silence)
              (one_buffer 1) 1 (1, 0) idle_data true
              (mkModuleData (mkState 4 0 0 4 8 4 8 4 0) [1; 1; 0; 0]
                 [mkCallback SCE_NGS_AT9_DECODE_ERROR 4 4096] 0)
              (1, 2) (mkBufferParameters 4096 16 0 (-1) 0 0)
              (mkFrameLoop true 1 (1, 2) 4 [1; 1; 0; 0]))
    as (_ & _ & Hsize & _ & _ & _ & Htotal & _ & Hbytes);
    try (vm_compute; reflexivity); try (vm_compute; discriminate).
  split; [exact Hsize|]. split; [exact Htotal | exact Hbytes].
Defined.

(** C2, the claim as written fails: after the failed superframe the
    backlog has grown and every counter has moved. *)
Lemma failed_superframe_counterexample :
  exists data' ctx',
    scripted_decode_more_data (one_buffer 1) 1 (1, 0) idle_data
      = Ok (true, data', ctx') /\
    invoked data' = [mkCallback SCE_NGS_AT9_DECODE_ERROR 4 4096] /\
    extra_storage data' <> extra_storage idle_data /\
    decoded_samples_pending (state data')
      <> decoded_samples_pending (state idle_data) /\
    samples_generated_since_key_on (state data')
      <> samples_generated_since_key_on (state idle_data) /\
    samples_generated_total (state data')
      <> samples_generated_total (state idle_data) /\
    bytes_consumed_since_key_on (state data')
      <> bytes_consumed_since_key_on (state idle_data) /\
    total_bytes_consumed (state data')
      <> total_bytes_consumed (state idle_data).
Proof.
  eexists. eexists. split; [vm_compute; reflexivity|].
  cbn. repeat split; try reflexivity; discriminate.
Qed.

(** The counters of a failed superframe wrap like those of a good one:
    four samples on top of [2 ^ 31 - 2]. *)
Example failed_superframe_counter_wraps :
  exists data' ctx',
    scripted_decode_more_data (one_buffer 1) 1 (1, 0)
      (mkModuleData (mkState 0 0 0 0 0 2147483646 0 0 0) [] [] 0)
      = Ok (true, data', ctx') /\
    samples_generated_total (state data') = -2147483646.
Proof. eexists. eexists. split; vm_compute; reflexivity. Qed.

(** The second submission of the first superframe fails: one frame of four
    bytes was decoded before it. *)
Lemma decode_error_reports_position_witness :
  exists data' ctx',
    scripted_decode_more_data (one_buffer 1) 1 (1, 0) idle_data
      = Ok (true, data', ctx') /\
    invoked data' = [mkCallback SCE_NGS_AT9_DECODE_ERROR 4 4096] /\
    4 = 0 + 1 * 4 /\
    ctx' = clear_context (DecoderState := scripted_decoder) (1, 2).
Proof.
  eexists. eexists. split; [vm_compute; reflexivity|].
  destruct (decode_error_reports_position
              (codec := scripted_decoder) (zero := scripted_silence)
              (one_buffer 1) 1 (1, 0) idle_data true
              (mkModuleData (mkState 4 0 0 4 8 4 8 4 0) [1; 1; 0; 0]
                 [mkCallback SCE_NGS_AT9_DECODE_ERROR 4 4096] 0)
              (1, 2) (mkBufferParameters 4096 16 0 (-1) 0 0)
              (mkFrameLoop true 1 (1, 2) 4 [1; 1; 0; 0]))
    as (_ & Hcb & _ & Hpos & Hctx);
    try (vm_compute; reflexivity); try (vm_compute; discriminate).
  split; [exact Hcb|].
  split; [exact (Hpos 4 (fun _ => eq_refl)) | exact Hctx].
Defined.

(** C3, the claim as written fails.  The second frame of the first
    superframe of [one_buffer], at guest address 4100, is corrupt.  The
    first tick reports the error with byte offset 4, not with the offset 0
    of the start of the superframe.  The following tick does not decode
    the next superframe, the one at bytes 8 to 15: it submits the frame at
    address 4100 again, raises the same error again, leaves the byte
    position where it was and hands out silence. *)
Lemma decode_error_offset_counterexample :
  exists data1 self1 data2 self2,
    corrupt_frame_process 10 4 (one_buffer 4100) idle_module idle_data
      = Ok (false, data1, self1) /\
    current_byte_position_in_buffer (state idle_data) = 0 /\
    invoked data1 = [mkCallback SCE_NGS_AT9_DECODE_ERROR 4 4096] /\
    corrupt_frame_process 10 4 (one_buffer 4100) self1 data1
      = Ok (false, data2, self2) /\
    invoked data2
      = [mkCallback SCE_NGS_AT9_DECODE_ERROR 4 4096;
         mkCallback SCE_NGS_AT9_DECODE_ERROR 4 4096] /\
    current_byte_position_in_buffer (state data2) = 4 /\
    published 4 data2 = [0; 0; 0; 0].
Proof.
  do 4 eexists. split; [vm_compute; reflexivity|].
  split; [reflexivity|]. split; [reflexivity|].
  split; [vm_compute; reflexivity|].
  split; [reflexivity|]. split; reflexivity.
Qed.

(** The same failure when it does not come back: with the scripted
    decoder only the second submission fails.  The following tick starts
    at byte 4, inside the first superframe, decodes the two frames at
    bytes 4 to 11 as if they were a superframe, and the tick after that
    finds a rest of four bytes, too short for a superframe. *)
Example decode_error_leaves_superframes_misaligned :
  exists data self,
    scripted_run 4 (repeat (Tick 10 (one_buffer 1)) 3) idle_module idle_data
      = Ok (data, self) /\
    invoked data = [mkCallback SCE_NGS_AT9_DECODE_ERROR 4 4096] /\
    current_byte_position_in_buffer (state data) = 12 /\
    total_bytes_consumed (state data) = 16.
Proof.
  eexists. eexists. split; [vm_compute; reflexivity|].
  split; [reflexivity|]. split; reflexivity.
Qed.

(** The first buffer of [looping_chain] used up for the first time. *)
Lemma loop_count_two_plays_three_times_witness :
  exists data',
    scripted_decode_more_data looping_chain (-1) (-1, 2) (data_at 8)
      = Ok (true, data', (-1, 2)) /\
    current_buffer (state data') = 0 /\
    current_loop_count (state data') = 1 /\
    invoked data'
      = [mkCallback SCE_NGS_AT9_SWAPPED_BUFFER 1 4096;
         mkCallback SCE_NGS_AT9_LOOPED_BUFFER 1 4096].
Proof.
  destruct (loop_count_two_plays_three_times
              (codec := scripted_decoder) (zero := scripted_silence)
              looping_chain (-1) (-1, 2) (data_at 8) (data_at 8)
              (mkBufferParameters 4096 8 2 1 0 0))
    as ((data' & Hrun & Hbuf & Hcount & _ & Hcb) & _);
    try reflexivity; try (cbn; lia).
  exists data'. split; [exact Hrun|]. split; [exact Hbuf|].
  split; [exact Hcount | exact Hcb].
Defined.

(** Six ticks over [looping_chain]: the first buffer is decoded three
    times, the second once, and the callbacks come in the order of C4. *)
Example looping_chain_run :
  exists data self,
    scripted_run 4 (repeat (Tick 10 looping_chain) 6) idle_module idle_data
      = Ok (data, self) /\
    invoked data
      = [mkCallback SCE_NGS_AT9_SWAPPED_BUFFER 1 4096;
         mkCallback SCE_NGS_AT9_LOOPED_BUFFER 1 4096;
         mkCallback SCE_NGS_AT9_SWAPPED_BUFFER 2 4096;
         mkCallback SCE_NGS_AT9_LOOPED_BUFFER 2 4096;
         mkCallback SCE_NGS_AT9_SWAPPED_BUFFER 0 8192;
         mkCallback SCE_NGS_AT9_END_OF_DATA 0 0] /\
    total_bytes_consumed (state data) = 3 * 8 + 8.
Proof.
  eexists. eexists. split; [vm_compute; reflexivity|].
  split; reflexivity.
Qed.


(** One tick over a chain without data leaves four sample-frames of
    silence in the backlog while nothing is pending and nothing was
    passed. *)
Example exhausted_tick_pads_backlog :
  exists data self,
    scripted_run 4 [Tick 10 empty_chain] idle_module idle_data
      = Ok (data, self) /\
    extra_storage data = repeat scripted_silence 4 /\
    decoded_samples_pending (state data) + decoded_passed (state data) = 0.
Proof.
  eexists. eexists. split; [vm_compute; reflexivity|].
  split; reflexivity.
Qed.

(** The first buffer of [empty_ring] is used up and the ring behind it
    holds no data: four moves, then the step gives up. *)
Lemma empty_buffer_walk_bounded_witness :
  exists data',
    scripted_decode_more_data empty_ring (-1) (-1, 2) (data_at 8)
      = Ok (false, data', (-1, 2)) /\
    exists j final,
      (j <= 4)%nat /\
      hops empty_ring j (current_buffer (state data')) final /\
      ~ has_data empty_ring final.
Proof.
  eexists. split; [vm_compute; reflexivity|].
  destruct (empty_buffer_walk_bounded
              (codec := scripted_decoder) (zero := scripted_silence)
              empty_ring (-1) (-1, 2) (data_at 8) false
              (mkModuleData (mkState 0 0 1 0 0 0 0 0 0) []
                 [mkCallback SCE_NGS_AT9_SWAPPED_BUFFER 0 8192] 0)
              (-1, 2) (mkBufferParameters 4096 8 0 1 0 0)
              (mkBufferParameters 8192 0 0 2 0 0))
    as (j & final & Hj & Hh & _ & Htrue & _);
    try reflexivity; try (cbn; lia).
  exists j, final. split; [exact Hj|]. split; [exact Hh|].
  intros Hdata. apply Htrue in Hdata. discriminate.
Defined.

(** The fuel of [process_loop] is not an artefact: over [spinning_chain]
    every call of [decode_more_data] loops the empty first buffer, finds
    data behind it, returns [true] and leaves the voice on the empty
    buffer. *)
Lemma spinning_chain_step (count : Z) (callbacks : list Callback) :
  scripted_decode_more_data spinning_chain (-1) (-1, 0)
    (mkModuleData (mkState 0 count 0 0 0 0 0 0 0) [] callbacks 0)
  = Ok (true,
        mkModuleData (mkState 0 (count + 1) 0 0 0 0 0 0 0) []
          (callbacks
           ++ [mkCallback SCE_NGS_AT9_SWAPPED_BUFFER (count + 1) 4096;
               mkCallback SCE_NGS_AT9_LOOPED_BUFFER (count + 1) 4096]) 0,
        (-1, 0)).
Proof. reflexivity. Qed.

Example spinning_chain_never_returns (fuel : nat) :
  scripted_process fuel 4 spinning_chain idle_module idle_data = OutOfFuel.
Proof.
  unfold scripted_process, process, idle_data, idle_module, ModuleData_zero,
    State_zero, Module_zero.
  cbn [state current_buffer decoder Z.eqb lookup_buffer spinning_chain
       buffer_params Z.leb Z.ltb Z.compare andb Z.to_nat nth_error bind buffer
       config_data create scripted_decoder].
  assert (Hspin : forall count callbacks,
            process_loop (codec := scripted_decoder) (zero := scripted_silence)
              fuel 4 spinning_chain (-1) (-1, 0)
              (mkModuleData (mkState 0 count 0 0 0 0 0 0 0) [] callbacks 0)
            = OutOfFuel).
  { induction fuel as [|fuel IH]; intros count callbacks; [reflexivity|].
    cbn [process_loop state decoded_samples_pending].
    change (i32 0 <? 4) with true. cbv iota.
    change (decode_more_data (codec := scripted_decoder)
              (zero := scripted_silence))
      with scripted_decode_more_data.
    rewrite spinning_chain_step. cbn [bind]. apply IH. }
  rewrite Hspin. reflexivity.
Qed.

(** * Further properties of the module *)

(** ** get_buffer_parameter beyond the requested window *)

Lemma mod_eq_of_diff (a b k m : Z) : a - b = k * m -> a mod m = b mod m.
Proof.
  intros Hd. replace a with (b + k * m) by lia. apply Z_mod_plus_full.
Qed.

(** X1: for every start sample, window length and format word, with no side
    condition, [start_skip] is the start sample modulo the samples of a
    superframe, and the accounting identity
    [start_skip + num_samples + end_skip = num_superframe * samples_per_superframe]
    holds modulo [2^32]. *)
Theorem skip_accounting_modulo (start_sample num_samples info : Z) :
  let p := get_buffer_parameter start_sample num_samples info in
  start_skip p = start_sample mod samples_per_superframe info /\
  (start_skip p + num_samples + end_skip p) mod 2 ^ 32
    = (num_superframe start_sample num_samples info
       * samples_per_superframe info) mod 2 ^ 32.
Proof.
  cbv zeta. pose proof (samples_per_superframe_eq info) as [_ Hsps].
  unfold get_buffer_parameter. cbn [start_skip end_skip].
  unfold start_superframe.
  set (sps := samples_per_superframe info) in *.
  set (ns := num_superframe start_sample num_samples info).
  pose proof (Z.div_mod start_sample sps ltac:(lia)) as Hq.
  pose proof (Z.mod_pos_bound start_sample sps ltac:(lia)) as Hr.
  assert (Hss : u32 (start_sample - start_sample / sps * sps)
                = start_sample mod sps).
  { unfold u32. rewrite Z.mod_small; lia. }
  rewrite Hss. split; [reflexivity|].
  unfold u32.
  pose proof (Z.div_mod ((start_sample / sps + ns) * sps) (2 ^ 32) ltac:(lia)).
  pose proof (Z.div_mod (start_sample + num_samples) (2 ^ 32) ltac:(lia)).
  pose proof (Z.div_mod
                (((start_sample / sps + ns) * sps) mod 2 ^ 32
                 - (start_sample + num_samples) mod 2 ^ 32)
                (2 ^ 32) ltac:(lia)).
  apply (mod_eq_of_diff _ _
           (((start_sample / sps + ns) * sps) / 2 ^ 32 * -1
            + (start_sample + num_samples) / 2 ^ 32
            - (((start_sample / sps + ns) * sps) mod 2 ^ 32
               - (start_sample + num_samples) mod 2 ^ 32) / 2 ^ 32)).
  lia.
Qed.

(** X2: splitting a window.  The superframes of [a .. a+n) and of
    [a+n .. a+n+m) together are the superframes of [a .. a+n+m), plus one
    when the split point [a+n] is not on a superframe boundary (the
    superframe around it is fetched twice). *)
Theorem split_window_superframes (a n m info : Z) :
  0 <= a -> 0 <= n -> 0 <= m ->
  a + n + m + samples_per_superframe info - 1 < 2 ^ 32 ->
  num_superframe a n info + num_superframe (a + n) m info
    = num_superframe a (n + m) info
      + (if (a + n) mod samples_per_superframe info =? 0 then 0 else 1).
Proof.
  intros Ha Hn Hm Hw.
  pose proof (samples_per_superframe_eq info) as [_ Hsps].
  destruct (num_superframe_no_wrap a n info) as [E1 _];
    [unfold is_u32; lia | unfold is_u32; lia | lia |].
  destruct (num_superframe_no_wrap (a + n) m info) as [E2 _];
    [unfold is_u32; lia | unfold is_u32; lia | lia |].
  destruct (num_superframe_no_wrap a (n + m) info) as [E3 _];
    [unfold is_u32; lia | unfold is_u32; lia | lia |].
  rewrite E1, E2, E3. unfold start_superframe.
  replace (a + (n + m)) with (a + n + m) by lia.
  unfold ceil_div at 1.
  destruct ((a + n) mod samples_per_superframe info =? 0); lia.
Qed.

Lemma split_window_superframes_witness :
  num_superframe 100 1000 134217728 + num_superframe 1100 180 134217728
    = num_superframe 100 1180 134217728 + 1
  /\ num_superframe 0 1024 134217728 + num_superframe 1024 256 134217728
     = num_superframe 0 1280 134217728 + 0.
Proof.
  split.
  - apply (split_window_superframes 100 1000 180 134217728); try lia.
    vm_compute. reflexivity.
  - apply (split_window_superframes 0 1024 256 134217728); try lia.
    vm_compute. reflexivity.
Defined.

(** X3: windows on superframe boundaries and empty windows, as long as
    the rounding sum stays below [2 ^ 32].  A window that starts at
    superframe [i] and spans [j] whole superframes, with
    [(i + j + 1) * sps <= 2 ^ 32], is returned as exactly [j] superframes
    with no skip at either end.  An empty window at [start_sample], with
    [start_sample + sps - 1 < 2 ^ 32], costs nothing when it sits on a
    boundary and one whole superframe otherwise, with
    [start_skip + end_skip] filling that superframe. *)
Theorem aligned_and_empty_windows (i j start_sample info : Z) :
  let sps := samples_per_superframe info in
  (0 <= i -> 0 <= j -> (i + j + 1) * sps <= 2 ^ 32 ->
   let p := get_buffer_parameter (i * sps) (j * sps) info in
   start_superframe (i * sps) info = i /\
   num_superframe (i * sps) (j * sps) info = j /\
   start_skip p = 0 /\ end_skip p = 0) /\
  (0 <= start_sample -> start_sample + sps - 1 < 2 ^ 32 ->
   let p := get_buffer_parameter start_sample 0 info in
   (start_sample mod sps = 0 ->
    num_superframe start_sample 0 info = 0 /\
    num_bytes p = 0 /\ start_skip p = 0 /\ end_skip p = 0) /\
   (start_sample mod sps <> 0 ->
    num_superframe start_sample 0 info = 1 /\
    num_bytes p = bytes_per_superframe info /\
    start_skip p + end_skip p = sps)).
Proof.
  cbv zeta. pose proof (samples_per_superframe_eq info) as [_ Hsps].
  set (sps := samples_per_superframe info) in *.
  split.
  - intros Hi Hj Hw.
    assert (Hu1 : is_u32 (i * sps)) by (unfold is_u32; nia).
    assert (Hu2 : is_u32 (j * sps)) by (unfold is_u32; nia).
    assert (Hnw : i * sps + j * sps + samples_per_superframe info - 1 < 2 ^ 32)
      by (fold sps; nia).
    destruct (num_superframe_no_wrap _ _ _ Hu1 Hu2 Hnw) as [Hns _].
    destruct (skip_fields_no_wrap _ _ _ Hu1 Hu2 Hnw) as [Hss Hes].
    cbv zeta in Hss, Hes. fold sps in Hns, Hss, Hes.
    assert (Hst : start_superframe (i * sps) info = i).
    { unfold start_superframe. fold sps. apply Z.div_mul. lia. }
    assert (Hc : ceil_div (i * sps + j * sps) sps = i + j).
    { unfold ceil_div. replace (i * sps + j * sps) with ((i + j) * sps) by lia.
      rewrite Z.mod_mul, Z.div_mul by lia. reflexivity. }
    rewrite Hc in Hns, Hes. rewrite Hst in Hns.
    repeat split; try assumption; try lia.
    rewrite Hss. apply Z.mod_mul. lia.
  - intros Hs Hw.
    assert (Hu1 : is_u32 start_sample) by (unfold is_u32; lia).
    assert (Hu2 : is_u32 0) by (unfold is_u32; lia).
    assert (Hnw : start_sample + 0 + samples_per_superframe info - 1 < 2 ^ 32)
      by (fold sps; lia).
    destruct (num_superframe_no_wrap _ _ _ Hu1 Hu2 Hnw) as [Hns _].
    destruct (skip_fields_no_wrap _ _ _ Hu1 Hu2 Hnw) as [Hss Hes].
    cbv zeta in Hss, Hes. fold sps in Hns, Hss, Hes.
    rewrite Z.add_0_r in Hns, Hes.
    unfold start_superframe in Hns. fold sps in Hns.
    pose proof (Z.div_mod start_sample sps ltac:(lia)) as Hq.
    pose proof (Z.mod_pos_bound start_sample sps ltac:(lia)) as Hr.
    pose proof (frame_bytes_range info) as Hfb.
    pose proof (frame_per_superframe_range info) as Hfp.
    pose proof (bytes_per_superframe_eq info) as Hbps.
    unfold ceil_div in Hns, Hes.
    split; intros Hal.
    + apply Z.eqb_eq in Hal as Hal'. rewrite Hal' in Hns, Hes.
      assert (Hz : num_superframe start_sample 0 info = 0) by lia.
      repeat split; try lia.
      unfold get_buffer_parameter. cbn [num_bytes]. rewrite Hz. reflexivity.
    + apply Z.eqb_neq in Hal as Hal'. rewrite Hal' in Hns, Hes.
      assert (Hz : num_superframe start_sample 0 info = 1) by lia.
      repeat split; try lia.
      unfold get_buffer_parameter. cbn [num_bytes]. rewrite Hz.
      rewrite Z.mul_1_l. apply u32_small. nia.
Qed.

Lemma aligned_and_empty_windows_witness :
  num_superframe (3 * 128) (5 * 128) 134217728 = 5 /\
  num_superframe 256 0 134217728 = 0 /\
  num_superframe 100 0 134217728 = 1.
Proof.
  destruct (aligned_and_empty_windows 3 5 256 134217728) as [Ha He].
  destruct (aligned_and_empty_windows 3 5 100 134217728) as [_ He'].
  split; [|split].
  - apply Ha; try lia. vm_compute. discriminate.
  - apply He; try lia; vm_compute; reflexivity.
  - apply He'; try lia; vm_compute; try reflexivity. discriminate.
Defined.

(** X4: whatever the 32 bits of the format word are, the layout constants
    stay in their ranges: the table index is below 16, a frame has 1 to
    2048 bytes, a superframe has 1, 2, 4 or 8 frames of 64, 128 or 256
    samples, hence at most 16384 bytes and 2048 samples, and never zero
    samples, so the divisions of [get_buffer_parameter] are defined. *)
Theorem layout_constants_bounded (info : Z) :
  (Z.to_nat (sample_rate_index info)
   < length sample_rate_index_to_frame_sample_power)%nat /\
  1 <= frame_bytes info <= 2048 /\
  (frame_per_superframe info = 1 \/ frame_per_superframe info = 2 \/
   frame_per_superframe info = 4 \/ frame_per_superframe info = 8) /\
  (samples_per_frame info = 64 \/ samples_per_frame info = 128 \/
   samples_per_frame info = 256) /\
  1 <= bytes_per_superframe info <= 16384 /\
  64 <= samples_per_superframe info <= 2048 /\
  samples_per_superframe info mod 64 = 0.
Proof.
  pose proof (bit_field_range 12 4 info ltac:(lia)) as Hi.
  pose proof (frame_bytes_range info) as Hfb.
  pose proof (superframe_index_range info) as Hsi.
  pose proof (frame_per_superframe_pow info) as Hfp.
  pose proof (bytes_per_superframe_eq info) as Hbps.
  pose proof (samples_per_superframe_eq info) as [Hsps Hr].
  assert (Hfps : frame_per_superframe info = 1 \/ frame_per_superframe info = 2
                 \/ frame_per_superframe info = 4
                 \/ frame_per_superframe info = 8).
  { rewrite Hfp.
    assert (Hc : superframe_index info = 0 \/ superframe_index info = 1 \/
                 superframe_index info = 2 \/ superframe_index info = 3) by lia.
    destruct Hc as [-> | [-> | [-> | ->]]]; cbn; auto. }
  assert (Hspf : samples_per_frame info = 64 \/ samples_per_frame info = 128
                 \/ samples_per_frame info = 256).
  { unfold samples_per_frame. rewrite sample_rate_index_bits.
    set (i := bit_field 12 4 info) in *.
    assert (Hn : (Z.to_nat i < 16)%nat) by lia. clearbody i.
    destruct (Z.to_nat i) as [|n]; [vm_compute; auto|].
    do 15 (destruct n as [|n]; [vm_compute; auto|]). lia. }
  split; [rewrite sample_rate_index_bits;
          change (length sample_rate_index_to_frame_sample_power) with 16%nat;
          lia|].
  split; [assumption|]. split; [assumption|]. split; [assumption|].
  split; [nia|]. split; [assumption|].
  rewrite Hsps.
  destruct Hspf as [-> | [-> | ->]];
    destruct Hfps as [-> | [-> | [-> | ->]]]; reflexivity.
Qed.

(** ** Discard trimming, case by case *)

(** X5: what the trimming of one superframe keeps, for an end discard count
    below [2^32 - sps].  The start offset never exceeds a superframe.  When the end discard does not reach into the
    superframe, offset and kept size add up to the superframe.  When it
    does, the kept size is the rest after both discards if the whole end
    discard count fits into what the start discard left, and otherwise the
    difference wrapped to 32 bits, which is more than a superframe; the
    latter always happens when another superframe follows in the buffer. *)
Theorem discard_trim_cases (sps superframe_size : Z)
    (bufparam : BufferParameters) (position gotten : Z) :
  0 <= sps ->
  0 <= samples_discard_end_off bufparam ->
  sps + samples_discard_end_off bufparam < 2 ^ 32 ->
  let offset := fst (discard_trim sps superframe_size bufparam position gotten) in
  let kept := snd (discard_trim sps superframe_size bufparam position gotten) in
  let discard_end := samples_discard_end_off bufparam in
  let samples_left_after := u32 ((gotten / superframe_size - 1) * sps) in
  0 <= offset <= sps /\
  (discard_end <= samples_left_after -> offset + kept = sps) /\
  (samples_left_after < discard_end -> discard_end <= sps - offset ->
   kept = sps - offset - discard_end) /\
  (samples_left_after < discard_end -> sps - offset < discard_end ->
   kept = 2 ^ 32 + sps - offset - discard_end /\ sps < kept) /\
  (sps <= samples_left_after -> samples_left_after < discard_end -> sps < kept).
Proof.
  intros Hsps Hde Hsum. cbv zeta. unfold discard_trim.
  set (sample_index := u32 (u32 position / superframe_size * sps)).
  set (sla := u32 ((gotten / superframe_size - 1) * sps)).
  rewrite (u32_small (samples_discard_end_off bufparam)) by lia.
  assert (Hstart :
    exists off, 0 <= off <= sps /\
      (if u32 (samples_discard_start_off bufparam) >? sample_index
       then (u32 (0 + Z.min sps
                        (u32 (samples_discard_start_off bufparam - sample_index))),
             u32 (sps - Z.min sps
                          (u32 (samples_discard_start_off bufparam
                                - sample_index))))
       else (0, sps)) = (off, sps - off)).
  { destruct (u32 (samples_discard_start_off bufparam) >? sample_index).
    - pose proof (u32_range (samples_discard_start_off bufparam - sample_index)).
      set (m := Z.min sps
                  (u32 (samples_discard_start_off bufparam - sample_index))).
      assert (Hm : 0 <= m <= sps) by (unfold m; lia).
      exists m. split; [assumption|].
      rewrite (u32_small (0 + m)), (u32_small (sps - m)) by lia.
      f_equal.
    - exists 0. split; [lia|]. f_equal. lia. }
  destruct Hstart as (off & Hoff & ->).
  destruct (Z.gtb_spec (samples_discard_end_off bufparam) sla) as [Hend | Hno];
    cbn [fst snd].
  - split; [assumption|]. split; [lia|]. split; [|split].
    + intros _ Hfit. apply u32_small. lia.
    + intros _ Hover. unfold u32.
      assert (E : (sps - off - samples_discard_end_off bufparam) mod 2 ^ 32
                  = 2 ^ 32 + sps - off - samples_discard_end_off bufparam).
      { symmetry. apply (Z.mod_unique _ _ (-1)); lia. }
      rewrite E. lia.
    + intros Hfar _. unfold u32.
      assert (E : (sps - off - samples_discard_end_off bufparam) mod 2 ^ 32
                  = 2 ^ 32 + sps - off - samples_discard_end_off bufparam).
      { symmetry. apply (Z.mod_unique _ _ (-1)); lia. }
      rewrite E. lia.
  - split; [assumption|]. repeat split; lia.
Qed.

(** A superframe of 256 samples with 100 samples discarded at its start
    and 50 at its end, as the last one of its buffer. *)
Lemma discard_trim_cases_witness :
  discard_trim 256 200 (mkBufferParameters 4096 200 0 (-1) 100 50) 0 200
    = (100, 106).
Proof.
  pose proof (discard_trim_cases 256 200
                (mkBufferParameters 4096 200 0 (-1) 100 50) 0 200
                ltac:(lia) ltac:(cbn; lia) ltac:(cbn; lia)) as Hc.
  cbv zeta in Hc. destruct Hc as (_ & _ & Hfit & _).
  specialize (Hfit ltac:(vm_compute; reflexivity)
                   ltac:(vm_compute; discriminate)).
  rewrite (surjective_pairing (discard_trim _ _ _ _ _)).
  rewrite Hfit. vm_compute. reflexivity.
Defined.

Section VoiceMore.
Context {frame context : Type} {codec : DecoderState frame context}
  {zero : Silence frame}.

Local Abbreviation ModuleData := (@ModuleData frame).
Local Abbreviation Module := (@Module context).

(** *** A property kept by every step is kept by every run *)

Section Preserved.
Variable P : ModuleData -> Prop.
Variable granularity : Z.

Hypothesis P_decode_more_data :
  forall params config ctx data more data' ctx',
  P data ->
  decode_more_data params config ctx data = Ok (more, data', ctx') ->
  P data'.
Hypothesis P_give_padded : forall data, P data -> P (give_padded granularity data).
Hypothesis P_give_slice : forall data, P data -> P (give_slice granularity data).
Hypothesis P_on_state_change :
  forall voice_state is_keyed_off data,
  P data ->
  P (mkModuleData (on_state_change voice_state is_keyed_off (state data))
       (extra_storage data) (invoked data) (product data)).

Lemma process_loop_preserves (fuel : nat) :
  forall params config ctx data finished data' ctx',
  P data ->
  process_loop fuel granularity params config ctx data
    = Ok (finished, data', ctx') ->
  P data'.
Proof.
  induction fuel as [|fuel IH]; intros params config ctx data finished data'
    ctx' HP Hrun; cbn [process_loop] in Hrun;
    destruct (i32 (decoded_samples_pending (state data)) <? granularity).
  - discriminate.
  - injection Hrun as <- <- <-. auto.
  - bind_inv Hrun. destruct a as [[more data1] ctx1].
    assert (HP1 : P data1) by (eapply P_decode_more_data; eauto).
    destruct more.
    + eapply IH; eauto.
    + injection Hrun as <- <- <-. auto.
  - injection Hrun as <- <- <-. auto.
Qed.

Lemma process_preserves fuel params (self : Module) data finished data'
    (self' : Module) :
  P data ->
  process fuel granularity params self data = Ok (finished, data', self') ->
  P data'.
Proof.
  intros HP Hp. apply process_inv in Hp.
  destruct Hp as [(_ & -> & _) | (_ & b & config & ctx & ctx' & _ & _ & Hl)];
    [assumption|].
  eapply process_loop_preserves; eauto.
Qed.

Lemma run_preserves events :
  forall (self : Module) data (self' : Module) data',
  P data ->
  run granularity events self data = Ok (data', self') ->
  P data'.
Proof.
  induction events as [|[fuel params | voice_state keyed] rest IH];
    intros self data self' data' HP Hrun; cbn [run] in Hrun.
  - injection Hrun as <- <-. assumption.
  - bind_inv Hrun. destruct a as [[fin data1] self1].
    apply (IH self1 data1 self' data'); [|exact Hrun].
    exact (process_preserves _ _ _ _ _ _ _ HP E).
  - apply (IH _ _ self' data') in Hrun; [exact Hrun|].
    apply P_on_state_change. exact HP.
Qed.

End Preserved.

(** *** Ranges of the playback state *)




(** *** The end of the chain *)

Lemma decode_more_data_end_marked params config ctx (data : ModuleData) more
    (data' : ModuleData) ctx' :
  decode_more_data params config ctx data = Ok (more, data', ctx') ->
  current_buffer (state data') = -1 ->
  more = false /\
  invoked data' = invoked data ++ [mkCallback SCE_NGS_AT9_END_OF_DATA 0 0].
Proof.
  intros Hd Hend. apply decode_more_data_inv in Hd.
  destruct Hd as (bufparam & datac & Hl & Hc & Hcase).
  pose proof (lookup_buffer_range _ _ _ Hl) as Hcur.
  pose proof (compact_inv _ _ Hc) as Hci. cbv zeta in Hci.
  destruct Hci as (Einv & _ & _ & _ & Eb & _).
  destruct Hcase as [(_ & _ & st' & events & Hadv & Hfind & ->) | (_ & Hsf)].
  - cbn [state current_buffer invoked] in *.
    apply advance_buffer_inv in Hadv. cbv zeta in Hadv.
    destruct Hadv as (_ & _ & _ & _ & _ & _ & _ & Hmove).
    destruct Hmove as [(_ & _ & _ & Hnb & [[_ ->] | (Hne & _)])
                      | (_ & _ & Hsame & _)]; try lia.
    rewrite Einv. split; [|reflexivity].
    unfold find_data in Hfind. rewrite Hend in Hfind. cbn in Hfind.
    congruence.
  - apply decode_superframe_inv in Hsf. cbv zeta in Hsf.
    destruct Hsf as [(_ & _ & -> & _) | (_ & _ & _ & loop & _ & _ & _ & ->)];
      cbn [state current_buffer] in Hend; lia.
Qed.

(** X7: the terminal index is entered through [END_OF_DATA] and left only
    by a state change.  In every history of a voice that starts idle, if
    the voice sits on buffer index -1 then the last callback it invoked is
    [END_OF_DATA]; and from then on any number of ticks, with any
    parameters, return at once and change nothing. *)
Theorem end_of_data_is_final granularity events (self : Module)
    (data : ModuleData) :
  run granularity events Module_zero ModuleData_zero = Ok (data, self) ->
  current_buffer (state data) = -1 ->
  (exists earlier,
     invoked data = earlier ++ [mkCallback SCE_NGS_AT9_END_OF_DATA 0 0]) /\
  (forall ticks : list (nat * Parameters),
     run granularity (map (fun t => Tick (fst t) (snd t)) ticks) self data
       = Ok (data, self)).
Proof.
  intros Hrun Hend. split.
  - revert Hend.
    apply (run_preserves
             (fun d => current_buffer (state d) = -1 ->
                       exists earlier,
                         invoked d
                         = earlier ++ [mkCallback SCE_NGS_AT9_END_OF_DATA 0 0])
             granularity) with (events := events) (self := Module_zero)
             (self' := self) (data := ModuleData_zero); try assumption.
    + intros params config ctx d more d' ctx' _ Hd Hend.
      destruct (decode_more_data_end_marked _ _ _ _ _ _ _ Hd Hend) as [_ ->].
      eauto.
    + intros d Hd. exact Hd.
    + intros d Hd. exact Hd.
    + intros vs k d Hd. destruct vs; [|destruct k]; cbn; auto. discriminate.
    + cbn. discriminate.
  - intros ticks. induction ticks as [|[fuel params] ticks IH];
      [reflexivity|].
    cbn [map run fst snd]. unfold process. rewrite Hend. cbn [Z.eqb bind].
    exact IH.
Qed.

(** *** What each branch of decode_more_data leaves alone *)

(** X8: a call of [decode_more_data] either moves along the chain or
    decodes, never both.  When the buffer is used up, the decoder context,
    the four counters and the pending count are untouched, the byte
    position becomes zero, one or two callbacks are invoked and none of
    them is [DECODE_ERROR].  Otherwise the buffer index and the loop
    iteration are untouched; when the rest of the buffer is shorter than a
    superframe the call returns [false] with the totals and the callbacks
    as they were; else it returns [true], the totals have advanced by the
    trimmed size and by the superframe size, each in its 32-bit signed
    field, and at most one callback is invoked, which is [DECODE_ERROR]
    with the address of the current buffer. *)
Theorem decode_more_data_branches params config ctx (data : ModuleData) more
    (data' : ModuleData) ctx' bufparam :
  let st := state data in
  let st' := state data' in
  let superframe_size := u32 (get config AT9_SUPERFRAME_SIZE) in
  let gotten := u32 (bytes_count bufparam - current_byte_position_in_buffer st) in
  let decoded_size :=
    snd (discard_trim (u32 (get config AT9_SAMPLE_PER_SUPERFRAME))
           superframe_size bufparam (current_byte_position_in_buffer st)
           gotten) in
  decode_more_data params config ctx data = Ok (more, data', ctx') ->
  lookup_buffer params (current_buffer st) = Ok bufparam ->
  (bytes_count bufparam <= current_byte_position_in_buffer st ->
   ctx' = ctx /\
   current_byte_position_in_buffer st' = 0 /\
   samples_generated_since_key_on st' = samples_generated_since_key_on st /\
   samples_generated_total st' = samples_generated_total st /\
   bytes_consumed_since_key_on st' = bytes_consumed_since_key_on st /\
   total_bytes_consumed st' = total_bytes_consumed st /\
   decoded_samples_pending st' = decoded_samples_pending st /\
   exists events,
     invoked data' = invoked data ++ events /\
     (1 <= length events <= 2)%nat /\
     forall c, In c events -> reason c <> SCE_NGS_AT9_DECODE_ERROR) /\
  (current_byte_position_in_buffer st < bytes_count bufparam ->
   current_buffer st' = current_buffer st /\
   current_loop_count st' = current_loop_count st /\
   ((gotten < superframe_size /\
     more = false /\
     samples_generated_total st' = samples_generated_total st /\
     total_bytes_consumed st' = total_bytes_consumed st /\
     invoked data' = invoked data)
    \/
    (superframe_size <= gotten /\
     more = true /\
     samples_generated_total st'
       = i32 (samples_generated_total st + decoded_size) /\
     total_bytes_consumed st'
       = i32 (total_bytes_consumed st + superframe_size) /\
     (invoked data' = invoked data \/
      exists offset,
        invoked data'
        = invoked data
          ++ [mkCallback SCE_NGS_AT9_DECODE_ERROR offset (buffer bufparam)])))).
Proof.
  cbv zeta. intros Hd Hl. split.
  - intros Hpos.
    destruct (transition_branch_inv _ _ _ _ _ _ _ _ Hd Hl Hpos)
      as (-> & datac & st' & events & Hc & Hadv & _ & ->).
    pose proof (compact_inv _ _ Hc) as Hci. cbv zeta in Hci.
    destruct Hci as (Einv & _ & _ & _ & _ & E1 & E2 & E3 & E4 & E5 & _).
    apply advance_buffer_inv in Hadv. cbv zeta in Hadv.
    destruct Hadv as (_ & F1 & F2 & F3 & F4 & F5 & _ & Hmove).
    cbn [state invoked current_byte_position_in_buffer decoded_samples_pending
         samples_generated_since_key_on samples_generated_total
         bytes_consumed_since_key_on total_bytes_consumed].
    rewrite F1, F2, F3, F4, F5, E1, E2, E3, E4, E5, Einv.
    do 7 (split; [reflexivity|]).
    exists events. split; [reflexivity|].
    destruct Hmove as [(_ & _ & _ & _ & [[_ ->] | (_ & b & _ & ->)])
                      | (_ & _ & _ & ->)]; cbn [length In];
      (split; [lia|]); intros c Hin;
      repeat (destruct Hin as [<- | Hin]; [discriminate|]); contradiction.
  - intros Hpos.
    destruct (decode_branch_inv _ _ _ _ _ _ _ _ Hd Hl Hpos) as (datac & Hc & Hsf).
    pose proof (compact_inv _ _ Hc) as Hci. cbv zeta in Hci.
    destruct Hci as (Einv & _ & Ep & Elc & Eb & _ & _ & E3 & E4 & _).
    apply decode_superframe_inv in Hsf. cbv zeta in Hsf.
    rewrite Ep, E3, E4, Elc, Eb, Einv in Hsf.
    destruct Hsf as [(Hshort & -> & -> & _)
                    | (Hfull & _ & -> & loop & _ & _ & _ & ->)].
    + rewrite Elc, Eb, E3, E4, Einv.
      split; [reflexivity|]. split; [reflexivity|]. left. auto.
    + cbn [state invoked current_buffer current_loop_count
           samples_generated_total total_bytes_consumed].
      split; [reflexivity|]. split; [reflexivity|]. right.
      split; [exact Hfull|]. split; [reflexivity|].
      split; [reflexivity|]. split; [reflexivity|].
      destruct (got_decode_error loop).
      * right. eauto.
      * left. apply app_nil_r.
Qed.

(** *** A buffer that ends inside a superframe *)

Lemma compact_defined_when (data : ModuleData) :
  0 <= decoded_passed (state data) <= size (extra_storage data) ->
  exists datac,
    compact data = Ok datac /\
    0 <= decoded_passed (state datac) <= size (extra_storage datac).
Proof.
  intros Hq. unfold compact.
  destruct (extra_storage data) as [|x l] eqn:El.
  - exists data. rewrite El. auto.
  - destruct (Z.leb_spec (decoded_passed (state data)) (size (x :: l)));
      [|lia].
    eexists. split; [reflexivity|].
    cbn [state extra_storage decoded_passed]. pose proof (size_nonneg
      (skipn (Z.to_nat (decoded_passed (state data))) (x :: l))). lia.
Qed.

Lemma short_buffer_step params config ctx (data datac : ModuleData) b :
  lookup_buffer params (current_buffer (state data)) = Ok b ->
  compact data = Ok datac ->
  current_byte_position_in_buffer (state data) < bytes_count b ->
  u32 (bytes_count b - current_byte_position_in_buffer (state data))
    < u32 (get config AT9_SUPERFRAME_SIZE) ->
  decode_more_data params config ctx data = Ok (false, datac, ctx).
Proof.
  intros Hl Hc Hpos Hshort.
  pose proof (compact_inv _ _ Hc) as Hci. cbv zeta in Hci.
  destruct Hci as (_ & _ & Ep & _).
  unfold decode_more_data. rewrite Hl. cbn [bind]. rewrite Hc. cbn [bind].
  destruct (Z.geb_spec (current_byte_position_in_buffer (state datac))
              (bytes_count b)); [lia|].
  unfold decode_superframe. rewrite Ep.
  destruct (Z.ltb_spec
              (u32 (bytes_count b
                    - current_byte_position_in_buffer (state data)))
              (u32 (get config AT9_SUPERFRAME_SIZE))); [reflexivity | lia].
Qed.

(** X9: a buffer whose unread rest is shorter than a superframe stalls the
    voice without a word.  The module holds no decoder or one built from
    [last_config], so the tick runs on a decoder for the [config_data] of
    its parameters; when the rest is shorter than a superframe of that
    decoder and fewer than [granularity] frames are pending, the tick
    returns [true] after compaction and padding; it invokes no callback
    (in particular no [END_OF_DATA]) and leaves the buffer index, the byte
    position, the loop iteration, the totals and the pending count as they
    were, so the next tick meets the same rest again. *)
Theorem short_buffer_tick fuel granularity params (self : Module)
    (data datac : ModuleData) b :
  let st := state data in
  current_buffer st <> -1 ->
  lookup_buffer params (current_buffer st) = Ok b ->
  buffer b <> 0 ->
  current_byte_position_in_buffer st < bytes_count b ->
  (forall config ctx,
     decoder self = Some (config, ctx) -> config = last_config self) ->
  u32 (bytes_count b - current_byte_position_in_buffer st)
    < u32 (get (config_data params) AT9_SUPERFRAME_SIZE) ->
  i32 (decoded_samples_pending st) < granularity ->
  compact data = Ok datac ->
  exists (data' : ModuleData) (self' : Module),
    process (S fuel) granularity params self data = Ok (true, data', self') /\
    data' = give_padded granularity datac /\
    invoked data' = invoked data /\
    current_buffer (state data') = current_buffer st /\
    current_byte_position_in_buffer (state data')
      = current_byte_position_in_buffer st /\
    current_loop_count (state data') = current_loop_count st /\
    samples_generated_total (state data') = samples_generated_total st /\
    total_bytes_consumed (state data') = total_bytes_consumed st /\
    decoded_samples_pending (state data') = decoded_samples_pending st.
Proof.
  cbv zeta. intros Hcur Hl Haddr Hpos Hbuilt Hshort Hpend Hc.
  pose proof (compact_inv _ _ Hc) as Hci. cbv zeta in Hci.
  destruct Hci as (Einv & _ & Ep & Elc & Eb & _ & _ & E3 & E4 & E5 & _).
  assert (Hloop : forall ctx,
            process_loop (S fuel) granularity params (config_data params) ctx
              data
            = Ok (true, give_padded granularity datac, ctx)).
  { intros ctx. cbn [process_loop].
    destruct (Z.ltb_spec (i32 (decoded_samples_pending (state data)))
                granularity); [|lia].
    rewrite (short_buffer_step params (config_data params) ctx data datac b
               Hl Hc Hpos Hshort).
    reflexivity. }
  unfold process.
  destruct (Z.eqb_spec (current_buffer (state data)) (-1)); [contradiction|].
  rewrite Hl. cbn [bind].
  destruct (Z.eqb_spec (buffer b) 0); [contradiction|].
  assert (Hsel : exists ctx,
            match decoder self with
            | Some (config, ctx) =>
                if negb (config_data params =? last_config self)
                then (config_data params, create (config_data params))
                else (config, ctx)
            | None => (config_data params, create (config_data params))
            end = (config_data params, ctx)).
  { destruct (decoder self) as [[config ctx]|] eqn:Edec; [|eauto].
    destruct (Z.eqb_spec (config_data params) (last_config self)) as [Heq|];
      cbn [negb]; [|eauto].
    exists ctx. rewrite (Hbuilt _ _ eq_refl), Heq. reflexivity. }
  destruct Hsel as (ctx & ->).
  rewrite Hloop. cbn [bind].
  eexists. eexists. split; [reflexivity|]. split; [reflexivity|].
  cbn [give_padded state invoked current_buffer
       current_byte_position_in_buffer current_loop_count
       samples_generated_total total_bytes_consumed decoded_samples_pending].
  rewrite Einv, Ep, Elc, Eb, E3, E4, E5. repeat split; reflexivity.
Qed.

(** *** An empty buffer that loops for ever *)

(** X10: an empty buffer with [loop_count = -1] behind which data can be
    found keeps [process] busy for ever.  With fewer than [granularity]
    frames pending, every call of [decode_more_data] loops the empty buffer
    once more and returns [true] without decoding, so no amount of fuel
    lets the while loop of the tick come to an end. *)
Theorem empty_infinite_loop_never_returns granularity params (self : Module)
    (data : ModuleData) b :
  let st := state data in
  lookup_buffer params (current_buffer st) = Ok b ->
  buffer b <> 0 ->
  bytes_count b = 0 ->
  loop_count b = -1 ->
  find_data params (current_buffer st) = Ok true ->
  0 <= current_byte_position_in_buffer st ->
  0 <= decoded_passed st <= size (extra_storage data) ->
  i32 (decoded_samples_pending st) < granularity ->
  forall fuel, process fuel granularity params self data = OutOfFuel.
Proof.
  cbv zeta. intros Hl Haddr Hempty Hinf Hfind Hpos Hq Hpend fuel.
  pose proof (lookup_buffer_range _ _ _ Hl) as Hcur.
  assert (Hspin : forall config ctx (d : ModuleData),
            current_buffer (state d) = current_buffer (state data) ->
            0 <= current_byte_position_in_buffer (state d) ->
            0 <= decoded_passed (state d) <= size (extra_storage d) ->
            i32 (decoded_samples_pending (state d)) < granularity ->
            process_loop fuel granularity params config ctx d = OutOfFuel).
  { induction fuel as [|fuel IH]; intros config ctx d Hb Hp Hqd Hpd;
      cbn [process_loop];
      destruct (Z.ltb_spec (i32 (decoded_samples_pending (state d)))
                  granularity); try lia; [reflexivity|].
    destruct (compact_defined_when d Hqd) as (dc & Hc & Hqc).
    pose proof (compact_inv _ _ Hc) as Hci. cbv zeta in Hci.
    destruct Hci as (_ & _ & Ep & Elc & Eb & _ & _ & _ & _ & E5 & _).
    rewrite <- Hb in Hl, Hfind.
    assert (Hadv : advance_buffer params b (state dc)
                   = Ok (mkState (current_byte_position_in_buffer (state dc))
                           (current_loop_count (state dc) + 1)
                           (current_buffer (state dc))
                           (samples_generated_since_key_on (state dc))
                           (bytes_consumed_since_key_on (state dc))
                           (samples_generated_total (state dc))
                           (total_bytes_consumed (state dc))
                           (decoded_samples_pending (state dc))
                           (decoded_passed (state dc)),
                         [mkCallback SCE_NGS_AT9_SWAPPED_BUFFER
                            (current_loop_count (state dc) + 1) (buffer b);
                          mkCallback SCE_NGS_AT9_LOOPED_BUFFER
                            (current_loop_count (state dc) + 1) (buffer b)])).
    { unfold advance_buffer. rewrite Hinf. reflexivity. }
    rewrite (transition_runs params config ctx d dc b _ _ true Hl Hc
               ltac:(lia) Hadv
               ltac:(cbn [current_buffer]; rewrite Eb; exact Hfind)).
    cbn [bind]. apply IH;
      cbn [state extra_storage current_buffer current_byte_position_in_buffer
           decoded_passed decoded_samples_pending];
      try lia; try congruence. }
  unfold process.
  destruct (Z.eqb_spec (current_buffer (state data)) (-1)); [lia|].
  rewrite Hl. cbn [bind].
  destruct (Z.eqb_spec (buffer b) 0); [contradiction|].
  match goal with
  | |- context [let '(config, ctx) := ?sel in _] =>
      destruct sel as [config ctx]
  end.
  rewrite Hspin; auto.
Qed.

(** *** The backlog is a queue *)

Lemma firstn_add_split (a b : nat) (l : list frame) :
  firstn (a + b) l = firstn a l ++ firstn b (skipn a l).
Proof.
  revert l. induction a as [|a IH]; intros l; [reflexivity|].
  destruct l as [|x l]; cbn [Nat.add firstn skipn app].
  - now rewrite firstn_nil.
  - now rewrite IH.
Qed.

Lemma pending_frames_compact (data datac : ModuleData) :
  compact data = Ok datac -> pending_frames datac = pending_frames data.
Proof.
  intros Hc. apply compact_inv in Hc. cbv zeta in Hc.
  destruct Hc as (_ & _ & _ & _ & _ & _ & _ & _ & _ & Hp & Hcase).
  unfold pending_frames. rewrite Hp.
  destruct Hcase as [[_ ->] | (_ & _ & -> & ->)]; reflexivity.
Qed.

Lemma append_superframe (p : Z) (chunk storage : list frame) :
  0 <= p <= size storage ->
  write_at p chunk (resize (p + size chunk) storage)
    = firstn (Z.to_nat p) storage ++ chunk.
Proof.
  intros Hp. pose proof (size_nonneg chunk) as Hc.
  assert (Hr : size (resize (p + size chunk) storage) = p + size chunk)
    by (apply size_resize; lia).
  unfold write_at.
  rewrite (skipn_all2 (resize (p + size chunk) storage))
    by (unfold size in *; lia).
  rewrite app_nil_r. f_equal.
  unfold resize. rewrite firstn_app, firstn_firstn.
  rewrite length_firstn.
  replace (Nat.min (Z.to_nat p) (Z.to_nat (p + size chunk)))
    with (Z.to_nat p) by (unfold size in *; lia).
  replace (Z.to_nat p
           - Nat.min (Z.to_nat (p + size chunk)) (length storage))%nat
    with 0%nat by (unfold size in *; lia).
  cbn [firstn]. apply app_nil_r.
Qed.

Lemma decode_more_data_queue granularity params config ctx (data : ModuleData)
    more (data' : ModuleData) ctx' :
  0 < granularity ->
  granularity + u32 (get config AT9_SAMPLE_PER_SUPERFRAME) <= 2 ^ 31 ->
  backlog_ok granularity data ->
  decoded_samples_pending (state data) < granularity ->
  decode_more_data params config ctx data = Ok (more, data', ctx') ->
  exists chunk, pending_frames data' = pending_frames data ++ chunk.
Proof.
  intros Hg Hbound Hok Hlt Hd.
  apply decode_more_data_inv in Hd.
  destruct Hd as (bufparam & datac & _ & Hc & Hcase).
  destruct (compact_backlog_ok _ _ _ Hg Hok Hc) as [Hokc Hpc].
  rewrite <- (pending_frames_compact _ _ Hc).
  pose proof (compact_inv _ _ Hc) as Hci. cbv zeta in Hci.
  destruct Hci as (_ & _ & _ & _ & _ & _ & _ & _ & _ & Hpend & _).
  destruct Hcase as [(_ & _ & st' & events & Hadv & _ & ->) | (_ & Hsf)].
  - apply advance_buffer_inv in Hadv.
    destruct Hadv as (_ & _ & _ & _ & _ & Hp & Hq & _).
    exists []. rewrite app_nil_r. unfold pending_frames.
    cbn [state extra_storage decoded_samples_pending decoded_passed].
    now rewrite Hp, Hq.
  - pose proof (decode_superframe_full _ _ _ _ _ _ _ _ Hsf) as Hf.
    apply decode_superframe_inv in Hsf. cbv zeta in Hsf, Hf.
    destruct Hsf as [(_ & _ & -> & _)
                    | (Hfull & _ & _ & loop & Hloop & Hfit & _ & ->)].
    + exists []. now rewrite app_nil_r.
    + destruct Hokc as (Hp0 & _ & Hb & Hs).
      destruct (Hf Hfull Hp0) as (_ & Hds & _).
      apply decode_frames_inv in Hloop; [|lia].
      destruct Hloop as (Hscratch & _).
      pose proof (u32_range (get config AT9_SAMPLE_PER_SUPERFRAME)) as Hsps.
      rewrite size_repeat_silence in Hscratch by lia.
      match goal with
      | |- context [discard_trim ?s ?z ?b ?p ?g] =>
          set (trim := discard_trim s z b p g) in *;
          destruct (discard_trim_nonneg s z b p g ltac:(lia)) as [Hoff _]
      end.
      fold trim in Hoff.
      set (chunk := firstn (Z.to_nat (snd trim))
                      (skipn (Z.to_nat (fst trim)) (scratch loop))).
      assert (Hchunk : size chunk = snd trim)
        by (apply size_chunk; lia).
      exists chunk. unfold pending_frames.
      cbn [state extra_storage decoded_samples_pending decoded_passed].
      rewrite Hpc. cbn [Z.to_nat skipn].
      rewrite u32_small by lia.
      rewrite <- Hchunk at 2.
      rewrite append_superframe by (destruct Hs as [Hs | (_ & _ & Hs & _)]; lia).
      apply firstn_all2. rewrite length_app, length_firstn.
      unfold size in *. lia.
Qed.

Lemma give_slice_queue granularity (data : ModuleData) :
  0 < granularity < 2 ^ 31 ->
  backlog_ok granularity data ->
  ~ i32 (decoded_samples_pending (state data)) < granularity ->
  pending_frames data
    = published granularity (give_slice granularity data)
      ++ pending_frames (give_slice granularity data).
Proof.
  intros Hg Hok Hexit.
  destruct (give_slice_spec granularity data Hg Hok Hexit)
    as (_ & _ & Hge & Hsize & Hp & Hq & Hprod & Hst).
  destruct Hok as (Hp0 & Hq0 & _).
  unfold pending_frames, published. rewrite Hp, Hq, Hprod, Hst.
  replace (Z.to_nat (decoded_samples_pending (state data)))
    with (Z.to_nat granularity
          + Z.to_nat (decoded_samples_pending (state data) - granularity))%nat
    by lia.
  rewrite firstn_add_split, skipn_skipn. do 3 f_equal. lia.
Qed.

Lemma give_padded_queue granularity (data : ModuleData) :
  0 < granularity ->
  backlog_ok granularity data ->
  decoded_passed (state data) = 0 ->
  decoded_samples_pending (state data) < granularity ->
  published granularity (give_padded granularity data)
    = pending_frames data
      ++ repeat silence
           (Z.to_nat (granularity - decoded_samples_pending (state data))) /\
  pending_frames (give_padded granularity data) = pending_frames data.
Proof.
  intros Hg Hok Hz Hlt.
  destruct (give_padded_spec granularity data Hg Hok Hz Hlt)
    as (_ & _ & Hprod & _ & _ & Hsize & Hsame & Hpad).
  cbv zeta in Hsame, Hpad. rewrite Hsame in Hpad.
  destruct Hok as (Hp0 & _ & _ & Hs).
  assert (Hfirst : firstn (Z.to_nat (decoded_samples_pending (state data)))
                     (extra_storage (give_padded granularity data))
                   = pending_frames data).
  { unfold pending_frames. rewrite Hz. cbn [Z.to_nat skipn give_padded
      extra_storage]. unfold fill_to_fit_granularity.
    rewrite firstn_app.
    replace (Z.to_nat (decoded_samples_pending (state data))
             - length (extra_storage data))%nat with 0%nat
      by (unfold size in *; destruct Hs as [Hs | (_ & _ & Hs & _)]; lia).
    cbn [firstn]. apply app_nil_r. }
  split.
  - unfold published. rewrite Hprod. cbn [Z.to_nat skipn].
    rewrite firstn_all2 by (unfold size in *; lia).
    rewrite <- (firstn_skipn
                  (Z.to_nat (decoded_samples_pending (state data)))
                  (extra_storage (give_padded granularity data))) at 1.
    now rewrite Hfirst, Hpad.
  - unfold pending_frames at 1. rewrite Hsame.
    cbn [give_padded state decoded_passed]. rewrite Hz.
    cbn [Z.to_nat skipn]. exact Hfirst.
Qed.

Lemma process_loop_queue (fuel : nat) :
  forall granularity params config ctx (data : ModuleData) finished
    (data' : ModuleData) ctx',
  0 < granularity < 2 ^ 31 ->
  granularity + u32 (get config AT9_SAMPLE_PER_SUPERFRAME) <= 2 ^ 31 ->
  backlog_ok granularity data ->
  process_loop fuel granularity params config ctx data
    = Ok (finished, data', ctx') ->
  exists decoded_now,
    (finished = false ->
     pending_frames data ++ decoded_now
       = published granularity data' ++ pending_frames data') /\
    (finished = true ->
     published granularity data'
       = (pending_frames data ++ decoded_now)
         ++ repeat silence
              (Z.to_nat (granularity - decoded_samples_pending (state data')))
     /\ pending_frames data' = pending_frames data ++ decoded_now).
Proof.
  induction fuel as [|fuel IH];
    intros granularity params config ctx data finished data' ctx' Hg Hbound
      Hok Hrun; cbn [process_loop] in Hrun;
    destruct (Z.ltb_spec (i32 (decoded_samples_pending (state data)))
                granularity) as [Hmore | Hexit].
  - discriminate.
  - injection Hrun as <- <- <-. exists []. rewrite app_nil_r.
    split; [|discriminate]. intros _. apply give_slice_queue; auto. lia.
  - bind_inv Hrun. destruct a as [[more data1] ctx1].
    assert (Hlt : decoded_samples_pending (state data) < granularity).
    { destruct Hok as (Hp & Hq & Hb & _). rewrite i32_small in Hmore; lia. }
    destruct (decode_more_data_backlog_ok _ _ _ _ _ _ _ _
                (proj1 Hg) Hbound Hok Hlt E) as (Hok1 & Hz1 & Hsame).
    destruct (decode_more_data_queue _ _ _ _ _ _ _ _
                (proj1 Hg) Hbound Hok Hlt E) as (chunk & Hchunk).
    destruct more.
    + destruct (IH _ _ _ _ _ _ _ _ Hg Hbound Hok1 Hrun)
        as (later & Hfalse & Htrue).
      exists (chunk ++ later). rewrite app_assoc, <- Hchunk. auto.
    + injection Hrun as <- <- <-. specialize (Hsame eq_refl).
      assert (Hlt1 : decoded_samples_pending (state data1) < granularity)
        by lia.
      destruct (give_padded_queue granularity data1 (proj1 Hg) Hok1 Hz1 Hlt1)
        as [Hpub Hkeep].
      destruct (give_padded_spec granularity data1 (proj1 Hg) Hok1 Hz1 Hlt1)
        as (_ & _ & _ & _ & _ & _ & Hp' & _).
      cbv zeta in Hp'.
      exists chunk. split; [discriminate|]. intros _.
      rewrite <- Hchunk, Hp'. auto.
  - injection Hrun as <- <- <-. exists []. rewrite app_nil_r.
    split; [|discriminate]. intros _. apply give_slice_queue; auto. lia.
Qed.

(** X11: the backlog is a queue.  In every history of a voice that starts
    idle, a tick that hands out a slice hands out the frames that were
    pending, oldest first, followed by frames decoded in this tick, and
    what it does not hand out stays pending in the same order.  A tick that
    runs out of data hands out every pending frame followed by silence, and
    keeps all of them pending. *)
Theorem pending_frames_leave_in_order granularity events fuel params
    (self : Module) (data : ModuleData) b finished (data' : ModuleData)
    (self' : Module) :
  0 < granularity < 2 ^ 31 ->
  (forall config,
     granularity + u32 (get config AT9_SAMPLE_PER_SUPERFRAME) <= 2 ^ 31) ->
  run granularity events Module_zero ModuleData_zero = Ok (data, self) ->
  current_buffer (state data) <> -1 ->
  lookup_buffer params (current_buffer (state data)) = Ok b ->
  buffer b <> 0 ->
  process fuel granularity params self data = Ok (finished, data', self') ->
  exists decoded_now,
    (finished = false ->
     pending_frames data ++ decoded_now
       = published granularity data' ++ pending_frames data') /\
    (finished = true ->
     published granularity data'
       = (pending_frames data ++ decoded_now)
         ++ repeat silence
              (Z.to_nat (granularity - decoded_samples_pending (state data')))
     /\ pending_frames data' = pending_frames data ++ decoded_now).
Proof.
  intros Hg Hbound Hrun Hcur Hb Haddr Hp.
  assert (Hok : backlog_ok granularity data).
  { eapply run_backlog_ok; eauto. apply backlog_ok_zero. lia. }
  apply process_inv in Hp.
  destruct Hp as [(_ & _ & _ & [Hend | (b0 & Hb0 & Hnull)])
                 | (_ & b0 & config & ctx & ctx' & _ & _ & Hl)].
  - contradiction.
  - rewrite Hb in Hb0. injection Hb0 as <-. contradiction.
  - exact (process_loop_queue _ _ _ _ _ _ _ _ _ Hg (Hbound config) Hok Hl).
Qed.

(** *** The bookkeeping of the backlog over ticks *)

Lemma size_pending_frames granularity (data : ModuleData) :
  backlog_ok granularity data ->
  size (pending_frames data) = decoded_samples_pending (state data).
Proof.
  intros (Hp & Hq & _ & Hs). unfold pending_frames, size in *.
  rewrite length_firstn, length_skipn.
  destruct Hs as [Hs | (Hz & Hlt & Hs & _)]; lia.
Qed.

Lemma process_loop_cursor (fuel : nat) :
  forall granularity params config ctx (data : ModuleData) finished
    (data' : ModuleData) ctx',
  0 < granularity < 2 ^ 31 ->
  granularity + u32 (get config AT9_SAMPLE_PER_SUPERFRAME) <= 2 ^ 31 ->
  backlog_ok granularity data ->
  process_loop fuel granularity params config ctx data
    = Ok (finished, data', ctx') ->
  (finished = false ->
   decoded_passed (state data')
     = (if decoded_samples_pending (state data) <? granularity
        then 0 else decoded_passed (state data)) + granularity) /\
  (finished = true ->
   decoded_samples_pending (state data) < granularity /\
   decoded_passed (state data') = 0).
Proof.
  induction fuel as [|fuel IH];
    intros granularity params config ctx data finished data' ctx' Hg Hbound
      Hok Hrun; cbn [process_loop] in Hrun;
    pose proof Hok as (Hp & Hq & Hb & _);
    rewrite i32_small in Hrun by lia;
    destruct (Z.ltb_spec (decoded_samples_pending (state data)) granularity)
      as [Hmore | Hexit].
  - discriminate.
  - injection Hrun as <- <- <-. split; [|discriminate]. intros _.
    apply give_slice_spec; auto. rewrite i32_small; lia.
  - bind_inv Hrun. destruct a as [[more data1] ctx1].
    destruct (decode_more_data_backlog_ok _ _ _ _ _ _ _ _
                (proj1 Hg) Hbound Hok Hmore E) as (Hok1 & Hz1 & _).
    destruct more.
    + destruct (IH _ _ _ _ _ _ _ _ Hg Hbound Hok1 Hrun) as [Hfalse Htrue].
      split.
      * intros Hfin. rewrite (Hfalse Hfin), Hz1.
        destruct (decoded_samples_pending (state data1) <? granularity);
          reflexivity.
      * intros Hfin. split; [assumption|]. apply Htrue. assumption.
    + injection Hrun as <- <- <-. split; [discriminate|]. intros _.
      split; [assumption|]. cbn [give_padded state decoded_passed].
      assumption.
  - injection Hrun as <- <- <-. split; [|discriminate]. intros _.
    apply give_slice_spec; auto. rewrite i32_small; lia.
Qed.

(** C7 (as amended): after any sequence of ticks and state changes of a
    voice that starts idle, the backlog is
    [decoded_samples_pending + decoded_passed] decoded sample-frames,
    followed by nothing but the silence a tick that ran out of data padded
    it with (and then [decoded_passed] is zero and the backlog is
    [granularity] frames long).  Compaction drops exactly [decoded_passed]
    frames from the front and sets it to zero; a decoded superframe adds
    its trimmed size to the pending count and leaves a backlog of exactly
    that many frames.  A tick that returns [false] has moved [granularity]
    frames from pending to passed: the pending count is the old one plus
    the frames decoded in the tick minus [granularity], and the cursor has
    advanced by [granularity] from where compaction left it.  A tick that
    runs out of data hands out the padded backlog and moves nothing: the
    frames decoded in the tick are added to the pending count and the
    cursor stays zero. *)
Theorem backlog_accounting granularity :
  0 < granularity < 2 ^ 31 ->
  (forall config,
     granularity + u32 (get config AT9_SAMPLE_PER_SUPERFRAME) <= 2 ^ 31) ->
  (forall events (data : ModuleData) (self : Module),
     run granularity events Module_zero ModuleData_zero = Ok (data, self) ->
     exists held padding,
       extra_storage data = held ++ padding /\
       size held
         = decoded_samples_pending (state data) + decoded_passed (state data) /\
       padding = repeat silence (length padding) /\
       (padding <> [] ->
        decoded_passed (state data) = 0 /\
        size (extra_storage data) = granularity)) /\
  (forall data datac : ModuleData,
     compact data = Ok datac -> extra_storage data <> [] ->
     extra_storage datac
       = skipn (Z.to_nat (decoded_passed (state data))) (extra_storage data) /\
     decoded_passed (state datac) = 0) /\
  (forall params config ctx (data : ModuleData) more (data' : ModuleData) ctx'
          bufparam,
     let st := state data in
     let superframe_size := u32 (get config AT9_SUPERFRAME_SIZE) in
     let gotten :=
       u32 (bytes_count bufparam - current_byte_position_in_buffer st) in
     let decoded_size :=
       snd (discard_trim (u32 (get config AT9_SAMPLE_PER_SUPERFRAME))
              superframe_size bufparam
              (current_byte_position_in_buffer st) gotten) in
     backlog_ok granularity data ->
     decoded_samples_pending st < granularity ->
     lookup_buffer params (current_buffer st) = Ok bufparam ->
     current_byte_position_in_buffer st < bytes_count bufparam ->
     superframe_size <= gotten ->
     decode_more_data params config ctx data = Ok (more, data', ctx') ->
     decoded_samples_pending (state data')
       = decoded_samples_pending st + decoded_size /\
     size (extra_storage data') = decoded_samples_pending st + decoded_size /\
     decoded_passed (state data') = 0) /\
  (forall events fuel params (data : ModuleData) (self : Module) b finished
          (data' : ModuleData) (self' : Module),
     let st := state data in
     let st' := state data' in
     run granularity events Module_zero ModuleData_zero = Ok (data, self) ->
     current_buffer st <> -1 ->
     lookup_buffer params (current_buffer st) = Ok b ->
     buffer b <> 0 ->
     process fuel granularity params self data = Ok (finished, data', self') ->
     exists decoded_now,
       (finished = false ->
        pending_frames data ++ decoded_now
          = published granularity data' ++ pending_frames data' /\
        decoded_samples_pending st'
          = decoded_samples_pending st + size decoded_now - granularity /\
        decoded_passed st'
          = (if decoded_samples_pending st <? granularity
             then 0 else decoded_passed st) + granularity /\
        size (extra_storage data')
          = decoded_samples_pending st' + decoded_passed st') /\
       (finished = true ->
        pending_frames data' = pending_frames data ++ decoded_now /\
        decoded_samples_pending st'
          = decoded_samples_pending st + size decoded_now /\
        decoded_samples_pending st' < granularity /\
        decoded_passed st' = 0 /\
        size (extra_storage data') = granularity /\
        product data' = 0)).
Proof.
  intros Hg Hbound. split; [|split; [|split]].
  - intros events data self Hrun.
    apply (backlog_ok_split granularity).
    eapply run_backlog_ok; eauto. apply backlog_ok_zero. lia.
  - intros data datac Hc Hne. apply compact_inv in Hc. cbv zeta in Hc.
    destruct Hc as (_ & _ & _ & _ & _ & _ & _ & _ & _ & _ & Hcase).
    destruct Hcase as [[Hnil _] | (_ & _ & Hz & Hst)]; [contradiction | auto].
  - intros params config ctx data more data' ctx' bufparam. cbv zeta.
    intros Hok Hlt Hb Hpos Hfull Hd.
    destruct (decode_step_adds granularity _ _ _ _ _ _ _ _ (proj1 Hg)
                (Hbound config) Hok Hlt Hb Hpos Hfull Hd)
      as (_ & Hp & Hs & Hz).
    auto.
  - intros events fuel params data self b finished data' self'. cbv zeta.
    intros Hrun Hcur Hb Haddr Hp.
    assert (Hok : backlog_ok granularity data).
    { eapply run_backlog_ok; eauto. apply backlog_ok_zero. lia. }
    apply process_inv in Hp.
    destruct Hp as [(_ & _ & _ & [Hend | (b0 & Hb0 & Hnull)])
                   | (_ & b0 & config & ctx & ctx' & _ & _ & Hl)].
    + contradiction.
    + rewrite Hb in Hb0. injection Hb0 as <-. contradiction.
    + destruct (process_loop_spec _ _ _ _ _ _ _ _ _ Hg (Hbound config) Hok Hl)
        as (Hok' & Hpub & Htrue & _).
      destruct (process_loop_queue _ _ _ _ _ _ _ _ _ Hg (Hbound config) Hok Hl)
        as (decoded_now & Hqf & Hqt).
      destruct (process_loop_cursor _ _ _ _ _ _ _ _ _ Hg (Hbound config) Hok Hl)
        as (Hcf & Hct).
      pose proof (size_pending_frames _ _ Hok) as Hsz.
      pose proof (size_pending_frames _ _ Hok') as Hsz'.
      exists decoded_now. split; intros Hfin.
      * specialize (Hqf Hfin). specialize (Hcf Hfin).
        split; [exact Hqf|].
        apply (f_equal size) in Hqf. unfold size in Hqf, Hsz, Hsz', Hpub.
        rewrite !length_app in Hqf.
        split; [unfold size; lia|]. split; [exact Hcf|].
        destruct Hok' as (_ & _ & _ & [Hs | (Hz & _)]); [exact Hs|].
        destruct Hok as (_ & Hq0 & _).
        destruct (decoded_samples_pending (state data) <? granularity); lia.
      * destruct (Hqt Hfin) as [_ Hkeep]. destruct (Hct Hfin) as [_ Hz].
        destruct (Htrue Hfin) as (mid & -> & Hmid & Hzm & Hltm).
        destruct (give_padded_spec granularity mid (proj1 Hg) Hmid Hzm Hltm)
          as (_ & _ & Hprod & _ & _ & Hsize & Hsame & _).
        cbv zeta in Hsame.
        split; [exact Hkeep|].
        apply (f_equal size) in Hkeep. unfold size in Hkeep, Hsz, Hsz'.
        rewrite length_app in Hkeep.
        split; [unfold size; lia|]. split; [lia|].
        split; [exact Hz|]. split; [exact Hsize | exact Hprod].
Qed.

(** *** The decoder and the configuration word *)

Lemma process_decoder fuel granularity params (self : Module)
    (data : ModuleData) finished (data' : ModuleData) (self' : Module) b :
  current_buffer (state data) <> -1 ->
  lookup_buffer params (current_buffer (state data)) = Ok b ->
  buffer b <> 0 ->
  process fuel granularity params self data = Ok (finished, data', self') ->
  last_config self' = config_data params /\
  exists config ctx ctx',
    decoder self' = Some (config, ctx') /\
    process_loop fuel granularity params config ctx data
      = Ok (finished, data', ctx') /\
    match decoder self with
    | Some (old_config, old_ctx) =>
        if config_data params =? last_config self
        then config = old_config /\ ctx = old_ctx
        else config = config_data params /\ ctx = create (config_data params)
    | None => config = config_data params /\ ctx = create (config_data params)
    end.
Proof.
  intros Hcur Hl Haddr Hp. unfold process in Hp.
  destruct (Z.eqb_spec (current_buffer (state data)) (-1)); [contradiction|].
  rewrite Hl in Hp. cbn [bind] in Hp.
  destruct (Z.eqb_spec (buffer b) 0); [contradiction|].
  destruct (decoder self) as [[old_config old_ctx]|];
    [destruct (Z.eqb_spec (config_data params) (last_config self)) as [Heq|Hne];
     cbn [negb] in Hp|];
    bind_inv Hp; destruct a as [[fin data1] ctx1];
    injection Hp as <- <- <-; cbn [last_config decoder].
  - split; [auto|]. exists old_config, old_ctx, ctx1. auto.
  - split; [auto|].
    exists (config_data params), (create (config_data params)), ctx1. auto.
  - split; [auto|].
    exists (config_data params), (create (config_data params)), ctx1. auto.
Qed.

(** X12: the decoder follows the configuration word.  In every history of
    a voice that starts idle, the decoder the module holds was built from
    [last_config]; a tick that gets past the entry checks leaves a decoder
    built from the [config_data] of its parameters and [last_config] equal
    to it; and when that word is the one of the decoder already there, the
    tick runs on the old bitstream context instead of a fresh one. *)
Theorem decoder_follows_config granularity events (self : Module)
    (data : ModuleData) :
  run granularity events Module_zero ModuleData_zero = Ok (data, self) ->
  (forall config ctx, decoder self = Some (config, ctx) ->
                      config = last_config self) /\
  (forall fuel params finished (data' : ModuleData) (self' : Module) b,
     current_buffer (state data) <> -1 ->
     lookup_buffer params (current_buffer (state data)) = Ok b ->
     buffer b <> 0 ->
     process fuel granularity params self data = Ok (finished, data', self') ->
     last_config self' = config_data params /\
     exists ctx',
       decoder self' = Some (config_data params, ctx') /\
       forall old_ctx,
       decoder self = Some (config_data params, old_ctx) ->
       process_loop fuel granularity params (config_data params) old_ctx data
         = Ok (finished, data', ctx')).
Proof.
  intros Hrun.
  assert (Hinv : forall config ctx, decoder self = Some (config, ctx) ->
                                    config = last_config self).
  { revert Hrun. generalize (ModuleData_zero : ModuleData).
    assert (H0 : forall config ctx,
              decoder (Module_zero : Module) = Some (config, ctx) ->
              config = last_config (Module_zero : Module))
      by (cbn; discriminate).
    revert H0. generalize (Module_zero : Module).
    induction events as [|[fuel params | voice_state keyed] rest IH];
      intros self0 H0 data0 Hrun; cbn [run] in Hrun.
    - injection Hrun as <- <-. exact H0.
    - bind_inv Hrun. destruct a as [[fin data1] self1].
      refine (IH self1 _ data1 Hrun).
      pose proof E as E'. apply process_inv in E'.
      destruct E' as [(_ & _ & -> & _)
                     | (Hcur & b & _ & _ & _ & Hl & Haddr & _)];
        [exact H0|].
      destruct (process_decoder _ _ _ _ _ _ _ _ _ Hcur Hl Haddr E)
        as (Hlast & config & ctx & ctx' & Hdec & _ & Hsel).
      intros c x Hc. rewrite Hdec in Hc. injection Hc as <- <-.
      rewrite Hlast.
      destruct (decoder self0) as [[old_config old_ctx]|] eqn:Eold;
        [destruct (Z.eqb_spec (config_data params) (last_config self0))|];
        destruct Hsel as [-> _]; try reflexivity.
      rewrite (H0 _ _ eq_refl). congruence.
    - exact (IH self0 H0 _ Hrun). }
  split; [exact Hinv|].
  intros fuel params finished data' self' b Hcur Hl Haddr Hp.
  destruct (process_decoder _ _ _ _ _ _ _ _ _ Hcur Hl Haddr Hp)
    as (Hlast & config & ctx & ctx' & Hdec & Hloop & Hsel).
  split; [exact Hlast|].
  destruct (decoder self) as [[old_config old_ctx]|] eqn:Eold.
  - pose proof (Hinv _ _ eq_refl) as Hold.
    destruct (Z.eqb_spec (config_data params) (last_config self)) as [Heq|Hne];
      destruct Hsel as [-> ->].
    + exists ctx'. rewrite Hdec. split; [congruence|].
      intros x [= _ <-]. congruence.
    + exists ctx'. split; [exact Hdec|].
      intros x [= Hc _]. congruence.
  - destruct Hsel as [-> ->]. exists ctx'. split; [exact Hdec|]. discriminate.
Qed.

(** *** The loop rule *)

(** X13: how often a buffer is played.  When a buffer is used up, the voice
    stays on it, with the loop iteration counted up, exactly when its
    [loop_count] is -1 or the counted-up iteration does not exceed
    [loop_count]; otherwise it moves to [next_buffer_index] and the
    iteration becomes zero.  A buffer with [loop_count = n >= 0] is thus
    played [n + 1] times, one with [loop_count = -1] for ever, and any
    other negative [loop_count] means once. *)
Theorem loop_rule params config ctx (data : ModuleData) more
    (data' : ModuleData) ctx' bufparam :
  let st := state data in
  let st' := state data' in
  decode_more_data params config ctx data = Ok (more, data', ctx') ->
  lookup_buffer params (current_buffer st) = Ok bufparam ->
  bytes_count bufparam <= current_byte_position_in_buffer st ->
  (loop_count bufparam = -1 \/ current_loop_count st + 1 <= loop_count bufparam ->
   current_buffer st' = current_buffer st /\
   current_loop_count st' = current_loop_count st + 1) /\
  (loop_count bufparam <> -1 -> loop_count bufparam < current_loop_count st + 1 ->
   current_buffer st' = next_buffer_index bufparam /\
   current_loop_count st' = 0).
Proof.
  cbv zeta. intros Hd Hl Hpos.
  destruct (transition_branch_inv _ _ _ _ _ _ _ _ Hd Hl Hpos)
    as (_ & datac & st' & events & Hc & Hadv & _ & ->).
  pose proof (compact_inv _ _ Hc) as Hci. cbv zeta in Hci.
  destruct Hci as (_ & _ & _ & Elc & Eb & _).
  apply advance_buffer_inv in Hadv. cbv zeta in Hadv.
  destruct Hadv as (_ & _ & _ & _ & _ & _ & _ & Hmove).
  cbn [state current_buffer current_loop_count].
  rewrite Elc, Eb in Hmove.
  destruct Hmove as [(Hfin & Hgt & -> & -> & _) | (Hstay & -> & -> & _)];
    split; intros; try lia; auto.
Qed.

End VoiceMore.

(** ** The start discard over a whole buffer *)

Lemma kept_samples_from (n : nat) :
  forall k sps superframe_size bufparam count,
  0 < sps -> 0 < superframe_size ->
  0 <= k -> k + Z.of_nat n <= count ->
  bytes_count bufparam = count * superframe_size ->
  count * superframe_size < 2 ^ 32 ->
  count * sps < 2 ^ 32 ->
  0 <= samples_discard_start_off bufparam < 2 ^ 32 ->
  samples_discard_end_off bufparam = 0 ->
  kept_samples n k sps superframe_size bufparam
    = Z.of_nat n * sps
      - (Z.min (samples_discard_start_off bufparam) ((k + Z.of_nat n) * sps)
         - Z.min (samples_discard_start_off bufparam) (k * sps)).
Proof.
  induction n as [|n IH];
    intros k sps superframe_size bufparam count Hsps Hsz Hk Hkn Hbytes Hb Hs
      Hd He; cbn [kept_samples].
  - replace (k + Z.of_nat 0) with k by lia. lia.
  - rewrite (IH (k + 1) sps superframe_size bufparam count) by (auto; lia).
    replace (k + 1 + Z.of_nat n) with (k + Z.of_nat (S n)) by lia.
    assert (Hone :
      snd (discard_trim sps superframe_size bufparam (k * superframe_size)
             (u32 (bytes_count bufparam - k * superframe_size)))
      = sps - (Z.min (samples_discard_start_off bufparam) ((k + 1) * sps)
               - Z.min (samples_discard_start_off bufparam) (k * sps))).
    { assert (Hlt : sps < 2 ^ 32) by nia.
      unfold discard_trim. rewrite He.
      change (u32 0) with 0.
      rewrite (u32_small (k * superframe_size)) by nia.
      rewrite Z.div_mul by lia.
      rewrite (u32_small (k * sps)) by nia.
      rewrite (u32_small (samples_discard_start_off bufparam)) by lia.
      match goal with
      | |- context [0 >? u32 ?x] =>
          pose proof (u32_range x);
          destruct (Z.gtb_spec 0 (u32 x)); [lia|]
      end.
      destruct (Z.gtb_spec (samples_discard_start_off bufparam) (k * sps))
        as [Hgt | Hle]; cbn [fst snd].
      - rewrite (u32_small (samples_discard_start_off bufparam - k * sps))
          by lia.
        rewrite u32_small by lia. lia.
      - lia. }
    rewrite Hone. lia.
Qed.

(** X14: the start discard is honoured exactly.  For a buffer of [count]
    whole superframes with [D] samples to discard at its start and none at
    its end, the sizes kept from its superframes add up to
    [count * sps - min D (count * sps)]: the first [D] samples of the
    buffer are dropped, however many superframes they span. *)
Theorem start_discard_total (count : nat) (sps superframe_size : Z)
    (bufparam : BufferParameters) :
  0 < sps -> 0 < superframe_size ->
  bytes_count bufparam = Z.of_nat count * superframe_size ->
  Z.of_nat count * superframe_size < 2 ^ 32 ->
  Z.of_nat count * sps < 2 ^ 32 ->
  0 <= samples_discard_start_off bufparam < 2 ^ 32 ->
  samples_discard_end_off bufparam = 0 ->
  kept_samples count 0 sps superframe_size bufparam
    = Z.of_nat count * sps
      - Z.min (samples_discard_start_off bufparam) (Z.of_nat count * sps).
Proof.
  intros Hsps Hsz Hbytes Hb Hs Hd He.
  rewrite (kept_samples_from count 0 sps superframe_size bufparam
             (Z.of_nat count)) by (auto; lia).
  lia.
Qed.

(** Three superframes of 256 samples with the first 300 samples to drop:
    nothing of the first, 212 of the second and all of the third. *)
Lemma start_discard_total_witness :
  kept_samples 3 0 256 200 (mkBufferParameters 4096 600 0 (-1) 300 0)
    = 0 + 212 + 256.
Proof.
  rewrite (start_discard_total 3 256 200
             (mkBufferParameters 4096 600 0 (-1) 300 0));
    cbn; try lia; reflexivity.
Defined.

(** ** What the frame loop writes *)

Section FrameLoopContent.
Context {frame context : Type} {codec : DecoderState frame context}
  {zero : Silence frame}.

Lemma write_at_app (w : Z) (a b s : list frame) :
  0 <= w -> w + size a <= size s ->
  write_at (w + size a) b (write_at w a s) = write_at w (a ++ b) s.
Proof.
  unfold size, write_at. intros Hw Hfit.
  rewrite firstn_app, length_firstn.
  replace (Z.to_nat (w + Z.of_nat (length a))
           - Nat.min (Z.to_nat w) (length s))%nat
    with (length a) by lia.
  rewrite (firstn_all2 (firstn (Z.to_nat w) s))
    by (rewrite length_firstn; lia).
  rewrite firstn_app, firstn_all, Nat.sub_diag. cbn [firstn].
  rewrite app_nil_r, <- !app_assoc. do 3 f_equal.
  rewrite skipn_app, length_firstn.
  rewrite (skipn_all2 (firstn (Z.to_nat w) s))
    by (rewrite length_firstn; lia).
  cbn [app]. rewrite skipn_app.
  rewrite (skipn_all2 a) by lia. cbn [app].
  rewrite skipn_skipn, length_app. f_equal. lia.
Qed.

Lemma decode_frames_scratch (remaining : nat) :
  forall ctx input position frame_no write_pos samples loop,
  0 <= write_pos ->
  decode_frames remaining ctx input position frame_no write_pos samples
    = Ok loop ->
  scratch loop
    = write_at write_pos (delivered remaining ctx input position) samples.
Proof.
  induction remaining as [|n IH]; intros ctx input position frame_no write_pos
    samples loop Hw Hd; cbn [decode_frames delivered] in Hd |- *.
  - injection Hd as <-. cbn [scratch]. unfold write_at.
    cbn [app length]. rewrite Nat.add_0_r. symmetry. apply firstn_skipn.
  - destruct (send ctx (input + position)) as [sent ctx1].
    destruct sent.
    + destruct (receive ctx1) as [pcm ctx2].
      destruct (Z.leb_spec (write_pos + size pcm) (size samples)) as [Hfit|];
        [|discriminate].
      pose proof (size_nonneg pcm).
      apply IH in Hd; [|lia]. rewrite Hd. apply write_at_app; assumption.
    + injection Hd as <-. cbn [scratch]. unfold write_at.
      cbn [app length]. rewrite Nat.add_0_r. symmetry. apply firstn_skipn.
Qed.

(** X15: what a decoded superframe puts into the backlog.  After a decode
    step the backlog, from the old pending count on, is the trimmed window
    ([decoded_size] frames from [decoded_start_offset]) of the frames the
    decoder delivered in order, written over a superframe of silence.
    With no discard configured and a full superframe delivered, it is
    exactly those frames. *)
Theorem decoded_superframe_content params config ctx
    (data : @ModuleData frame) more (data' : @ModuleData frame) ctx' bufparam :
  let st := state data in
  let superframe_size := u32 (get config AT9_SUPERFRAME_SIZE) in
  let gotten := u32 (bytes_count bufparam - current_byte_position_in_buffer st) in
  let sps := u32 (get config AT9_SAMPLE_PER_SUPERFRAME) in
  let trim := discard_trim sps superframe_size bufparam
                (current_byte_position_in_buffer st) gotten in
  let pcm := delivered (Z.to_nat (u32 (get config AT9_FRAMES_IN_SUPERFRAME)))
               ctx (buffer bufparam) (current_byte_position_in_buffer st) in
  lookup_buffer params (current_buffer st) = Ok bufparam ->
  current_byte_position_in_buffer st < bytes_count bufparam ->
  superframe_size <= gotten ->
  0 <= decoded_samples_pending st ->
  decode_more_data params config ctx data = Ok (more, data', ctx') ->
  skipn (Z.to_nat (decoded_samples_pending st)) (extra_storage data')
    = firstn (Z.to_nat (snd trim))
        (skipn (Z.to_nat (fst trim))
           (write_at 0 pcm (repeat silence (Z.to_nat sps)))) /\
  (samples_discard_start_off bufparam = 0 ->
   samples_discard_end_off bufparam = 0 ->
   size pcm = sps ->
   skipn (Z.to_nat (decoded_samples_pending st)) (extra_storage data') = pcm).
Proof.
  cbv zeta. intros Hl Hpos Hfull Hpend Hd.
  destruct (decode_branch_inv _ _ _ _ _ _ _ _ Hd Hl Hpos) as (datac & Hc & Hsf).
  pose proof (compact_inv _ _ Hc) as Hci. cbv zeta in Hci.
  destruct Hci as (_ & _ & Ep & _ & _ & _ & _ & _ & _ & E5 & _).
  pose proof (decode_superframe_full _ _ _ _ _ _ _ _ Hsf) as Hf.
  cbv zeta in Hf. rewrite Ep, E5 in Hf.
  destruct (Hf Hfull Hpend) as (_ & _ & _ & Htail & _).
  apply decode_superframe_inv in Hsf. cbv zeta in Hsf. rewrite Ep in Hsf.
  destruct Hsf as [(Hshort & _) | (_ & _ & _ & loop & Hloop & _)]; [lia|].
  specialize (Htail loop Hloop).
  rewrite (decode_frames_scratch _ _ _ _ _ _ _ _ (Z.le_refl 0) Hloop) in Htail.
  split; [exact Htail|].
  intros Hds Hde Hsize. rewrite Htail.
  pose proof (u32_range (get config AT9_SAMPLE_PER_SUPERFRAME)) as Hsps.
  assert (Htrim : discard_trim (u32 (get config AT9_SAMPLE_PER_SUPERFRAME))
                    (u32 (get config AT9_SUPERFRAME_SIZE)) bufparam
                    (current_byte_position_in_buffer (state data))
                    (u32 (bytes_count bufparam
                          - current_byte_position_in_buffer (state data)))
                  = (0, u32 (get config AT9_SAMPLE_PER_SUPERFRAME))).
  { unfold discard_trim. rewrite Hds, Hde. change (u32 0) with 0.
    repeat match goal with
           | |- context [0 >? u32 ?x] =>
               pose proof (u32_range x);
               destruct (Z.gtb_spec 0 (u32 x)); [lia|]
           end.
    reflexivity. }
  rewrite Htrim. cbn [fst snd Z.to_nat skipn].
  unfold write_at. cbn [Z.to_nat firstn app Nat.add].
  rewrite skipn_all2 by (unfold size in *; rewrite repeat_length; lia).
  rewrite app_nil_r. apply firstn_all2. unfold size in *. lia.
Qed.

End FrameLoopContent.

(** ** The further properties on the scripted decoder *)

(** Two ticks of three sample-frames over [one_buffer]: the first leaves
    one frame pending behind a cursor of three; the second compacts,
    decodes the second superframe and hands out three of the five frames
    then pending. *)
Lemma backlog_accounting_witness :
  exists data1 self1 data2 self2,
    scripted_process 10 3 (one_buffer (-1)) idle_module idle_data
      = Ok (false, data1, self1) /\
    scripted_process 10 3 (one_buffer (-1)) self1 data1
      = Ok (false, data2, self2) /\
    decoded_samples_pending (state data1) = 1 /\
    decoded_passed (state data1) = 3 /\
    extra_storage data2 = [2; 3; 3; 4; 4] /\
    decoded_passed (state data2) = 0 + 3 /\
    size (extra_storage data2)
      = decoded_samples_pending (state data2) + decoded_passed (state data2).
Proof.
  assert (Hbound : forall config,
            3 + u32 (get (DecoderState := scripted_decoder) config
                       AT9_SAMPLE_PER_SUPERFRAME) <= 2 ^ 31)
    by (intros config; vm_compute; discriminate).
  destruct (backlog_accounting
              (codec := scripted_decoder) (zero := scripted_silence)
              3 ltac:(lia) Hbound) as (_ & _ & _ & Hticks).
  destruct (Hticks [Tick 10 (one_buffer (-1))] 10%nat (one_buffer (-1))
              (mkModuleData (mkState 8 0 0 4 8 4 8 1 3) [1; 1; 2; 2] [] 0)
              (mkModule (Some (-1, (-1, 2))) (-1))
              (mkBufferParameters 4096 16 0 (-1) 0 0) false
              (mkModuleData (mkState 16 0 0 8 16 8 16 2 3) [2; 3; 3; 4; 4] [] 0)
              (mkModule (Some (-1, (-1, 4))) (-1)))
    as (decoded_now & Hslice & _).
  - vm_compute. reflexivity.
  - discriminate.
  - reflexivity.
  - discriminate.
  - vm_compute. reflexivity.
  - destruct (Hslice eq_refl) as (_ & _ & Hcursor & Hsize).
    do 4 eexists. split; [vm_compute; reflexivity|].
    split; [vm_compute; reflexivity|]. split; [reflexivity|].
    split; [reflexivity|]. split; [reflexivity|].
    split; [exact Hcursor | exact Hsize].
Defined.

(** C7, the claim as written fails.  [ragged_buffer] holds two superframes
    and a rest of four bytes, and the voice is asked for ten sample-frames
    a tick.  The first tick decodes eight frames, runs out of data and
    hands out a backlog of ten frames, the eight decoded ones and two of
    silence: the backlog is longer than pending plus passed, and this tick
    that hands out [granularity] frames has moved nothing from pending to
    passed.  The second tick hands out the same ten frames again and
    leaves everything as it was. *)
Lemma backlog_accounting_counterexample :
  exists data1 self1,
    scripted_process 10 10 ragged_buffer idle_module idle_data
      = Ok (true, data1, self1) /\
    published 10 data1 = [1; 1; 2; 2; 3; 3; 4; 4; 0; 0] /\
    decoded_samples_pending (state data1) = 8 /\
    decoded_passed (state data1) = 0 /\
    size (extra_storage data1)
      <> decoded_samples_pending (state data1) + decoded_passed (state data1) /\
    scripted_process 10 10 ragged_buffer self1 data1 = Ok (true, data1, self1).
Proof.
  do 2 eexists. split; [vm_compute; reflexivity|].
  split; [reflexivity|]. split; [reflexivity|]. split; [reflexivity|].
  split; [vm_compute; discriminate | vm_compute; reflexivity].
Qed.



Lemma end_of_data_is_final_witness :
  exists data self earlier,
    scripted_run 4 (repeat (Tick 10 (one_buffer (-1))) 3) idle_module idle_data
      = Ok (data, self) /\
    invoked data = earlier ++ [mkCallback SCE_NGS_AT9_END_OF_DATA 0 0] /\
    scripted_run 4 [Tick 3 looping_chain; Tick 0 empty_ring] self data
      = Ok (data, self).
Proof.
  destruct (end_of_data_is_final
              (codec := scripted_decoder) (zero := scripted_silence)
              4 (repeat (Tick 10 (one_buffer (-1))) 3)
              (mkModule (Some (-1, (-1, 4))) (-1))
              (mkModuleData (mkState 0 0 (-1) 0 0 8 16 0 0) [0; 0; 0; 0]
                 [mkCallback SCE_NGS_AT9_END_OF_DATA 0 0] 0))
    as [(earlier & Hlast) Hstay].
  - vm_compute. reflexivity.
  - reflexivity.
  - eexists. eexists. exists earlier.
    split; [vm_compute; reflexivity|]. split; [exact Hlast|].
    exact (Hstay [(3%nat, looping_chain); (0%nat, empty_ring)]).
Defined.

Lemma decode_more_data_branches_witness :
  exists data' ctx',
    scripted_decode_more_data (one_buffer 1) 1 (1, 0) idle_data
      = Ok (true, data', ctx') /\
    current_buffer (state data') = 0 /\
    current_loop_count (state data') = 0.
Proof.
  eexists. eexists. split; [vm_compute; reflexivity|].
  destruct (decode_more_data_branches
              (codec := scripted_decoder) (zero := scripted_silence)
              (one_buffer 1) 1 (1, 0) idle_data true
              (mkModuleData (mkState 4 0 0 4 8 4 8 4 0) [1; 1; 0; 0]
                 [mkCallback SCE_NGS_AT9_DECODE_ERROR 4 4096] 0)
              (1, 2) (mkBufferParameters 4096 16 0 (-1) 0 0))
    as [_ Hdecode]; try (vm_compute; reflexivity).
  destruct Hdecode as (Hbuf & Hcount & _); [cbn; lia|].
  split; [exact Hbuf | exact Hcount].
Defined.

(** The second tick over [ragged_buffer]: the module holds the decoder of
    the first tick, eight frames are pending and the rest of four bytes is
    shorter than a superframe. *)
Lemma short_buffer_tick_witness :
  exists data' self',
    scripted_process 1 10 ragged_buffer (mkModule (Some (-1, (-1, 4))) (-1))
      (mkModuleData (mkState 16 0 0 0 0 8 16 8 0)
         [1; 1; 2; 2; 3; 3; 4; 4; 0; 0] [] 0)
      = Ok (true, data', self') /\
    invoked data' = [] /\
    current_byte_position_in_buffer (state data') = 16 /\
    decoded_samples_pending (state data') = 8.
Proof.
  destruct (short_buffer_tick
              (codec := scripted_decoder) (zero := scripted_silence)
              0 10 ragged_buffer (mkModule (Some (-1, (-1, 4))) (-1))
              (mkModuleData (mkState 16 0 0 0 0 8 16 8 0)
                 [1; 1; 2; 2; 3; 3; 4; 4; 0; 0] [] 0)
              (mkModuleData (mkState 16 0 0 0 0 8 16 8 0)
                 [1; 1; 2; 2; 3; 3; 4; 4; 0; 0] [] 0)
              (mkBufferParameters 4096 20 0 (-1) 0 0))
    as (data' & self' & Hrun & _ & Hcb & _ & Hpos & _ & _ & _ & Hpend).
  - discriminate.
  - reflexivity.
  - discriminate.
  - reflexivity.
  - intros config ctx [= <- _]. reflexivity.
  - reflexivity.
  - reflexivity.
  - reflexivity.
  - exists data', self'. split; [exact Hrun|]. split; [exact Hcb|].
    split; [exact Hpos | exact Hpend].
Defined.

Lemma empty_infinite_loop_never_returns_witness :
  scripted_process 7 4 spinning_chain idle_module idle_data = OutOfFuel.
Proof.
  apply (empty_infinite_loop_never_returns
           (codec := scripted_decoder) (zero := scripted_silence)
           4 spinning_chain idle_module idle_data
           (mkBufferParameters 4096 0 (-1) 1 0 0));
    try reflexivity; try discriminate; cbn; unfold size; cbn; lia.
Defined.

Lemma pending_frames_leave_in_order_witness :
  exists decoded_now data' self',
    scripted_process 10 4 (one_buffer (-1)) idle_module idle_data
      = Ok (false, data', self') /\
    pending_frames idle_data ++ decoded_now
      = published 4 data' ++ pending_frames data'.
Proof.
  destruct (pending_frames_leave_in_order
              (codec := scripted_decoder) (zero := scripted_silence)
              4 [] 10 (one_buffer (-1)) idle_module idle_data
              (mkBufferParameters 4096 16 0 (-1) 0 0) false
              (mkModuleData (mkState 8 0 0 4 8 4 8 0 4) [1; 1; 2; 2] [] 0)
              (mkModule (Some (-1, (-1, 2))) (-1))
              ltac:(lia) scripted_bound eq_refl ltac:(discriminate) eq_refl
              ltac:(discriminate) ltac:(vm_compute; reflexivity))
    as (decoded_now & Hslice & _).
  exists decoded_now. eexists. eexists.
  split; [vm_compute; reflexivity|]. exact (Hslice eq_refl).
Defined.

Lemma decoder_follows_config_witness :
  exists data' self',
    scripted_process 10 4 (one_buffer 5) idle_module idle_data
      = Ok (false, data', self') /\
    last_config self' = 5.
Proof.
  destruct (decoder_follows_config
              (codec := scripted_decoder) (zero := scripted_silence)
              4 [] idle_module idle_data eq_refl) as [_ Htick].
  destruct (Htick 10%nat (one_buffer 5) false
              (mkModuleData (mkState 8 0 0 4 8 4 8 0 4) [1; 1; 2; 2] [] 0)
              (mkModule (Some (5, (5, 2))) 5)
              (mkBufferParameters 4096 16 0 (-1) 0 0))
    as [Hlast _]; try reflexivity; try discriminate.
  eexists. eexists. split; [vm_compute; reflexivity|]. exact Hlast.
Defined.

Lemma loop_rule_witness :
  exists data',
    scripted_decode_more_data looping_chain (-1) (-1, 2) (data_at 8)
      = Ok (true, data', (-1, 2)) /\
    current_buffer (state data') = 0 /\
    current_loop_count (state data') = 0 + 1.
Proof.
  eexists. split; [vm_compute; reflexivity|].
  destruct (loop_rule
              (codec := scripted_decoder) (zero := scripted_silence)
              looping_chain (-1) (-1, 2) (data_at 8) true
              (mkModuleData (mkState 0 1 0 0 0 0 0 0 0) []
                 [mkCallback SCE_NGS_AT9_SWAPPED_BUFFER 1 4096;
                  mkCallback SCE_NGS_AT9_LOOPED_BUFFER 1 4096] 0)
              (-1, 2) (mkBufferParameters 4096 8 2 1 0 0))
    as [Hstay _].
  - vm_compute. reflexivity.
  - reflexivity.
  - cbn. lia.
  - apply Hstay. right. cbn. lia.
Defined.

Lemma decoded_superframe_content_witness :
  exists data' ctx',
    scripted_decode_more_data (one_buffer (-1)) (-1) (-1, 0) idle_data
      = Ok (true, data', ctx') /\
    extra_storage data' = [1; 1; 2; 2].
Proof.
  eexists. eexists. split; [vm_compute; reflexivity|].
  destruct (decoded_superframe_content
              (codec := scripted_decoder) (zero := scripted_silence)
              (one_buffer (-1)) (-1) (-1, 0) idle_data true
              (mkModuleData (mkState 8 0 0 4 8 4 8 4 0) [1; 1; 2; 2] [] 0)
              (-1, 2) (mkBufferParameters 4096 16 0 (-1) 0 0)
              eq_refl ltac:(cbn; lia) ltac:(vm_compute; discriminate)
              ltac:(cbn; lia) ltac:(vm_compute; reflexivity))
    as [_ Hfull].
  exact (Hfull eq_refl eq_refl eq_refl).
Defined.
